(** * SNS analysis tool: the browser front end (static/js/main.js and
      static/js/dashboard.js)

    A shallow embedding of the two page scripts.  JavaScript numbers are
    IEEE-754 binary64 values ([spec_float] with precision 53); the builtins
    the scripts call on them ([Number::toString], [toFixed], [/], [>=]) are
    written out over exact integer arithmetic.  The page state (alerts,
    downloads, fetches, element texts, Chart.js objects) is threaded through
    a small state-and-exception monad. *)

From Stdlib Require Import ZArith Lia Ascii String.
From Stdlib Require Import Floats.SpecFloat.
From stdpp Require Import base decidable option list strings gmap pretty.

(** ** JavaScript values and builtins *)
Module JS.

Local Open Scope Z_scope.

Definition prec : Z := 53.
Definition emax : Z := 1024.
Definition emin : Z := 3 - emax - prec.

(** The Number type. *)
Definition number : Type := spec_float.

Definition Number_of_Z (z : Z) : number := binary_normalize prec emax z 0 false.

(** A decimal literal [s * 10^p] of a JSON text, as [JSON.parse] reads it
    (correctly rounded when [s] and [10^-p] are exact doubles). *)
Definition Number_of_decimal (s p : Z) : number :=
  if 0 <=? p then Number_of_Z (s * 10 ^ p)
  else SFdiv prec emax (Number_of_Z s) (Number_of_Z (10 ^ (- p))).

(** [x / y] and [x >= y] on Numbers. *)
Definition div (x y : number) : number := SFdiv prec emax x y.
Definition geb (x y : number) : bool := SFleb y x.

(** ToBoolean on a Number: [+0], [-0] and [NaN] are falsy. *)
Definition Number_truthy (x : number) : bool :=
  match x with
  | S754_zero _ | S754_nan => false
  | _ => true
  end.

(** Decimal digits of a non-negative integer. *)
Definition digits (z : Z) : string := pretty (Z.to_N z).

Fixpoint zeros (n : nat) : string :=
  match n with O => "" | S k => String "0" (zeros k) end.

Definition slen (s : string) : Z := Z.of_nat (String.length s).

Fixpoint take_str (n : nat) (s : string) : string :=
  match n, s with
  | S k, String c r => String c (take_str k r)
  | _, _ => ""
  end.

Fixpoint drop_str (n : nat) (s : string) : string :=
  match n, s with
  | S k, String c r => drop_str k r
  | _, _ => s
  end.

(** The exact value of the finite double with mantissa [m] and exponent [e]
    is [num_of m e / den_of e]. *)
Definition num_of (m : positive) (e : Z) : Z := Zpos m * 2 ^ Z.max e 0.
Definition den_of (e : Z) : Z := 2 ^ Z.max (- e) 0.

(** [s * 10^p] compared with [b * 2^(e-2)]. *)
Definition cmp_dec_bin (s p b e : Z) : comparison :=
  (s * 10 ^ Z.max p 0 * 2 ^ Z.max (2 - e) 0)
  ?= (b * 2 ^ Z.max (e - 2) 0 * 10 ^ Z.max (- p) 0).

(** Does the decimal [s * 10^p] round (to nearest, ties to even) to the
    double [m * 2^e]?  The bounds are the midpoints to its two neighbours,
    in units of [2^(e-2)]. *)
Definition rounds_to (m : positive) (e : Z) (s p : Z) : bool :=
  let glo := if (Zpos m =? 2 ^ (prec - 1)) && (emin <? e) then 1 else 2 in
  let lo := cmp_dec_bin s p (4 * Zpos m - glo) e in
  let hi := cmp_dec_bin s p (4 * Zpos m + 2) e in
  match lo, hi with
  | Gt, Lt => true
  | Eq, _ | _, Eq => Z.even (Zpos m)
  | _, _ => false
  end.

(** For [0 < nu/de < 1]: the least [j >= 0] with [nu/de * 10^(j+1) >= 1]. *)
Fixpoint lead_zeros (fuel : nat) (nu de : Z) (j : Z) : Z :=
  match fuel with
  | O => j
  | S f => if de <=? nu * 10 then j else lead_zeros f (nu * 10) de (j + 1)
  end.

(** The [n] with [10^(n-1) <= m * 2^e < 10^n]. *)
Definition dec_exponent (m : positive) (e : Z) : Z :=
  let nu := num_of m e in
  let de := den_of e in
  if de <=? nu then slen (digits (nu / de))
  else - lead_zeros 400 nu de 0.

(** The [k]-digit decimals next to [m * 2^e] that read back as it; the
    nearer one when both do. *)
Definition candidate (m : positive) (e : Z) (n k : Z) : option (Z * Z) :=
  let p := n - k in
  let nu := num_of m e * 10 ^ Z.max (- p) 0 in
  let de := den_of e * 10 ^ Z.max p 0 in
  let lo := nu / de in
  let hi := lo + 1 in
  let vlo := (0 <? lo) && rounds_to m e lo p in
  let vhi := rounds_to m e hi p in
  match vlo, vhi with
  | true, false => Some (lo, p)
  | false, true => Some (hi, p)
  | false, false => None
  | true, true =>
      match (2 * nu) ?= ((2 * lo + 1) * de) with
      | Lt => Some (lo, p)
      | Gt => Some (hi, p)
      | Eq => if Z.even lo then Some (lo, p) else Some (hi, p)
      end
  end.

(** The shortest decimal that reads back as [m * 2^e]: the first [k] with a
    candidate (17 digits always suffice for a double). *)
Fixpoint shortest (fuel : nat) (m : positive) (e : Z) (n k : Z) : Z * Z :=
  match fuel with
  | O => (num_of m e * 10 ^ Z.max (k - n) 0 / (den_of e * 10 ^ Z.max (n - k) 0), n - k)
  | S f =>
      match candidate m e n k with
      | Some r => r
      | None => shortest f m e n (k + 1)
      end
  end.

Fixpoint strip_zeros (fuel : nat) (s p : Z) : Z * Z :=
  match fuel with
  | O => (s, p)
  | S f =>
      if (s mod 10 =? 0) && (0 <? s) then strip_zeros f (s / 10) (p + 1)
      else (s, p)
  end.

(** The text of [s * 10^(n-k)], [k] the number of digits of [s]
    (Number::toString, radix 10, steps 6 to 13). *)
Definition format_decimal (s n : Z) : string :=
  let ds := digits s in
  let k := slen ds in
  if (-5 <=? n) && (n <=? 21) then
    if k <=? n then ds +:+ zeros (Z.to_nat (n - k))
    else if 0 <? n then take_str (Z.to_nat n) ds +:+ "." +:+ drop_str (Z.to_nat n) ds
    else "0." +:+ zeros (Z.to_nat (- n)) +:+ ds
  else
    let ex := n - 1 in
    let sign := if 0 <=? ex then "+" else "-" in
    if k =? 1 then ds +:+ "e" +:+ sign +:+ digits (Z.abs ex)
    else take_str 1 ds +:+ "." +:+ drop_str 1 ds +:+ "e" +:+ sign +:+ digits (Z.abs ex).

Definition toString_pos (m : positive) (e : Z) : string :=
  let n := dec_exponent m e in
  let '(s, p) := shortest 17 m e n 1 in
  let '(s', p') := strip_zeros 20 s p in
  format_decimal s' (p' + slen (digits s')).

(** Number::toString(x), radix 10. *)
Definition Number_toString (x : number) : string :=
  match x with
  | S754_nan => "NaN"
  | S754_zero _ => "0"
  | S754_infinity false => "Infinity"
  | S754_infinity true => "-Infinity"
  | S754_finite false m e => toString_pos m e
  | S754_finite true m e => "-" +:+ toString_pos m e
  end.

(** The digits of [toFixed(f)] for the non-negative value [nu/de]: the
    integer [n] nearest to [nu/de * 10^f] (the larger one on a tie), with
    the point before its last [f] digits. *)
Definition fixed_pos (f : nat) (nu de : Z) : string :=
  let n := (2 * nu * 10 ^ Z.of_nat f + de) / (2 * de) in
  let ds := digits n in
  if Nat.eqb f 0 then ds
  else
    let ds' := zeros (f + 1 - String.length ds) +:+ ds in
    let k := String.length ds' in
    take_str (k - f) ds' +:+ "." +:+ drop_str (k - f) ds'.

(** Number.prototype.toFixed(f), for [0 <= f <= 100]. *)
Definition toFixed (f : nat) (x : number) : string :=
  match x with
  | S754_zero _ => fixed_pos f 0 1
  | S754_finite sg m e =>
      let nu := num_of m e in
      let de := den_of e in
      if 10 ^ 21 * de <=? nu then Number_toString x
      else (if sg then "-" else "") +:+ fixed_pos f nu de
  | _ => Number_toString x
  end.

(** Values that reach a template literal, [||] or [textContent]. *)
Inductive value :=
  | Undefined
  | Num (x : number)
  | Str (s : string).

Definition ToBoolean (v : value) : bool :=
  match v with
  | Undefined => false
  | Num x => Number_truthy x
  | Str s => negb (String.eqb s "")
  end.

Definition ToString (v : value) : string :=
  match v with
  | Undefined => "undefined"
  | Num x => Number_toString x
  | Str s => s
  end.

(** [a || b] *)
Definition or_else (a b : value) : value := if ToBoolean a then a else b.

(** A property that may be missing from its object. *)
Definition prop (f : option number) : value :=
  match f with
  | Some x => Num x
  | None => Undefined
  end.

(** [s.split(c)[0]] *)
Fixpoint split_head (c : ascii) (s : string) : string :=
  match s with
  | EmptyString => ""
  | String a r => if Ascii.eqb a c then "" else String a (split_head c r)
  end.

(** A time value, broken down in UTC. *)
Record Date := {
  year : Z; month : Z; day : Z;
  hours : Z; minutes : Z; seconds : Z; milliseconds : Z
}.

Definition pad (n : nat) (z : Z) : string :=
  let ds := digits z in zeros (n - String.length ds) +:+ ds.

(** Date.prototype.toISOString *)
Definition toISOString (t : Date) : string :=
  (if (0 <=? year t) && (year t <=? 9999) then pad 4 (year t)
   else (if year t <? 0 then "-" else "+") +:+ pad 6 (Z.abs (year t)))
  +:+ "-" +:+ pad 2 (month t) +:+ "-" +:+ pad 2 (day t)
  +:+ "T" +:+ pad 2 (hours t) +:+ ":" +:+ pad 2 (minutes t)
  +:+ ":" +:+ pad 2 (seconds t) +:+ "." +:+ pad 3 (milliseconds t) +:+ "Z".

(** [s.includes(a)] *)
Fixpoint String_includes (s a : string) : bool :=
  String.prefix a s ||
  match s with
  | EmptyString => false
  | String _ r => String_includes r a
  end.

(** [x + y] and [x * y] on Numbers. *)
Definition add (x y : number) : number := SFadd prec emax x y.
Definition mul (x y : number) : number := SFmul prec emax x y.

(** ToNumber of a property that holds a Number when it is there: a missing
    one is [undefined], which becomes [NaN]. *)
Definition ToNumber (f : option number) : number := default S754_nan f.

(** Math.round(x): the integer nearest to [x], the larger one on a tie; a
    result of zero keeps the sign of [x]. *)
Definition Math_round (x : number) : number :=
  match x with
  | S754_finite sg m e =>
      let nu := num_of m e in
      let de := den_of e in
      let k := (if sg then de - 2 * nu else 2 * nu + de) / (2 * de) in
      if k =? 0 then S754_zero sg else Number_of_Z k
  | _ => x
  end.

End JS.

Import JS.

(** The line feed of the scripts' ["\n"]. *)
Definition LF : string := String (ascii_of_nat 10) "".

(** ** The analysis result on the wire

    The JSON object that [/api/analyze] answers with.  A field is optional
    here when some path of the scripts tests it before use. *)
Record Stats := {
  total_posts : option number;
  avg_engagement : option number;
  total_impressions : option number;
  follower_count : option number;
  total_likes : option number;
  total_comments : option number
}.

Record Series := {
  labels : option (list string);
  values : option (list number)
}.

Record AnalysisData := {
  stats : Stats;
  engagement_data : option Series;
  timing_data : option Series
}.

(** ** The page: what the scripts can observe and change *)

Record Download := {
  download_name : string;
  blob_type : string;
  blob_text : string
}.

Record FormData := {
  form_platform : option string;
  form_username : option string;
  form_period : option string;
  form_analysis_type : list string
}.

Inductive Body :=
  | AnalyzeBody (data : FormData)
  | SheetsBody (data : AnalysisData).

Record Fetch := {
  fetch_url : string;
  fetch_method : string;
  fetch_body : Body
}.

(** A Chart.js object. *)
Record Chart := {
  chart_canvas : string;
  chart_type : string;
  chart_labels : option (list string);
  chart_values : option (list number);
  chart_live : bool
}.

Record Window := {
  elements : gset string;
  textContent : gmap string string;
  display : gmap string string;
  alerts : list string;
  console : list string;
  fetches : list Fetch;
  downloads : list Download;
  opened : list string;
  charts : list Chart;
  clock : Date
}.

(** A page is the window and the script's own globals. *)
Record Page (G : Type) := MkPage { win : Window; globals : G }.
Arguments MkPage {G} _ _.
Arguments win {G} _.
Arguments globals {G} _.

Inductive exn :=
  | TypeError
  | Error (message : string).

Inductive outcome (G A : Type) :=
  | Return (a : A) (p : Page G)
  | Throw (e : exn) (p : Page G).
Arguments Return {G A} _ _.
Arguments Throw {G A} _ _.

Definition M (G A : Type) : Type := Page G → outcome G A.

#[export] Instance M_ret {G} : MRet (M G) := λ A a p, Return a p.
#[export] Instance M_bind {G} : MBind (M G) := λ A B f m p,
  match m p with
  | Return a p' => f a p'
  | Throw e p' => Throw e p'
  end.
#[export] Instance M_throw {G} : MThrow exn (M G) := λ A e p, Throw e p.

(** [try { body } catch (error) { handler }] *)
Definition try_catch {G A} (body : M G A) (handler : exn → M G A) : M G A :=
  λ p, match body p with
       | Return a p' => Return a p'
       | Throw e p' => handler e p'
       end.

(** [try { body } finally { final }] *)
Definition try_finally {G A} (body : M G A) (final : M G unit) : M G A :=
  λ p, match body p with
       | Return a p' => (final ;; mret a) p'
       | Throw e p' => (final ;; mthrow e) p'
       end.

Definition page_of {G A} (o : outcome G A) : Page G :=
  match o with
  | Return _ p => p
  | Throw _ p => p
  end.

Definition get_globals {G} : M G G := λ p, Return (globals p) p.
Definition set_globals {G} (g : G) : M G unit := λ p, Return tt (MkPage (win p) g).
Definition get_window {G} : M G Window := λ p, Return (win p) p.
Definition set_window {G} (w : Window) : M G unit := λ p, Return tt (MkPage w (globals p)).

(** *** Window operations *)
Section window_ops.
Context {G : Type}.

Definition update_window (f : Window → Window) : M G unit :=
  w ← get_window; set_window (f w).

(** [alert(msg)] *)
Definition alert (msg : string) : M G unit :=
  update_window (λ w,
    {| elements := elements w; textContent := textContent w; display := display w;
       alerts := alerts w ++ [msg]; console := console w; fetches := fetches w;
       downloads := downloads w; opened := opened w; charts := charts w;
       clock := clock w |}).

(** [console.error(msg, error)] and [console.log] *)
Definition console_log (msg : string) : M G unit :=
  update_window (λ w,
    {| elements := elements w; textContent := textContent w; display := display w;
       alerts := alerts w; console := console w ++ [msg]; fetches := fetches w;
       downloads := downloads w; opened := opened w; charts := charts w;
       clock := clock w |}).

(** [document.getElementById(id)]: the element, or [null]. *)
Definition getElementById (id : string) : M G (option string) :=
  w ← get_window; mret (if decide (id ∈ elements w) then Some id else None).

(** [document.querySelector(sel)]: the first element that matches, or
    [null].  An element the scripts reach by a selector is named by that
    selector. *)
Definition querySelector (sel : string) : M G (option string) :=
  w ← get_window; mret (if decide (sel ∈ elements w) then Some sel else None).

(** [el.textContent = text] *)
Definition set_textContent (el : option string) (text : string) : M G unit :=
  match el with
  | None => mthrow TypeError
  | Some id =>
      update_window (λ w,
        {| elements := elements w; textContent := <[id := text]> (textContent w);
           display := display w; alerts := alerts w; console := console w;
           fetches := fetches w; downloads := downloads w; opened := opened w;
           charts := charts w; clock := clock w |})
  end.

(** [el.style.display = v] *)
Definition set_display (el : option string) (v : string) : M G unit :=
  match el with
  | None => mthrow TypeError
  | Some id =>
      update_window (λ w,
        {| elements := elements w; textContent := textContent w;
           display := <[id := v]> (display w); alerts := alerts w;
           console := console w; fetches := fetches w; downloads := downloads w;
           opened := opened w; charts := charts w; clock := clock w |})
  end.

(** [el.scrollIntoView(...)] and [el.getContext('2d')]: only the receiver
    matters here. *)
Definition scrollIntoView (el : option string) : M G unit :=
  match el with
  | None => mthrow TypeError
  | Some _ => mret tt
  end.

Definition getContext (el : option string) : M G string :=
  match el with
  | None => mthrow TypeError
  | Some id => mret id
  end.

(** [fetch(url, {method, body})]: the request is issued. *)
Definition fetch (url method : string) (body : Body) : M G unit :=
  update_window (λ w,
    {| elements := elements w; textContent := textContent w; display := display w;
       alerts := alerts w; console := console w;
       fetches := fetches w ++ [{| fetch_url := url; fetch_method := method;
                                    fetch_body := body |}];
       downloads := downloads w; opened := opened w; charts := charts w;
       clock := clock w |}).

(** [window.open(url, '_blank')] *)
Definition window_open (url : string) : M G unit :=
  update_window (λ w,
    {| elements := elements w; textContent := textContent w; display := display w;
       alerts := alerts w; console := console w; fetches := fetches w;
       downloads := downloads w; opened := opened w ++ [url]; charts := charts w;
       clock := clock w |}).

(** A [Blob] of [text] behind a hidden link with a [download] attribute,
    clicked once. *)
Definition download (name type text : string) : M G unit :=
  update_window (λ w,
    {| elements := elements w; textContent := textContent w; display := display w;
       alerts := alerts w; console := console w; fetches := fetches w;
       downloads := downloads w ++ [{| download_name := name; blob_type := type;
                                        blob_text := text |}];
       opened := opened w; charts := charts w; clock := clock w |}).

(** [new Date()] *)
Definition new_Date : M G Date := w ← get_window; mret (clock w).

(** [new Chart(ctx, {type, data: {labels, datasets: [{data}]}})]: the new
    object is the last of [charts]. *)
Definition new_Chart (ctx type : string) (ls : option (list string))
    (vs : option (list number)) : M G nat :=
  w ← get_window;
  set_window
    {| elements := elements w; textContent := textContent w; display := display w;
       alerts := alerts w; console := console w; fetches := fetches w;
       downloads := downloads w; opened := opened w;
       charts := charts w ++ [{| chart_canvas := ctx; chart_type := type;
                                 chart_labels := ls; chart_values := vs;
                                 chart_live := true |}];
       clock := clock w |};;
  mret (length (charts w)).

Definition destroyed (c : Chart) : Chart :=
  {| chart_canvas := chart_canvas c; chart_type := chart_type c;
     chart_labels := chart_labels c; chart_values := chart_values c;
     chart_live := false |}.

(** [chart.destroy()] *)
Definition Chart_destroy (c : nat) : M G unit :=
  update_window (λ w,
    {| elements := elements w; textContent := textContent w; display := display w;
       alerts := alerts w; console := console w; fetches := fetches w;
       downloads := downloads w; opened := opened w;
       charts := alter destroyed c (charts w); clock := clock w |}).

(** [chart.update()] on a chart that is alive: it is drawn again from the
    data it holds. *)
Definition Chart_update (c : nat) : M G unit := mret tt.

End window_ops.

(** What a settled [fetch] hands to the code after [await]. *)
Inductive Response (A : Type) :=
  | Rejected
  | Settled (ok : bool) (status : Z) (json : option A).
Arguments Rejected {A}.
Arguments Settled {A} _ _ _.

Definition zero : number := Number_of_Z 0.

(** [for (let i = start; i < start + n; i++) acc = body(i, acc)], where the
    body may throw. *)
Fixpoint for_range {A} (start n : nat) (body : nat → A → option A) (acc : A) : option A :=
  match n with
  | O => Some acc
  | S k => acc' ← body start acc; for_range (S start) k body acc'
  end.

(** [array[i]] in a template literal. *)
Definition label_at (ls : list string) (i : nat) : value :=
  match ls !! i with
  | Some s => Str s
  | None => Undefined
  end.

(** A pure computation that throws a TypeError when it has no result. *)
Definition or_TypeError {G A} (o : option A) : M G A :=
  match o with
  | Some a => mret a
  | None => mthrow TypeError
  end.

(** ** static/js/main.js *)
Module Main.

Record Globals := {
  engagementChart : option nat;
  timingChart : option nat;
  currentAnalysisData : option AnalysisData   (* window.currentAnalysisData *)
}.

Definition initial : Globals :=
  {| engagementChart := None; timingChart := None; currentAnalysisData := None |}.

Definition msg_required : string := "すべての必須項目を入力してください。".
Definition msg_select_one : string := "少なくとも1つの分析項目を選択してください。".
Definition msg_analysis_failed : string :=
  "分析中にエラーが発生しました。APIキーの設定やネットワーク接続を確認してください。".
Definition msg_no_data : string := "エクスポートするデータがありません。".
Definition msg_sheets_failed : string :=
  "Google Sheetsへの保存中にエラーが発生しました。設定を確認してください。".

(** [!field] for a value of [FormData.get]: [null] and the empty string. *)
Definition missing (field : option string) : bool :=
  match field with
  | Some s => String.eqb s ""
  | None => true
  end.

Definition help_instagram : string :=
  "Instagram選択時はデモデータで動作確認できます（APIキー不要）".
Definition help_twitter : string := "Twitter API設定が必要です".
Definition placeholder_demo : string := "任意のユーザー名（デモ用）".
Definition placeholder_default : string := "@を除いたユーザー名".

(** [el.placeholder = text], on the [placeholder] attributes of the
    document. *)
Definition set_placeholder (el : option string) (text : string)
    (placeholder : gmap string string) : M Globals (gmap string string) :=
  match el with
  | None => mthrow TypeError
  | Some id => mret (<[id := text]> placeholder)
  end.

(** [handlePlatformChange(event)], [platform] the value of the select; the
    [placeholder] attributes are passed in and returned. *)
Definition handlePlatformChange (platform : string) (placeholder : gmap string string)
    : M Globals (gmap string string) :=
  usernameHelp ← getElementById "usernameHelp";
  usernameInput ← getElementById "username";
  if String.eqb platform "instagram" then
    set_textContent usernameHelp help_instagram;;
    set_placeholder usernameInput placeholder_demo placeholder
  else if String.eqb platform "twitter" then
    set_textContent usernameHelp help_twitter;;
    set_placeholder usernameInput placeholder_default placeholder
  else
    set_textContent usernameHelp "";;
    set_placeholder usernameInput placeholder_default placeholder.

Definition showLoading : M Globals unit :=
  el ← getElementById "loading"; set_display el "block";;
  el ← getElementById "resultsSection"; set_display el "none".

Definition hideLoading : M Globals unit :=
  el ← getElementById "loading"; set_display el "none".

(** [handleFormSubmit], up to the [await fetch(...)]. *)
Definition handleFormSubmit (form : FormData) : M Globals unit :=
  if missing (form_platform form) || missing (form_username form)
     || missing (form_period form)
  then alert msg_required
  else if Nat.eqb (length (form_analysis_type form)) 0
  then alert msg_select_one
  else
    showLoading;;
    fetch "/api/analyze" "POST" (AnalyzeBody form).

Definition formatNumber (num : number) : string :=
  if geb num (Number_of_Z 1000000) then
    toFixed 1 (div num (Number_of_Z 1000000)) +:+ "M"
  else if geb num (Number_of_Z 1000) then
    toFixed 1 (div num (Number_of_Z 1000)) +:+ "K"
  else Number_toString num.

Definition createEngagementChart (data : Series) : M Globals unit :=
  el ← getElementById "engagementChart";
  ctx ← getContext el;
  g ← get_globals;
  match engagementChart g with
  | Some c => Chart_destroy c
  | None => mret tt
  end;;
  c ← new_Chart ctx "line" (labels data) (values data);
  set_globals {| engagementChart := Some c; timingChart := timingChart g;
                 currentAnalysisData := currentAnalysisData g |}.

Definition createTimingChart (data : Series) : M Globals unit :=
  el ← getElementById "timingChart";
  ctx ← getContext el;
  g ← get_globals;
  match timingChart g with
  | Some c => Chart_destroy c
  | None => mret tt
  end;;
  c ← new_Chart ctx "bar" (labels data) (values data);
  set_globals {| engagementChart := engagementChart g; timingChart := Some c;
                 currentAnalysisData := currentAnalysisData g |}.

Definition displayResults (data : AnalysisData) : M Globals unit :=
  el ← getElementById "totalPosts";
  set_textContent el (ToString (or_else (prop (total_posts (stats data))) (Str "-")));;
  el ← getElementById "avgEngagement";
  set_textContent el
    (match avg_engagement (stats data) with
     | Some x => if Number_truthy x then toFixed 2 x +:+ "%" else "-"
     | None => "-"
     end);;
  el ← getElementById "totalImpressions";
  set_textContent el
    (match total_impressions (stats data) with
     | Some x => if Number_truthy x then formatNumber x else "-"
     | None => "-"
     end);;
  el ← getElementById "followerCount";
  set_textContent el
    (match follower_count (stats data) with
     | Some x => if Number_truthy x then formatNumber x else "-"
     | None => "-"
     end);;
  match engagement_data data with
  | Some s => createEngagementChart s
  | None => mret tt
  end;;
  match timing_data data with
  | Some s => createTimingChart s
  | None => mret tt
  end;;
  g ← get_globals;
  set_globals {| engagementChart := engagementChart g; timingChart := timingChart g;
                 currentAnalysisData := Some data |};;
  el ← getElementById "resultsSection"; set_display el "block";;
  el ← getElementById "resultsSection"; scrollIntoView el.

(** [handleFormSubmit] after the [await]: the body of its [try], its
    [catch] and its [finally]. *)
Definition handleFormSubmit_resume (r : Response AnalysisData) : M Globals unit :=
  try_finally
    (try_catch
       (match r with
        | Rejected => mthrow TypeError
        | Settled ok status json =>
            if negb ok then
              mthrow (Error ("HTTP error! status: " +:+ pretty status))
            else
              result ← or_TypeError json;
              displayResults result
        end)
       (λ error, console_log "分析エラー:";; alert msg_analysis_failed))
    hideLoading.

(** The text [exportToCSV] builds in [csv]. *)
Definition csv_text (data : AnalysisData) : option string :=
  let csv := "データ種別,値" +:+ LF in
  let csv := csv +:+ "総投稿数,"
             +:+ ToString (or_else (prop (total_posts (stats data))) (Num zero)) +:+ LF in
  let csv := csv +:+ "平均エンゲージメント率,"
             +:+ ToString (or_else (prop (avg_engagement (stats data))) (Num zero))
             +:+ "%" +:+ LF in
  let csv := csv +:+ "総インプレッション,"
             +:+ ToString (or_else (prop (total_impressions (stats data))) (Num zero))
             +:+ LF in
  let csv := csv +:+ "フォロワー数,"
             +:+ ToString (or_else (prop (follower_count (stats data))) (Num zero))
             +:+ LF in
  match engagement_data data with
  | Some ed =>
      let csv := csv +:+ LF +:+ "日付,エンゲージメント率" +:+ LF in
      ls ← labels ed;
      for_range 0 (length ls)
        (λ i csv,
           vs ← values ed;
           Some (csv +:+ ToString (label_at ls i) +:+ ","
                 +:+ ToString (prop (vs !! i)) +:+ LF))
        csv
  | None => Some csv
  end.

Definition exportToCSV : M Globals unit :=
  g ← get_globals;
  match currentAnalysisData g with
  | None => alert msg_no_data
  | Some data =>
      csv ← or_TypeError (csv_text data);
      now ← new_Date;
      download ("sns_analysis_" +:+ split_head "T" (toISOString now) +:+ ".csv")
        "text/csv;charset=utf-8;" csv
  end.

(** [exportToGoogleSheets], up to the [await fetch(...)]. *)
Definition exportToGoogleSheets : M Globals unit :=
  g ← get_globals;
  match currentAnalysisData g with
  | None => alert msg_no_data
  | Some data => fetch "/api/export/sheets" "POST" (SheetsBody data)
  end.

(** The answer of [/api/export/sheets]; [success] is the truth value of
    the property, and a text that is [None] is a property the answer does
    not have. *)
Record SheetsResult := {
  success : bool;
  sheet_url : option string;
  error : option string
}.

Definition text_of (s : option string) : value :=
  match s with
  | Some s => Str s
  | None => Undefined
  end.

(** The URL [window.open] is given: an [undefined] argument takes the
    parameter's default, the empty string. *)
Definition url_argument (url : option string) : string := default "" url.

(** [exportToGoogleSheets] after the [await]. *)
Definition exportToGoogleSheets_resume (r : Response SheetsResult) : M Globals unit :=
  try_catch
    (match r with
     | Rejected => mthrow TypeError
     | Settled ok status json =>
         if negb ok then
           mthrow (Error ("HTTP error! status: " +:+ pretty status))
         else
           result ← or_TypeError json;
           if success result then
             alert ("Google Sheetsに保存しました: " +:+ ToString (text_of (sheet_url result)));;
             window_open (url_argument (sheet_url result))
           else
             mthrow (Error (ToString (or_else (text_of (error result))
                                        (Str "Google Sheetsへの保存に失敗しました"))))
     end)
    (λ error, console_log "Google Sheets export error:";; alert msg_sheets_failed).

End Main.

(** ** static/js/dashboard.js *)
Module Dashboard.

Record Globals := {
  mainChart : option nat;
  timingChart : option nat;
  currentData : option AnalysisData
}.

Definition initial : Globals :=
  {| mainChart := None; timingChart := None; currentData := None |}.

Definition msg_no_data : string := "エクスポートするデータがありません。".

(** [formatNumber(num)]; [None] is an [undefined] argument. *)
Definition formatNumber (num : option number) : string :=
  match num with
  | Some x =>
      if geb x (Number_of_Z 1000000) then
        toFixed 1 (div x (Number_of_Z 1000000)) +:+ "M"
      else if geb x (Number_of_Z 1000) then
        toFixed 1 (div x (Number_of_Z 1000)) +:+ "K"
      else ToString (or_else (Str (Number_toString x)) (Str "0"))
  | None => "0"
  end.

Definition createMainChart : M Globals unit :=
  ctx ← getElementById "mainChart";
  g ← get_globals;
  match ctx with
  | None => mret tt
  | Some canvas =>
      data ← or_TypeError (currentData g);
      match engagement_data data with
      | None => mret tt
      | Some ed =>
          match mainChart g with
          | Some c => Chart_destroy c
          | None => mret tt
          end;;
          let ls := default [] (labels ed) in
          let vs := default [] (values ed) in
          c ← new_Chart canvas "line" (Some ls) (Some vs);
          set_globals {| mainChart := Some c; timingChart := timingChart g;
                         currentData := currentData g |}
      end
  end.

Definition createTimingChartDashboard : M Globals unit :=
  ctx ← getElementById "timingChart";
  g ← get_globals;
  match ctx with
  | None => mret tt
  | Some canvas =>
      data ← or_TypeError (currentData g);
      match timing_data data with
      | None => mret tt
      | Some td =>
          match timingChart g with
          | Some c => Chart_destroy c
          | None => mret tt
          end;;
          let ls := default [] (labels td) in
          let vs := default [] (values td) in
          c ← new_Chart canvas "doughnut" (Some (take 8 ls)) (Some (take 8 vs));
          set_globals {| mainChart := mainChart g; timingChart := Some c;
                         currentData := currentData g |}
      end
  end.

Definition createCharts : M Globals unit :=
  createMainChart;; createTimingChartDashboard.

(** The text [exportData] builds in [csv]. *)
Definition csv_text (data : AnalysisData) : option string :=
  let csv := "メトリック,値" +:+ LF in
  let csv := csv +:+ "総投稿数,"
             +:+ ToString (or_else (prop (total_posts (stats data))) (Num zero)) +:+ LF in
  let csv := csv +:+ "総いいね数,"
             +:+ ToString (or_else (prop (total_likes (stats data))) (Num zero)) +:+ LF in
  let csv := csv +:+ "総コメント数,"
             +:+ ToString (or_else (prop (total_comments (stats data))) (Num zero)) +:+ LF in
  let csv := csv +:+ "平均エンゲージメント,"
             +:+ ToString (or_else (prop (avg_engagement (stats data))) (Num zero)) +:+ LF in
  match engagement_data data with
  | Some ed =>
      match labels ed with
      | Some ls =>
          let csv := csv +:+ LF +:+ "日付,エンゲージメント" +:+ LF in
          for_range 0 (length ls)
            (λ i csv,
               vs ← values ed;
               Some (csv +:+ ToString (label_at ls i) +:+ ","
                     +:+ ToString (or_else (prop (vs !! i)) (Num zero)) +:+ LF))
            csv
      | None => Some csv
      end
  | None => Some csv
  end.

Definition exportData : M Globals unit :=
  g ← get_globals;
  match currentData g with
  | None => alert msg_no_data
  | Some data =>
      csv ← or_TypeError (csv_text data);
      now ← new_Date;
      download ("sns_analysis_dashboard_" +:+ split_head "T" (toISOString now) +:+ ".csv")
        "text/csv;charset=utf-8;" csv
  end.

(** [x || 0] for a Number and for a statistic. *)
Definition or_zero (x : number) : number := if Number_truthy x then x else zero.

Definition stat_or_zero (stat : option number) : number :=
  match stat with
  | Some x => or_zero x
  | None => zero
  end.

(** The [metrics] object of updateMetricsCards. *)
Record Metrics := {
  posts : number;
  engagement : number;
  clicks : number;
  cost : number
}.

Definition metrics (s : Stats) : Metrics :=
  {| posts := stat_or_zero (total_posts s);
     engagement := or_zero (add (ToNumber (total_likes s)) (ToNumber (total_comments s)));
     clicks := stat_or_zero (total_comments s);
     cost := Math_round (mul (stat_or_zero (avg_engagement s)) (Number_of_Z 10)) |}.

Definition metric_card (key : string) : string :=
  ".metric-card." +:+ key +:+ " .metric-value".

(** One round of the loop over the keys of [metrics]. *)
Definition update_card (key : string) (v : number) : M Globals unit :=
  card ← querySelector (metric_card key);
  match card with
  | Some _ => set_textContent card (formatNumber (Some v))
  | None => mret tt
  end.

Definition updateMetricsCards : M Globals unit :=
  g ← get_globals;
  data ← or_TypeError (currentData g);
  let m := metrics (stats data) in
  update_card "posts" (posts m);;
  update_card "engagement" (engagement m);;
  update_card "clicks" (clicks m);;
  update_card "cost" (cost m).

(** [updateChartPeriod(period)]; the console line is the two arguments
    of [console.log], separated by a space. *)
Definition updateChartPeriod (period : option string) : M Globals unit :=
  console_log ("Updating chart for period: " +:+ ToString (Main.text_of period));;
  g ← get_globals;
  match mainChart g with
  | Some c => Chart_update c
  | None => mret tt
  end.

(** An element initializeDashboard sets a click handler on: its classes
    and its [data-period] attribute. *)
Record Item := {
  classList : gset string;
  dataset_period : option string
}.

Definition classList_remove (c : string) (it : Item) : Item :=
  {| classList := classList it ∖ {[c]}; dataset_period := dataset_period it |}.

Definition classList_add (c : string) (it : Item) : Item :=
  {| classList := classList it ∪ {[c]}; dataset_period := dataset_period it |}.

(** [items.forEach(x => x.classList.remove('active'));
    this.classList.add('active')], [this] the [i]th of the items. *)
Definition activate (i : nat) (items : list Item) : list Item :=
  alter (classList_add "active") i (classList_remove "active" <$> items).

(** The click handler of the [i]th of the [.nav-item] elements. *)
Definition navItem_click (i : nat) (navItems : list Item) : list Item :=
  activate i navItems.

(** The click handler of the [i]th of the [.chart-btn] elements. *)
Definition chartBtn_click (i : nat) (chartBtns : list Item) : M Globals (list Item) :=
  let chartBtns' := activate i chartBtns in
  updateChartPeriod (chartBtns !! i ≫= dataset_period);;
  mret chartBtns'.

(** A row of the table [#dataTableBody]: the text of its
    [.post-preview strong] and the classes of its [.status-indicator], for
    a row that has them, and its [style.display]. *)
Record Row := {
  row_title : option string;
  row_status : option (gset string);
  row_display : string
}.

Section table.
(** String.prototype.toLowerCase *)
Variable toLowerCase : string → string.

(** [el?.value.toLowerCase() || ''] and [el?.value || ''] *)
Definition lowered_or_empty (v : option string) : string :=
  ToString (or_else (Main.text_of (toLowerCase <$> v)) (Str "")).

Definition value_or_empty (v : option string) : string :=
  ToString (or_else (Main.text_of v) (Str "")).

(** [filterTable()], [searchInput] and [statusFilter] the values of the two
    controls, for a control that is in the document. *)
Definition filterTable (searchInput statusFilter : option string) (rows : list Row)
    : list Row :=
  let searchTerm := lowered_or_empty searchInput in
  let statusFilter := value_or_empty statusFilter in
  (λ row,
     let postTitle := lowered_or_empty (row_title row) in
     let rowStatus :=
       if match row_status row with
          | Some classes => bool_decide ("active" ∈ classes)
          | None => false
          end
       then "active" else "paused" in
     let matchesSearch := String_includes postTitle searchTerm in
     let matchesStatus := String.eqb statusFilter "" || String.eqb rowStatus statusFilter in
     {| row_title := row_title row; row_status := row_status row;
        row_display := if matchesSearch && matchesStatus then "" else "none" |})
  <$> rows.
End table.

End Dashboard.

(** ** Vocabulary of the statements *)

(** Rows written the way the scripts write them: each one followed by a
    line feed. *)
Definition unlines (rows : list string) : string :=
  foldr (λ r s, r +:+ LF +:+ s) "" rows.

(** What a call added to the downloads of the page it started from. *)
Definition new_downloads {G A} (p : Page G) (o : outcome G A) : list Download :=
  drop (length (downloads (win p))) (downloads (win (page_of o))).

(** A call that refuses to run: it returns normally and leaves the page as
    it was but for one alert with the message [msg]; nothing is downloaded,
    fetched, drawn or shown. *)
Definition refused {G} (msg : string) (p : Page G) (o : outcome G unit) : Prop :=
  ∃ p', o = Return tt p'
    ∧ alerts (win p') = alerts (win p) ++ [msg]
    ∧ downloads (win p') = downloads (win p)
    ∧ fetches (win p') = fetches (win p)
    ∧ charts (win p') = charts (win p)
    ∧ display (win p') = display (win p)
    ∧ textContent (win p') = textContent (win p)
    ∧ globals p' = globals p.

(** A form field the user left out: not submitted, or submitted empty. *)
Definition absent (field : option string) : Prop :=
  field = None ∨ field = Some "".

(** A page and requests to run the statements on. *)
Definition sample_clock : Date :=
  {| year := 2024; month := 3; day := 7;
     hours := 9; minutes := 5; seconds := 1; milliseconds := 42 |}.

Definition sample_window : Window :=
  {| elements := list_to_set ["loading"; "resultsSection"; "totalPosts"; "avgEngagement";
                              "totalImpressions"; "followerCount"; "engagementChart";
                              "timingChart"; "mainChart"];
     textContent := ∅; display := ∅; alerts := []; console := []; fetches := [];
     downloads := []; opened := []; charts := []; clock := sample_clock |}.

Definition sample_form : FormData :=
  {| form_platform := Some "instagram"; form_username := Some "rocq";
     form_period := Some "30d"; form_analysis_type := ["engagement"] |}.

Definition sample_form_no_user : FormData :=
  {| form_platform := Some "instagram"; form_username := Some "";
     form_period := Some "30d"; form_analysis_type := ["engagement"] |}.

Definition sample_form_no_type : FormData :=
  {| form_platform := Some "twitter"; form_username := Some "rocq";
     form_period := Some "7d"; form_analysis_type := [] |}.

(** The rows of a text: its pieces between line feeds (a final line feed
    ends the last row). *)
Fixpoint lines (s : string) : list string :=
  match s with
  | EmptyString => []
  | String c r =>
      if Ascii.eqb c (ascii_of_nat 10) then "" :: lines r
      else match lines r with
           | [] => [String c ""]
           | l :: ls => String c l :: ls
           end
  end.

(** A statistic in an export row: [${stat || 0}]. *)
Definition stat_cell (stat : option number) : string :=
  ToString (or_else (prop stat) (Num zero)).

(** The rows exportToCSV writes before the series. *)
Definition summary_rows (data : AnalysisData) : list string :=
  [ "データ種別,値";
    "総投稿数," +:+ stat_cell (total_posts (stats data));
    "平均エンゲージメント率," +:+ stat_cell (avg_engagement (stats data)) +:+ "%";
    "総インプレッション," +:+ stat_cell (total_impressions (stats data));
    "フォロワー数," +:+ stat_cell (follower_count (stats data)) ].

(** One row per point of a series, in the order of its labels. *)
Definition series_rows (ls : list string) (vs : list number) : list string :=
  imap (λ i l, l +:+ "," +:+ ToString (prop (vs !! i))) ls.

(** The number of points of the engagement series. *)
Definition points (data : AnalysisData) : nat :=
  match engagement_data data with
  | Some ed => length (default [] (labels ed))
  | None => 0
  end.

(** The layout C1 states for the rows of an export: after the header row,
    if the reading counts one, a row for each of the six statistics of the
    data model, a blank separator, then one row per point of the engagement
    series, and nothing else. *)
Definition claimed_layout (data : AnalysisData) (rows : list string) : Prop :=
  ∃ header stat_rows series,
    rows = header ++ stat_rows ++ "" :: series
    ∧ length header ≤ 1
    ∧ length stat_rows = 6
    ∧ length series = points data.

Definition dec := Number_of_decimal.

(** A result with every statistic set, two days of engagement and ten
    hours of posting times. *)
Definition sample_data : AnalysisData :=
  {| stats := {| total_posts := Some (dec 42 0);
                 avg_engagement := Some (dec 55 (-1));
                 total_impressions := Some (dec 1500000 0);
                 follower_count := Some (dec 1150 0);
                 total_likes := Some (dec 310 0);
                 total_comments := Some (dec 27 0) |};
     engagement_data :=
       Some {| labels := Some ["2024-03-01"; "2024-03-02"];
               values := Some [dec 475 (-2); dec 625 (-2)] |};
     timing_data :=
       Some {| labels := Some ["21:00"; "12:00"; "09:00"; "18:00"; "20:00";
                               "08:00"; "22:00"; "13:00"; "07:00"; "23:00"];
               values := Some [dec 9 0; dec 7 0; dec 6 0; dec 5 0; dec 4 0;
                               dec 3 0; dec 2 0; dec 2 0; dec 1 0; dec 1 0] |} |}.

Definition sample_page : Page Main.Globals :=
  MkPage sample_window
    {| Main.engagementChart := None; Main.timingChart := None;
       Main.currentAnalysisData := Some sample_data |}.

(** The file exportToCSV offers for a text [csv] at the time [now]. *)
Definition csv_file (now : Date) (csv : string) : Download :=
  {| download_name := "sns_analysis_" +:+ split_head "T" (toISOString now) +:+ ".csv";
     blob_type := "text/csv;charset=utf-8;";
     blob_text := csv |}.

(** The file the dashboard's exportData offers. *)
Definition dashboard_csv_file (now : Date) (csv : string) : Download :=
  {| download_name :=
       "sns_analysis_dashboard_" +:+ split_head "T" (toISOString now) +:+ ".csv";
     blob_type := "text/csv;charset=utf-8;";
     blob_text := csv |}.

(** A call that changed the page by one download only. *)
Definition downloaded {G} (d : Download) (p : Page G) (o : outcome G unit) : Prop :=
  ∃ p', o = Return tt p'
    ∧ downloads (win p') = downloads (win p) ++ [d]
    ∧ alerts (win p') = alerts (win p)
    ∧ fetches (win p') = fetches (win p)
    ∧ charts (win p') = charts (win p)
    ∧ clock (win p') = clock (win p)
    ∧ globals p' = globals p.

(** The same result stored on a page a year later, after an alert. *)
Definition later_page : Page Main.Globals :=
  MkPage
    {| elements := elements sample_window; textContent := ∅; display := ∅;
       alerts := [Main.msg_required]; console := []; fetches := [];
       downloads := []; opened := []; charts := [];
       clock := {| year := 2025; month := 3; day := 7;
                   hours := 23; minutes := 59; seconds := 59; milliseconds := 999 |} |}
    (globals sample_page).

(** *** Charts *)

(** The index of the last occurrence of [x]. *)
Fixpoint last_index_of (x : string) (l : list string) : option nat :=
  match l with
  | [] => None
  | y :: r =>
      match last_index_of x r with
      | Some i => Some (S i)
      | None => if decide (y = x) then Some 0 else None
      end
  end.

(** The chart created last on [canvas], among all charts ever created. *)
Definition latest (canvas : string) (cs : list Chart) : option nat :=
  last_index_of canvas (chart_canvas <$> cs).

(** The chart discipline of one canvas and the global variable that goes
    with it: the variable refers to the chart created last, every chart
    still alive on the canvas is the one the variable refers to, and so at
    most one is alive. *)
Record chart_inv (canvas : string) (global : option nat) (cs : list Chart) : Prop := {
  global_latest : global = latest canvas cs;
  live_is_global : ∀ i c,
    cs !! i = Some c → chart_canvas c = canvas → chart_live c = true → global = Some i;
  at_most_one_live : ∀ i j ci cj,
    cs !! i = Some ci → cs !! j = Some cj →
    chart_canvas ci = canvas → chart_canvas cj = canvas →
    chart_live ci = true → chart_live cj = true → i = j
}.

(** The calls of main.js that create charts. *)
Inductive main_call :=
  | CreateEngagementChart (data : Series)
  | CreateTimingChart (data : Series)
  | DisplayResults (data : AnalysisData).

Definition main_step (p : Page Main.Globals) (c : main_call) : Page Main.Globals :=
  page_of (match c with
           | CreateEngagementChart data => Main.createEngagementChart data
           | CreateTimingChart data => Main.createTimingChart data
           | DisplayResults data => Main.displayResults data
           end p).

(** The calls of dashboard.js that create charts. *)
Inductive dashboard_call :=
  | CreateMainChart
  | CreateTimingChartDashboard
  | CreateCharts.

Definition dashboard_step (p : Page Dashboard.Globals) (c : dashboard_call)
    : Page Dashboard.Globals :=
  page_of (match c with
           | CreateMainChart => Dashboard.createMainChart
           | CreateTimingChartDashboard => Dashboard.createTimingChartDashboard
           | CreateCharts => Dashboard.createCharts
           end p).

(** The charts drawn after [new Chart] replaced the chart [old]. *)
Definition replaced (old : option nat) (new : Chart) (cs : list Chart) : list Chart :=
  match old with
  | Some c => alter destroyed c cs
  | None => cs
  end ++ [new].

(** The window with other charts. *)
Definition with_charts (cs : list Chart) (w : Window) : Window :=
  {| elements := elements w; textContent := textContent w; display := display w;
     alerts := alerts w; console := console w; fetches := fetches w;
     downloads := downloads w; opened := opened w; charts := cs; clock := clock w |}.

(** The chart a script draws from a series. *)
Definition drawn (canvas type : string) (ls : option (list string))
    (vs : option (list number)) : Chart :=
  {| chart_canvas := canvas; chart_type := type; chart_labels := ls;
     chart_values := vs; chart_live := true |}.

(** A property of the page kept by a computation, whether it returns or
    throws. *)
Definition preserves {G A} (I : Page G → Prop) (m : M G A) : Prop :=
  ∀ p, I p → I (page_of (m p)).

(** The chart discipline of the two canvases of the analysis page, and of
    the two canvases of the dashboard. *)
Definition main_charts_ok (p : Page Main.Globals) : Prop :=
  chart_inv "engagementChart" (Main.engagementChart (globals p)) (charts (win p))
  ∧ chart_inv "timingChart" (Main.timingChart (globals p)) (charts (win p)).

Definition dashboard_charts_ok (p : Page Dashboard.Globals) : Prop :=
  chart_inv "mainChart" (Dashboard.mainChart (globals p)) (charts (win p))
  ∧ chart_inv "timingChart" (Dashboard.timingChart (globals p)) (charts (win p)).

(** *** Texts of numbers *)

(** The decimal digit [d]. *)
Definition digit (d : Z) : ascii := pretty_N_char (Z.to_N d).

Definition is_digit (c : ascii) : bool :=
  (48 <=? nat_of_ascii c) && (nat_of_ascii c <=? 57).

Fixpoint all_chars (P : ascii → bool) (s : string) : bool :=
  match s with
  | EmptyString => true
  | String c r => P c && all_chars P r
  end.

(** Is [a] a part of [s]? *)
Fixpoint contains (a s : string) : bool :=
  String.prefix a s ||
  match s with
  | EmptyString => false
  | String _ r => contains a r
  end.

(** A character of the text of a Number: a digit, a sign, the point, the
    mark of the exponent, or a letter of [Infinity] and [NaN]. *)
Definition number_char (c : ascii) : bool :=
  is_digit c || existsb (Ascii.eqb c) (list_ascii_of_string "-+.eInfityNa").

(** A character that neither ends a cell nor a row of a CSV text, and one
    that does not end a row. *)
Definition cell_char (c : ascii) : bool :=
  negb (Ascii.eqb c ",") && negb (Ascii.eqb c (ascii_of_nat 10)).

Definition no_LF (c : ascii) : bool := negb (Ascii.eqb c (ascii_of_nat 10)).

(** The year, month and day of toISOString. *)
Definition date_part (t : Date) : string :=
  (if (0 <=? year t)%Z && (year t <=? 9999)%Z then pad 4 (year t)
   else (if (year t <? 0)%Z then "-" else "+") +:+ pad 6 (Z.abs (year t)))
  +:+ "-" +:+ pad 2 (month t) +:+ "-" +:+ pad 2 (day t).

(** The rows the dashboard's exportData writes before the series, and its
    rows of the series. *)
Definition dashboard_summary_rows (data : AnalysisData) : list string :=
  [ "メトリック,値";
    "総投稿数," +:+ stat_cell (total_posts (stats data));
    "総いいね数," +:+ stat_cell (total_likes (stats data));
    "総コメント数," +:+ stat_cell (total_comments (stats data));
    "平均エンゲージメント," +:+ stat_cell (avg_engagement (stats data)) ].

Definition dashboard_series_rows (ls : list string) (vs : list number) : list string :=
  imap (λ i l, l +:+ "," +:+ stat_cell (vs !! i)) ls.

(** The first row of a downloaded file. *)
Definition header_is (h : string) (d : Download) : Prop :=
  head (lines (blob_text d)) = Some h.

Definition sample_dashboard : Page Dashboard.Globals :=
  MkPage sample_window
    {| Dashboard.mainChart := None; Dashboard.timingChart := None;
       Dashboard.currentData := Some sample_data |}.

(** The text displayResults puts in a statistic's element: a dash unless
    the statistic is set and truthy. *)
Definition shown (render : number → string) (stat : option number) : string :=
  match stat with
  | Some x => if Number_truthy x then render x else "-"
  | None => "-"
  end.

(** The page after displayResults ran to its end. *)
Definition displayed (data : AnalysisData) (p : Page Main.Globals) : Page Main.Globals :=
  let w := win p in
  let g := globals p in
  let cs1 :=
    match engagement_data data with
    | Some s => replaced (Main.engagementChart g)
                  (drawn "engagementChart" "line" (labels s) (values s)) (charts w)
    | None => charts w
    end in
  let cs2 :=
    match timing_data data with
    | Some s => replaced (Main.timingChart g)
                  (drawn "timingChart" "bar" (labels s) (values s)) cs1
    | None => cs1
    end in
  MkPage
    {| elements := elements w;
       textContent :=
         <["followerCount" := shown Main.formatNumber (follower_count (stats data))]>
           (<["totalImpressions" := shown Main.formatNumber (total_impressions (stats data))]>
              (<["avgEngagement" := shown (λ x, toFixed 2 x +:+ "%")
                                      (avg_engagement (stats data))]>
                 (<["totalPosts" := shown Number_toString (total_posts (stats data))]>
                    (textContent w))));
       display := <["resultsSection" := "block"]> (display w);
       alerts := alerts w; console := console w; fetches := fetches w;
       downloads := downloads w; opened := opened w;
       charts := cs2; clock := clock w |}
    {| Main.engagementChart :=
         match engagement_data data with
         | Some _ => Some (length (charts w))
         | None => Main.engagementChart g
         end;
       Main.timingChart :=
         match timing_data data with
         | Some _ => Some (length cs1)
         | None => Main.timingChart g
         end;
       Main.currentAnalysisData := Some data |}.

(** The elements displayResults writes to. *)
Definition results_elements : list string :=
  ["totalPosts"; "avgEngagement"; "totalImpressions"; "followerCount";
   "engagementChart"; "timingChart"; "resultsSection"].

(** The result with another timing histogram. *)
Definition with_timing (td : option Series) (data : AnalysisData) : AnalysisData :=
  {| stats := stats data; engagement_data := engagement_data data; timing_data := td |}.

(** C6's reading of the export: every bucket of the timing histogram is in
    the exported text. *)
Definition histogram_exported (data : AnalysisData) (csv : string) : Prop :=
  ∀ td ls l, timing_data data = Some td → labels td = Some ls → l ∈ ls →
             contains l csv = true.

(** C7's reading of the display: a statistic computed as zero is shown as
    the value 0. *)
Definition zero_shown_as_zero (data : AnalysisData) (p : Page Main.Globals) : Prop :=
  total_posts (stats data) = Some zero →
  textContent (win (page_of (Main.displayResults data p))) !! "totalPosts" = Some "0".

(** A result computed over no posts, and a result whose statistics were
    not computed at all. *)
Definition zero_data : AnalysisData :=
  {| stats := {| total_posts := Some zero; avg_engagement := Some zero;
                 total_impressions := Some zero; follower_count := Some (dec 1150 0);
                 total_likes := Some zero; total_comments := Some zero |};
     engagement_data := Some {| labels := Some []; values := Some [] |};
     timing_data := None |}.

Definition unset_data : AnalysisData :=
  {| stats := {| total_posts := None; avg_engagement := None;
                 total_impressions := None; follower_count := Some (dec 1150 0);
                 total_likes := None; total_comments := None |};
     engagement_data := None;
     timing_data := None |}.

Definition fresh_page : Page Main.Globals := MkPage sample_window Main.initial.

(** The last [f] decimal digits of [r], zeros included. *)
Fixpoint low_digits (f : nat) (r : Z) : string :=
  match f with
  | O => ""
  | S k => low_digits k (r `div` 10) +:+ String (digit (r `mod` 10)) ""
  end.

(** The value [nu/de] rounded to [f] decimal digits: the nearest multiple
    of [10^-f], the larger one on a tie, written with the point before its
    last [f] digits. *)
Definition rounded (f : nat) (nu de : Z) : string :=
  let r := ((2 * nu * 10 ^ Z.of_nat f + de) `div` (2 * de))%Z in
  digits (r `div` 10 ^ Z.of_nat f) +:+ "." +:+ low_digits f r.

(** The exact value [nu/de] of a Number that is finite and not negative. *)
Definition value_of (x : number) : option (Z * Z) :=
  match x with
  | S754_zero _ => Some (0, 1)%Z
  | S754_finite false m e => Some (num_of m e, den_of e)
  | _ => None
  end.

(** C2's reading of a percentage: digits, a point, exactly two digits and
    the sign [%]. *)
Definition two_decimals_percent (s : string) : bool :=
  let n := String.length s in
  (5 <=? n) && all_chars is_digit (take_str (n - 4) s)
  && match drop_str (n - 4) s with
     | String "." (String a (String b "%")) => is_digit a && is_digit b
     | _ => false
     end.

(** The second column of a row. *)
Fixpoint after_comma (row : string) : string :=
  match row with
  | EmptyString => ""
  | String c r => if Ascii.eqb c "," then r else after_comma r
  end.

(** C2's reading of the export: the cell of the average engagement rate
    is a percentage with exactly two decimals. *)
Definition percent_cell_two_decimals (data : AnalysisData) : Prop :=
  ∀ row, lines (default "" (Main.csv_text data)) !! 2%nat = Some row →
         two_decimals_percent (after_comma row) = true.

(** C9's reading of formatNumber: the quotient rounded to one decimal
    digit, with its suffix, and the text of the number below 1000. *)
Definition claimed_format (n : number) : option string :=
  if geb n (Number_of_Z 1000000) then
    (λ v, rounded 1 v.1 v.2 +:+ "M") <$> value_of (div n (Number_of_Z 1000000))
  else if geb n (Number_of_Z 1000) then
    (λ v, rounded 1 v.1 v.2 +:+ "K") <$> value_of (div n (Number_of_Z 1000))
  else Some (Number_toString n).

(** A result with the average engagement rate [x]. *)
Definition with_average (x : number) (data : AnalysisData) : AnalysisData :=
  {| stats := {| total_posts := total_posts (stats data);
                 avg_engagement := Some x;
                 total_impressions := total_impressions (stats data);
                 follower_count := follower_count (stats data);
                 total_likes := total_likes (stats data);
                 total_comments := total_comments (stats data) |};
     engagement_data := engagement_data data;
     timing_data := timing_data data |}.

(** *** Vocabulary of the further properties *)

(** The window of an analysis page that has the form and the statistics
    but no canvas, and such a page holding an earlier result. *)
Definition plain_window : Window :=
  {| elements := list_to_set ["loading"; "resultsSection"; "totalPosts"; "avgEngagement";
                              "totalImpressions"; "followerCount"; "usernameHelp";
                              "username"];
     textContent := ∅; display := ∅; alerts := []; console := []; fetches := [];
     downloads := []; opened := []; charts := []; clock := sample_clock |}.

Definition plain_page : Page Main.Globals :=
  MkPage plain_window
    {| Main.engagementChart := None; Main.timingChart := None;
       Main.currentAnalysisData := Some zero_data |}.

(** A window without elements, and one with the loading indicator only. *)
Definition empty_window : Window :=
  {| elements := ∅; textContent := ∅; display := ∅; alerts := []; console := [];
     fetches := []; downloads := []; opened := []; charts := []; clock := sample_clock |}.

Definition loading_window : Window :=
  {| elements := {["loading"]}; textContent := ∅; display := ∅; alerts := [];
     console := []; fetches := []; downloads := []; opened := []; charts := [];
     clock := sample_clock |}.

(** A dashboard that has three of the four metric cards. *)
Definition cards_window : Window :=
  {| elements := list_to_set [".metric-card.posts .metric-value";
                              ".metric-card.engagement .metric-value";
                              ".metric-card.cost .metric-value"];
     textContent := ∅; display := ∅; alerts := []; console := []; fetches := [];
     downloads := []; opened := []; charts := []; clock := sample_clock |}.

Definition cards_dashboard : Page Dashboard.Globals :=
  MkPage cards_window
    {| Dashboard.mainChart := None; Dashboard.timingChart := None;
       Dashboard.currentData := Some sample_data |}.

(** Three rows of the table: one running, one paused, one without title
    and status. *)
Definition sample_rows : list Dashboard.Row :=
  [ {| Dashboard.row_title := Some "Sale 2024";
       Dashboard.row_status := Some {["status-indicator"; "active"]};
       Dashboard.row_display := "" |};
    {| Dashboard.row_title := Some "Brand";
       Dashboard.row_status := Some {["status-indicator"; "paused"]};
       Dashboard.row_display := "none" |};
    {| Dashboard.row_title := None; Dashboard.row_status := None;
       Dashboard.row_display := "" |} ].

(** A result whose series has two labels and one value, and one whose
    series has no labels. *)
Definition ragged_data : AnalysisData :=
  {| stats := stats sample_data;
     engagement_data := Some {| labels := Some ["2024-03-01"; "2024-03-02"];
                                values := Some [dec 475 (-2)] |};
     timing_data := None |}.

Definition unlabelled_data : AnalysisData :=
  {| stats := stats sample_data;
     engagement_data := Some {| labels := None; values := None |};
     timing_data := None |}.

Definition unlabelled_page : Page Main.Globals :=
  MkPage sample_window
    {| Main.engagementChart := None; Main.timingChart := None;
       Main.currentAnalysisData := Some unlabelled_data |}.

Definition ragged_page : Page Main.Globals :=
  MkPage sample_window
    {| Main.engagementChart := None; Main.timingChart := None;
       Main.currentAnalysisData := Some ragged_data |}.

Definition ragged_dashboard : Page Dashboard.Globals :=
  MkPage sample_window
    {| Dashboard.mainChart := None; Dashboard.timingChart := None;
       Dashboard.currentData := Some ragged_data |}.

(** An answer that is no result: the request failed, the server answered
    with an error status, or the body could not be read. *)
Definition failed {A} (r : Response A) : Prop :=
  match r with
  | Rejected => True
  | Settled ok _ json => ok = false ∨ json = None
  end.

(** The elements displayResults writes statistics to. *)
Definition stat_elements : list string :=
  ["totalPosts"; "avgEngagement"; "totalImpressions"; "followerCount"].

(** A canvas the result needs is not in the document. *)
Definition canvas_missing (data : AnalysisData) (w : Window) : Prop :=
  (engagement_data data ≠ None ∧ "engagementChart" ∉ elements w)
  ∨ (timing_data data ≠ None ∧ "timingChart" ∉ elements w).

(** The parts of the window that drawing and showing a result leave alone. *)
Definition surroundings (w : Window) : gset string * list string * list string
    * list Fetch * list Download * list string * Date :=
  (elements w, alerts w, console w, fetches w, downloads w, opened w, clock w).

(** The texts of the statistics of a result, written over the texts [t]. *)
Definition stat_texts (data : AnalysisData) (t : gmap string string) : gmap string string :=
  <["followerCount" := shown Main.formatNumber (follower_count (stats data))]>
    (<["totalImpressions" := shown Main.formatNumber (total_impressions (stats data))]>
       (<["avgEngagement" := shown (λ x, toFixed 2 x +:+ "%") (avg_engagement (stats data))]>
          (<["totalPosts" := shown Number_toString (total_posts (stats data))]> t))).

(** The request handleFormSubmit sends for a form. *)
Definition analyze_request (form : FormData) : Fetch :=
  {| fetch_url := "/api/analyze"; fetch_method := "POST"; fetch_body := AnalyzeBody form |}.

(** A form that passes the validation of handleFormSubmit. *)
Definition complete (form : FormData) : Prop :=
  Main.missing (form_platform form) = false
  ∧ Main.missing (form_username form) = false
  ∧ Main.missing (form_period form) = false
  ∧ form_analysis_type form ≠ [].

(** The result of the spreadsheet export, when the answer is one that
    reports success. *)
Definition saved (r : Response Main.SheetsResult) : option Main.SheetsResult :=
  match r with
  | Settled true _ (Some result) => if Main.success result then Some result else None
  | _ => None
  end.

(** The help text and the placeholder handlePlatformChange chooses. *)
Definition help_of (platform : string) : string :=
  if String.eqb platform "instagram" then Main.help_instagram
  else if String.eqb platform "twitter" then Main.help_twitter
  else "".

Definition placeholder_of (platform : string) : string :=
  if String.eqb platform "instagram" then Main.placeholder_demo
  else Main.placeholder_default.

(** The text of the value at [i] of a series, as exportToCSV writes it. *)
Definition value_text (vs : list number) (i : nat) : string := ToString (prop (vs !! i)).

(** A Number that is negative, zero or not a number. *)
Definition not_positive (x : number) : bool :=
  match x with
  | S754_finite sg _ _ | S754_infinity sg => sg
  | S754_zero _ | S754_nan => true
  end.

(** A result whose engagement series cannot be written: it has no labels,
    or it has labels but no values. *)
Definition series_incomplete (data : AnalysisData) : Prop :=
  ∃ ed, engagement_data data = Some ed
    ∧ (labels ed = None
       ∨ ∃ l ls, labels ed = Some (l :: ls) ∧ values ed = None).



(** The window with other texts. *)
Definition with_textContent (t : gmap string string) (w : Window) : Window :=
  {| elements := elements w; textContent := t; display := display w;
     alerts := alerts w; console := console w; fetches := fetches w;
     downloads := downloads w; opened := opened w; charts := charts w;
     clock := clock w |}.

(** The texts after a card was written, when the document has it. *)
Definition card_text (w : Window) (key : string) (v : number) (t : gmap string string)
    : gmap string string :=
  if decide (Dashboard.metric_card key ∈ elements w)
  then <[Dashboard.metric_card key := Dashboard.formatNumber (Some v)]> t
  else t.

Definition cards_texts (w : Window) (m : Dashboard.Metrics) (t : gmap string string)
    : gmap string string :=
  card_text w "cost" (Dashboard.cost m)
    (card_text w "clicks" (Dashboard.clicks m)
       (card_text w "engagement" (Dashboard.engagement m)
          (card_text w "posts" (Dashboard.posts m) t))).

(** The keys of the metrics object with their values, in the order of the
    loop. *)
Definition card_values (m : Dashboard.Metrics) : list (string * number) :=
  [("posts", Dashboard.posts m); ("engagement", Dashboard.engagement m);
   ("clicks", Dashboard.clicks m); ("cost", Dashboard.cost m)].

(** Does a row carry the class [active] on its status indicator? *)
Definition is_active (row : Dashboard.Row) : bool :=
  match Dashboard.row_status row with
  | Some classes => bool_decide ("active" ∈ classes)
  | None => false
  end.

(** The row with another [style.display]. *)
Definition with_display (d : string) (row : Dashboard.Row) : Dashboard.Row :=
  {| Dashboard.row_title := Dashboard.row_title row;
     Dashboard.row_status := Dashboard.row_status row;
     Dashboard.row_display := d |}.

(** A control that is not in the document, or is empty. *)
Definition cleared (control : option string) : Prop :=
  control = None ∨ control = Some "".

(** ASCII letters in lower case, every other character as it is: what
    toLowerCase does on ASCII text. *)
Definition ascii_lower (s : string) : string :=
  string_of_list_ascii
    ((λ c, if (65 <=? nat_of_ascii c) && (nat_of_ascii c <=? 90)
           then ascii_of_nat (nat_of_ascii c + 32) else c)
       <$> list_ascii_of_string s).


(** * Properties *)

(** ** The monad and the window operations *)

Lemma alert_refused {G} (msg : string) (p : Page G) : refused msg p (alert msg p).
Proof. destruct p as [w g]. eexists. repeat split. Qed.

Lemma missing_absent (field : option string) : Main.missing field = true ↔ absent field.
Proof.
  unfold absent. destruct field as [s|]; simpl.
  - rewrite String.eqb_eq. split; [intros ->; by right | intros [?|[= ->]]; done].
  - split; [by left | done].
Qed.

Lemma getElementById_present {G} (id : string) (p : Page G) :
  id ∈ elements (win p) → getElementById id p = Return (Some id) p.
Proof.
  intros H. unfold getElementById, mbind, M_bind, get_window, mret, M_ret.
  by rewrite decide_True.
Qed.

Lemma getElementById_missing {G} (id : string) (p : Page G) :
  id ∉ elements (win p) → getElementById id p = Return None p.
Proof.
  intros H. unfold getElementById, mbind, M_bind, get_window, mret, M_ret.
  by rewrite decide_False.
Qed.

(** ** Exports need a stored result *)

(** C3: an export (exportToCSV, exportToGoogleSheets, the dashboard's
    exportData) invoked while no result is stored reports "no data to
    export" to the user in an alert and does nothing else: no file is
    downloaded, no request is sent, and in particular no empty file is
    produced. *)
Theorem export_without_result (p : Page Main.Globals) (q : Page Dashboard.Globals) :
  (Main.currentAnalysisData (globals p) = None →
     refused Main.msg_no_data p (Main.exportToCSV p)
     ∧ refused Main.msg_no_data p (Main.exportToGoogleSheets p))
  ∧ (Dashboard.currentData (globals q) = None →
     refused Dashboard.msg_no_data q (Dashboard.exportData q)).
Proof.
  split.
  - intros H. unfold Main.exportToCSV, Main.exportToGoogleSheets.
    split; unfold mbind, M_bind, get_globals; rewrite H; apply alert_refused.
  - intros H. unfold Dashboard.exportData, mbind, M_bind, get_globals.
    rewrite H. apply alert_refused.
Qed.

Lemma export_without_result_witness :
  (refused Main.msg_no_data (MkPage sample_window Main.initial)
     (Main.exportToCSV (MkPage sample_window Main.initial))
   ∧ refused Main.msg_no_data (MkPage sample_window Main.initial)
       (Main.exportToGoogleSheets (MkPage sample_window Main.initial)))
  ∧ refused Dashboard.msg_no_data (MkPage sample_window Dashboard.initial)
      (Dashboard.exportData (MkPage sample_window Dashboard.initial)).
Proof.
  split.
  - apply (proj1 (export_without_result (MkPage sample_window Main.initial)
                    (MkPage sample_window Dashboard.initial))).
    reflexivity.
  - apply (proj2 (export_without_result (MkPage sample_window Main.initial)
                    (MkPage sample_window Dashboard.initial))).
    reflexivity.
Defined.

(** ** Validation of the analysis request *)

Lemma showLoading_ok (p : Page Main.Globals) :
  "loading" ∈ elements (win p) → "resultsSection" ∈ elements (win p) →
  ∃ p', Main.showLoading p = Return tt p'
    ∧ elements (win p') = elements (win p)
    ∧ alerts (win p') = alerts (win p)
    ∧ fetches (win p') = fetches (win p)
    ∧ display (win p') = <["resultsSection" := "none"]> (<["loading" := "block"]> (display (win p)))
    ∧ globals p' = globals p.
Proof.
  intros H1 H2. destruct p as [w g]. unfold Main.showLoading.
  unfold mbind at 1, M_bind at 1. rewrite (getElementById_present _ _ H1).
  unfold mbind at 1, M_bind at 1. simpl.
  unfold mbind at 1, M_bind at 1.
  rewrite getElementById_present by exact H2.
  simpl. eexists. repeat split.
Qed.

(** C4: a request in which the platform, the user name or the period is
    absent, or for which no analysis type is selected, is refused with an
    alert before the loading indicator is shown and before any fetch;
    every other request passes validation and the fetch of /api/analyze is
    issued with the request as its body. *)
Theorem handleFormSubmit_validates (form : FormData) (p : Page Main.Globals) :
  (absent (form_platform form) ∨ absent (form_username form)
     ∨ absent (form_period form) →
     refused Main.msg_required p (Main.handleFormSubmit form p))
  ∧ (¬ absent (form_platform form) → ¬ absent (form_username form) →
     ¬ absent (form_period form) → form_analysis_type form = [] →
     refused Main.msg_select_one p (Main.handleFormSubmit form p))
  ∧ (¬ absent (form_platform form) → ¬ absent (form_username form) →
     ¬ absent (form_period form) → form_analysis_type form ≠ [] →
     "loading" ∈ elements (win p) → "resultsSection" ∈ elements (win p) →
     ∃ p', Main.handleFormSubmit form p = Return tt p'
       ∧ fetches (win p')
         = fetches (win p) ++ [{| fetch_url := "/api/analyze"; fetch_method := "POST";
                                  fetch_body := AnalyzeBody form |}]
       ∧ alerts (win p') = alerts (win p)).
Proof.
  unfold Main.handleFormSubmit.
  pose proof (missing_absent (form_platform form)) as Hp.
  pose proof (missing_absent (form_username form)) as Hu.
  pose proof (missing_absent (form_period form)) as Hd.
  destruct (Main.missing (form_platform form)),
    (Main.missing (form_username form)), (Main.missing (form_period form));
    simpl; try (split; [intros _; apply alert_refused | split; intros; tauto]).
  split; [intros [?|[?|?]]; [apply Hp in H|apply Hu in H|apply Hd in H]; done|].
  destruct (form_analysis_type form) as [|t ts] eqn:Ht; simpl.
  - split; [intros; apply alert_refused | intros; done].
  - split; [intros; done|]. intros _ _ _ _ H1 H2.
    destruct (showLoading_ok p H1 H2) as (p1 & E & _ & Ha & Hf & _ & _).
    unfold mbind, M_bind. rewrite E. destruct p1 as [w1 g1]. simpl in *.
    eexists. split; [reflexivity|]. simpl. by rewrite Hf, Ha.
Qed.

Lemma handleFormSubmit_validates_witness :
  refused Main.msg_required (MkPage sample_window Main.initial)
    (Main.handleFormSubmit sample_form_no_user (MkPage sample_window Main.initial))
  ∧ refused Main.msg_select_one (MkPage sample_window Main.initial)
      (Main.handleFormSubmit sample_form_no_type (MkPage sample_window Main.initial))
  ∧ ∃ p', Main.handleFormSubmit sample_form (MkPage sample_window Main.initial)
          = Return tt p'
      ∧ fetches (win p')
        = [{| fetch_url := "/api/analyze"; fetch_method := "POST";
              fetch_body := AnalyzeBody sample_form |}]
      ∧ alerts (win p') = [].
Proof.
  split; [|split].
  - apply (proj1 (handleFormSubmit_validates sample_form_no_user
                    (MkPage sample_window Main.initial))).
    right; left; right; reflexivity.
  - apply (proj1 (proj2 (handleFormSubmit_validates sample_form_no_type
                           (MkPage sample_window Main.initial))));
      try (intros [H|H]; discriminate H); reflexivity.
  - apply (proj2 (proj2 (handleFormSubmit_validates sample_form
                           (MkPage sample_window Main.initial))));
      try (intros [H|H]; discriminate H); try discriminate;
      vm_compute; reflexivity.
Defined.

(** ** Strings *)

Lemma append_cons (x : ascii) (a b : string) : String x a +:+ b = String x (a +:+ b).
Proof. reflexivity. Qed.

Lemma append_nil_l (a : string) : "" +:+ a = a.
Proof. reflexivity. Qed.

Lemma append_assoc (a b c : string) : (a +:+ b) +:+ c = a +:+ (b +:+ c).
Proof.
  induction a as [|x a IH]; [done|].
  rewrite !append_cons. by f_equal.
Qed.

Lemma append_nil_r (a : string) : a +:+ "" = a.
Proof.
  induction a as [|x a IH]; [done|].
  rewrite append_cons. by f_equal.
Qed.

Lemma length_append (a b : string) :
  String.length (a +:+ b) = String.length a + String.length b.
Proof.
  induction a as [|x a IH]; [done|].
  rewrite append_cons. simpl. by f_equal.
Qed.

Lemma unlines_app (r1 r2 : list string) : unlines (r1 ++ r2) = unlines r1 +:+ unlines r2.
Proof.
  induction r1 as [|r r1 IH]; simpl; [done|].
  by rewrite IH, !append_assoc.
Qed.

(** ** The text of the CSV export *)

Section series_loop.
Context {body : nat → string → option string} {row : nat → string}.
Hypothesis body_row : ∀ i csv, body i csv = Some (csv +:+ row i +:+ LF).

(** A loop whose body appends one row per index writes the rows in the
    order of the indices. *)
Lemma for_range_rows (start n : nat) (acc : string) :
  for_range start n body acc = Some (acc +:+ unlines (row <$> seq start n)).
Proof using body_row.
  revert start acc. induction n as [|n IH]; intros start acc; simpl.
  - by rewrite append_nil_r.
  - rewrite body_row. simpl. rewrite IH. by rewrite !append_assoc.
Qed.
End series_loop.

Lemma series_rows_seq (ls : list string) (vs : list number) :
  (λ i, ToString (label_at ls i) +:+ "," +:+ ToString (prop (vs !! i)))
    <$> seq 0 (length ls)
  = series_rows ls vs.
Proof.
  unfold series_rows. apply list_eq. intros i.
  rewrite list_lookup_fmap, list_lookup_imap.
  destruct (decide (i < length ls)) as [Hi|Hi].
  - rewrite lookup_seq_lt by done. simpl.
    destruct (lookup_lt_is_Some_2 ls i Hi) as [l Hl].
    unfold label_at. by rewrite Hl.
  - rewrite lookup_seq_ge by lia. rewrite (lookup_ge_None_2 ls i) by lia. done.
Qed.

(** The text exportToCSV builds, for every result: the summary rows, then,
    when the result has an engagement series, a blank line, a second header
    and the rows of the series.  A series without labels, or with points
    but without values, makes the script throw. *)
Lemma csv_text_rows (data : AnalysisData) :
  Main.csv_text data =
  match engagement_data data with
  | None => Some (unlines (summary_rows data))
  | Some ed =>
      match labels ed with
      | None => None
      | Some ls =>
          match values ed with
          | Some vs =>
              Some (unlines (summary_rows data ++ [""; "日付,エンゲージメント率"]
                             ++ series_rows ls vs))
          | None =>
              if decide (ls = []) then
                Some (unlines (summary_rows data ++ [""; "日付,エンゲージメント率"]))
              else None
          end
      end
  end.
Proof.
  unfold Main.csv_text, summary_rows, stat_cell.
  destruct (engagement_data data) as [ed|].
  - destruct (labels ed) as [ls|]; [|done].
    destruct (values ed) as [vs|]; simpl.
    + rewrite (for_range_rows
                 (row := λ i, ToString (label_at ls i) +:+ "," +:+ ToString (prop (vs !! i))))
        by (intros; simpl; by rewrite !append_assoc).
      rewrite series_rows_seq. by rewrite !append_assoc, append_nil_l.
    + destruct ls; simpl; [|done]. by rewrite !append_assoc.
  - simpl. by rewrite !append_assoc.
Qed.

Lemma download_downloaded {G} (name type text : string) (p : Page G) :
  downloaded {| download_name := name; blob_type := type; blob_text := text |} p
    (download name type text p).
Proof. destruct p as [w g]. eexists. repeat split. Qed.

(** exportToCSV with a stored result: one file with the text of
    [Main.csv_text], or a TypeError and no file when there is no text. *)
Lemma exportToCSV_stored (p : Page Main.Globals) (data : AnalysisData) :
  Main.currentAnalysisData (globals p) = Some data →
  match Main.csv_text data with
  | Some csv => downloaded (csv_file (clock (win p)) csv) p (Main.exportToCSV p)
  | None => Main.exportToCSV p = Throw TypeError p
  end.
Proof.
  intros H. unfold Main.exportToCSV, mbind, M_bind, get_globals. rewrite H.
  destruct (Main.csv_text data) as [csv|]; simpl; [|done].
  apply download_downloaded.
Qed.

Lemma exportData_stored (p : Page Dashboard.Globals) (data : AnalysisData) :
  Dashboard.currentData (globals p) = Some data →
  match Dashboard.csv_text data with
  | Some csv => downloaded (dashboard_csv_file (clock (win p)) csv) p (Dashboard.exportData p)
  | None => Dashboard.exportData p = Throw TypeError p
  end.
Proof.
  intros H. unfold Dashboard.exportData, mbind, M_bind, get_globals. rewrite H.
  destruct (Dashboard.csv_text data) as [csv|]; simpl; [|done].
  apply download_downloaded.
Qed.

Lemma new_downloads_downloaded {G} (d : Download) (p : Page G) (o : outcome G unit) :
  downloaded d p o → new_downloads p o = [d].
Proof.
  intros (p' & -> & Hd & _). unfold new_downloads. simpl.
  rewrite Hd. by rewrite drop_app_length.
Qed.

Lemma new_downloads_throw {G A} (e : exn) (p : Page G) :
  new_downloads (A := A) p (Throw e p) = [].
Proof. unfold new_downloads. simpl. by rewrite drop_all. Qed.

(** What exportToCSV downloads is decided by the stored result alone. *)
Lemma exportToCSV_texts (p : Page Main.Globals) (data : AnalysisData) :
  Main.currentAnalysisData (globals p) = Some data →
  blob_text <$> new_downloads p (Main.exportToCSV p) = option_list (Main.csv_text data).
Proof.
  intros H. pose proof (exportToCSV_stored p data H) as E.
  destruct (Main.csv_text data) as [csv|].
  - by rewrite (new_downloads_downloaded _ _ _ E).
  - rewrite E. by rewrite new_downloads_throw.
Qed.

(** ** Row order of the CSV export *)

(** C1, as the code has it: the file exportToCSV downloads holds the header
    row, then the rows of total posts, average engagement rate, total
    impressions and follower count in this order; a result without an
    engagement series ends there; with a series there follow a blank line,
    the header of the series and one row per label of the series, in the
    order of the labels, and nothing else. *)
Theorem exportToCSV_row_order (p : Page Main.Globals) (data : AnalysisData) :
  Main.currentAnalysisData (globals p) = Some data →
  (engagement_data data = None →
     blob_text <$> new_downloads p (Main.exportToCSV p)
     = [unlines (summary_rows data)])
  ∧ (∀ ed ls vs,
       engagement_data data = Some ed → labels ed = Some ls → values ed = Some vs →
       blob_text <$> new_downloads p (Main.exportToCSV p)
       = [unlines (summary_rows data ++ [""; "日付,エンゲージメント率"]
                   ++ series_rows ls vs)]).
Proof.
  intros H. rewrite (exportToCSV_texts p data H), csv_text_rows.
  split.
  - by intros ->.
  - by intros ed ls vs -> -> ->.
Qed.

Lemma exportToCSV_row_order_witness :
  blob_text <$> new_downloads sample_page (Main.exportToCSV sample_page)
  = [unlines [ "データ種別,値"; "総投稿数,42"; "平均エンゲージメント率,5.5%";
               "総インプレッション,1500000"; "フォロワー数,1150"; "";
               "日付,エンゲージメント率"; "2024-03-01,4.75"; "2024-03-02,6.25" ]].
Proof.
  exact (proj2 (exportToCSV_row_order sample_page sample_data eq_refl)
           _ _ _ eq_refl eq_refl eq_refl).
Defined.

(** C1 as stated fails on the sample result: its export has four rows of
    statistics, not six, and a second header between the blank line and the
    series, so that the blank line is the sixth row, where the stated layout
    has it as the seventh (or as the eighth, when the header row is
    counted). *)
Lemma exportToCSV_row_order_counterexample :
  lines (default "" (Main.csv_text sample_data))
  = [ "データ種別,値"; "総投稿数,42"; "平均エンゲージメント率,5.5%";
      "総インプレッション,1500000"; "フォロワー数,1150"; "";
      "日付,エンゲージメント率"; "2024-03-01,4.75"; "2024-03-02,6.25" ]
  ∧ ¬ claimed_layout sample_data (lines (default "" (Main.csv_text sample_data))).
Proof.
  assert (lines (default "" (Main.csv_text sample_data))
          = [ "データ種別,値"; "総投稿数,42"; "平均エンゲージメント率,5.5%";
              "総インプレッション,1500000"; "フォロワー数,1150"; "";
              "日付,エンゲージメント率"; "2024-03-01,4.75"; "2024-03-02,6.25" ]) as E
    by (vm_compute; reflexivity).
  split; [exact E|]. rewrite E.
  intros (header & stat_rows & series & Hrows & Hheader & Hstats & Hseries).
  assert ((header ++ stat_rows ++ "" :: series) !! (length header + 6) = Some "") as Hblank.
  { rewrite lookup_app_r by lia. rewrite lookup_app_r by lia.
    by replace (length header + 6 - length header - length stat_rows) with 0 by lia. }
  rewrite <- Hrows in Hblank.
  destruct header as [|h [|h' header]]; simpl in Hheader; [| |lia];
    vm_compute in Hblank; discriminate Hblank.
Qed.

(** ** Determinism of the export *)

(** C5: the text of the exported file is a function of the stored result
    alone: two pages that store the same result export the same text,
    whatever else differs between them (clock, alerts, charts), and since
    an export leaves the stored result as it is, exporting twice in a row
    yields the same text twice. *)
Theorem exportToCSV_deterministic (data : AnalysisData) (p q : Page Main.Globals) :
  Main.currentAnalysisData (globals p) = Some data →
  Main.currentAnalysisData (globals q) = Some data →
  blob_text <$> new_downloads p (Main.exportToCSV p)
  = blob_text <$> new_downloads q (Main.exportToCSV q)
  ∧ globals (page_of (Main.exportToCSV p)) = globals p
  ∧ blob_text <$> new_downloads p ((Main.exportToCSV;; Main.exportToCSV) p)
    = (blob_text <$> new_downloads p (Main.exportToCSV p))
      ++ (blob_text <$> new_downloads p (Main.exportToCSV p)).
Proof.
  intros Hp Hq. rewrite (exportToCSV_texts p data Hp), (exportToCSV_texts q data Hq).
  split; [done|].
  pose proof (exportToCSV_stored p data Hp) as E.
  destruct (Main.csv_text data) as [csv|] eqn:Hcsv.
  - destruct E as (p1 & E1 & Hd1 & _ & _ & _ & Hc1 & Hg1).
    rewrite E1. simpl. split; [done|].
    unfold mbind, M_bind. rewrite E1.
    assert (Main.currentAnalysisData (globals p1) = Some data) as H1 by by rewrite Hg1.
    pose proof (exportToCSV_stored p1 data H1) as E'. rewrite Hcsv in E'.
    destruct E' as (p2 & E2 & Hd2 & _). rewrite E2.
    unfold new_downloads. simpl. rewrite Hd2, Hd1, <- app_assoc.
    by rewrite drop_app_length.
  - rewrite E. simpl. split; [done|].
    unfold mbind, M_bind. rewrite E. by rewrite new_downloads_throw.
Qed.

Lemma exportToCSV_deterministic_witness :
  blob_text <$> new_downloads sample_page (Main.exportToCSV sample_page)
  = blob_text <$> new_downloads later_page (Main.exportToCSV later_page)
  ∧ globals (page_of (Main.exportToCSV sample_page)) = globals sample_page
  ∧ blob_text <$> new_downloads sample_page ((Main.exportToCSV;; Main.exportToCSV) sample_page)
    = (blob_text <$> new_downloads sample_page (Main.exportToCSV sample_page))
      ++ (blob_text <$> new_downloads sample_page (Main.exportToCSV sample_page)).
Proof.
  exact (exportToCSV_deterministic sample_data sample_page later_page eq_refl eq_refl).
Defined.

(** ** Charts *)

Lemma last_index_of_snoc (x y : string) (l : list string) :
  last_index_of x (l ++ [y])
  = if decide (y = x) then Some (length l) else last_index_of x l.
Proof.
  induction l as [|z l IH]; simpl.
  - by destruct (decide (y = x)).
  - rewrite IH. destruct (decide (y = x)); [done|].
    by destruct (last_index_of x l).
Qed.

Lemma canvas_alter_destroyed (i : nat) (cs : list Chart) :
  chart_canvas <$> alter destroyed i cs = chart_canvas <$> cs.
Proof.
  apply list_eq. intros j. rewrite !list_lookup_fmap.
  destruct (decide (i = j)) as [->|Hne].
  - rewrite list_lookup_alter_eq. by destruct (cs !! j).
  - by rewrite list_lookup_alter_ne.
Qed.

Lemma canvas_replaced_prefix (old : option nat) (cs : list Chart) :
  chart_canvas <$> match old with Some c => alter destroyed c cs | None => cs end
  = chart_canvas <$> cs.
Proof. destruct old; [apply canvas_alter_destroyed | done]. Qed.

Lemma latest_replaced (canvas : string) (old : option nat) (new : Chart) (cs : list Chart) :
  latest canvas (replaced old new cs)
  = if decide (chart_canvas new = canvas) then Some (length cs) else latest canvas cs.
Proof.
  unfold latest, replaced. rewrite fmap_app, canvas_replaced_prefix. simpl.
  rewrite last_index_of_snoc. by rewrite length_fmap.
Qed.

(** A chart that is alive after a replacement is the new one, or was alive
    before and is not the one replaced. *)
Lemma lookup_replaced (old : option nat) (new : Chart) (cs : list Chart) (i : nat) (c : Chart) :
  replaced old new cs !! i = Some c → chart_live c = true →
  (i = length cs ∧ c = new) ∨ (cs !! i = Some c ∧ old ≠ Some i).
Proof.
  unfold replaced. intros Hi Hlive.
  assert (length (match old with Some c => alter destroyed c cs | None => cs end)
          = length cs) as Hlen by (destruct old; [apply length_alter | done]).
  apply lookup_app_Some in Hi as [Hi|[Hge Hi]].
  - right. destruct old as [o|]; [|done].
    destruct (decide (o = i)) as [->|Hne].
    + rewrite list_lookup_alter_eq in Hi. destruct (cs !! i) as [c0|]; [|done].
      simpl in Hi. injection Hi as <-. done.
    + rewrite list_lookup_alter_ne in Hi by done. split; [done | congruence].
  - left. rewrite Hlen in *. destruct (i - length cs) as [|k] eqn:Hk; [|done].
    simpl in Hi. injection Hi as <-. split; [lia | done].
Qed.

Lemma chart_inv_intro (canvas : string) (global : option nat) (cs : list Chart) :
  global = latest canvas cs →
  (∀ i c, cs !! i = Some c → chart_canvas c = canvas → chart_live c = true →
          global = Some i) →
  chart_inv canvas global cs.
Proof.
  intros Hl Hg. split; [done..|].
  intros i j ci cj Hi Hj Hci Hcj Hli Hlj.
  pose proof (Hg i ci Hi Hci Hli). pose proof (Hg j cj Hj Hcj Hlj). congruence.
Qed.

(** Replacing the chart of a canvas keeps the discipline of that canvas. *)
Lemma chart_inv_replaced (canvas : string) (old : option nat) (new : Chart) (cs : list Chart) :
  chart_canvas new = canvas →
  chart_inv canvas old cs →
  chart_inv canvas (Some (length cs)) (replaced old new cs).
Proof.
  intros Hnew [Hl Hg _]. apply chart_inv_intro.
  - rewrite latest_replaced. by rewrite decide_True.
  - intros i c Hi Hc Hlive.
    destruct (lookup_replaced _ _ _ _ _ Hi Hlive) as [[-> _]|[Hi' Hne]]; [done|].
    by destruct Hne, (Hg i c Hi' Hc Hlive).
Qed.

(** Replacing the chart of one canvas keeps the discipline of any other. *)
Lemma chart_inv_replaced_other (canvas : string) (global old : option nat) (new : Chart)
    (cs : list Chart) :
  chart_canvas new ≠ canvas →
  chart_inv canvas global cs →
  chart_inv canvas global (replaced old new cs).
Proof.
  intros Hnew [Hl Hg _]. apply chart_inv_intro.
  - rewrite latest_replaced. by rewrite decide_False.
  - intros i c Hi Hc Hlive.
    destruct (lookup_replaced _ _ _ _ _ Hi Hlive) as [[_ ->]|[Hi' _]]; [done|].
    by apply (Hg i c).
Qed.

Lemma chart_inv_nil (canvas : string) : chart_inv canvas None [].
Proof. by apply chart_inv_intro. Qed.

(** *** What the chart functions do to the page *)

Lemma createEngagementChart_effect (data : Series) (w : Window) (g : Main.Globals) :
  Main.createEngagementChart data (MkPage w g) =
  if decide ("engagementChart" ∈ elements w) then
    Return tt
      (MkPage
         (with_charts
            (replaced (Main.engagementChart g)
               (drawn "engagementChart" "line" (labels data) (values data)) (charts w)) w)
         {| Main.engagementChart := Some (length (charts w));
            Main.timingChart := Main.timingChart g;
            Main.currentAnalysisData := Main.currentAnalysisData g |})
  else Throw TypeError (MkPage w g).
Proof.
  unfold Main.createEngagementChart, mbind, M_bind, getElementById, get_window. simpl.
  destruct (decide ("engagementChart" ∈ elements w)); simpl; [|done].
  destruct (Main.engagementChart g) as [c|]; simpl; [|done].
  by rewrite length_alter.
Qed.

Lemma createTimingChart_effect (data : Series) (w : Window) (g : Main.Globals) :
  Main.createTimingChart data (MkPage w g) =
  if decide ("timingChart" ∈ elements w) then
    Return tt
      (MkPage
         (with_charts
            (replaced (Main.timingChart g)
               (drawn "timingChart" "bar" (labels data) (values data)) (charts w)) w)
         {| Main.engagementChart := Main.engagementChart g;
            Main.timingChart := Some (length (charts w));
            Main.currentAnalysisData := Main.currentAnalysisData g |})
  else Throw TypeError (MkPage w g).
Proof.
  unfold Main.createTimingChart, mbind, M_bind, getElementById, get_window. simpl.
  destruct (decide ("timingChart" ∈ elements w)); simpl; [|done].
  destruct (Main.timingChart g) as [c|]; simpl; [|done].
  by rewrite length_alter.
Qed.

Lemma createMainChart_effect (w : Window) (g : Dashboard.Globals) :
  Dashboard.createMainChart (MkPage w g) =
  if decide ("mainChart" ∈ elements w) then
    match Dashboard.currentData g with
    | None => Throw TypeError (MkPage w g)
    | Some data =>
        match engagement_data data with
        | None => Return tt (MkPage w g)
        | Some ed =>
            Return tt
              (MkPage
                 (with_charts
                    (replaced (Dashboard.mainChart g)
                       (drawn "mainChart" "line" (Some (default [] (labels ed)))
                          (Some (default [] (values ed))))
                       (charts w)) w)
                 {| Dashboard.mainChart := Some (length (charts w));
                    Dashboard.timingChart := Dashboard.timingChart g;
                    Dashboard.currentData := Dashboard.currentData g |})
        end
    end
  else Return tt (MkPage w g).
Proof.
  unfold Dashboard.createMainChart, mbind, M_bind, getElementById, get_window. simpl.
  destruct (decide ("mainChart" ∈ elements w)); simpl; [|done].
  destruct (Dashboard.currentData g) as [data|]; simpl; [|done].
  destruct (engagement_data data) as [ed|]; simpl; [|done].
  destruct (Dashboard.mainChart g) as [c|]; simpl; [|done].
  by rewrite length_alter.
Qed.

Lemma createTimingChartDashboard_effect (w : Window) (g : Dashboard.Globals) :
  Dashboard.createTimingChartDashboard (MkPage w g) =
  if decide ("timingChart" ∈ elements w) then
    match Dashboard.currentData g with
    | None => Throw TypeError (MkPage w g)
    | Some data =>
        match timing_data data with
        | None => Return tt (MkPage w g)
        | Some td =>
            Return tt
              (MkPage
                 (with_charts
                    (replaced (Dashboard.timingChart g)
                       (drawn "timingChart" "doughnut"
                          (Some (take 8 (default [] (labels td))))
                          (Some (take 8 (default [] (values td)))))
                       (charts w)) w)
                 {| Dashboard.mainChart := Dashboard.mainChart g;
                    Dashboard.timingChart := Some (length (charts w));
                    Dashboard.currentData := Dashboard.currentData g |})
        end
    end
  else Return tt (MkPage w g).
Proof.
  unfold Dashboard.createTimingChartDashboard, mbind, M_bind, getElementById, get_window.
  simpl.
  destruct (decide ("timingChart" ∈ elements w)); simpl; [|done].
  destruct (Dashboard.currentData g) as [data|]; simpl; [|done].
  destruct (timing_data data) as [td|]; simpl; [|done].
  destruct (Dashboard.timingChart g) as [c|]; simpl; [|done].
  by rewrite length_alter.
Qed.

(** *** Preservation through the monad *)

Section preservation.
Context {G : Type} (I : Page G → Prop).

Lemma preserves_bind {A B} (m : M G A) (f : A → M G B) :
  preserves I m → (∀ a, preserves I (f a)) → preserves I (m ≫= f).
Proof.
  intros Hm Hf p Hp. unfold mbind, M_bind. specialize (Hm p Hp).
  destruct (m p) as [a p'|e p']; simpl in *; [by apply Hf | done].
Qed.

Lemma preserves_get_globals {B} (f : G → M G B) :
  (∀ p, I p → I (page_of (f (globals p) p))) → preserves I (get_globals ≫= f).
Proof. intros Hf p Hp. by apply Hf. Qed.

Lemma preserves_ret {A} (a : A) : preserves I (mret a).
Proof. by intros p Hp. Qed.

Lemma preserves_throw {A} (e : exn) : preserves I (mthrow (A := A) e).
Proof. by intros p Hp. Qed.

(** Window operations that leave the charts and the globals alone keep
    whatever is said of these two only. *)
Hypothesis I_charts_globals :
  ∀ p q, charts (win p) = charts (win q) → globals p = globals q → I p → I q.

Lemma preserves_getElementById (id : string) : preserves I (getElementById id).
Proof using Type. by intros p Hp. Qed.

Lemma preserves_set_textContent (el : option string) (text : string) :
  preserves I (set_textContent el text).
Proof using I_charts_globals.
  intros p Hp. destruct el; [|done]. by apply (I_charts_globals p).
Qed.

Lemma preserves_set_display (el : option string) (v : string) :
  preserves I (set_display el v).
Proof using I_charts_globals.
  intros p Hp. destruct el; [|done]. by apply (I_charts_globals p).
Qed.

Lemma preserves_scrollIntoView (el : option string) : preserves I (scrollIntoView el).
Proof using Type. intros p Hp. by destruct el. Qed.
End preservation.

Lemma main_charts_ok_frame (p q : Page Main.Globals) :
  charts (win p) = charts (win q) → globals p = globals q →
  main_charts_ok p → main_charts_ok q.
Proof. unfold main_charts_ok. by intros <- <-. Qed.

Lemma createEngagementChart_preserves (data : Series) :
  preserves main_charts_ok (Main.createEngagementChart data).
Proof.
  intros [w g] [He Ht]. rewrite createEngagementChart_effect.
  destruct (decide ("engagementChart" ∈ elements w)); simpl; [|done].
  split; simpl in *.
  - by apply chart_inv_replaced.
  - by apply chart_inv_replaced_other.
Qed.

Lemma createTimingChart_preserves (data : Series) :
  preserves main_charts_ok (Main.createTimingChart data).
Proof.
  intros [w g] [He Ht]. rewrite createTimingChart_effect.
  destruct (decide ("timingChart" ∈ elements w)); simpl; [|done].
  split; simpl in *.
  - by apply chart_inv_replaced_other.
  - by apply chart_inv_replaced.
Qed.

Lemma show_results_preserves :
  preserves main_charts_ok
    (el ← getElementById "resultsSection"; set_display el "block";;
     el ← getElementById "resultsSection"; scrollIntoView el).
Proof.
  repeat first
    [ apply preserves_getElementById
    | apply (preserves_set_display _ main_charts_ok_frame)
    | apply preserves_scrollIntoView
    | apply preserves_bind; [|intros ?] ].
Qed.

Lemma store_and_show_preserves (data : AnalysisData) :
  preserves main_charts_ok
    (g ← get_globals;
     set_globals {| Main.engagementChart := Main.engagementChart g;
                    Main.timingChart := Main.timingChart g;
                    Main.currentAnalysisData := Some data |};;
     el ← getElementById "resultsSection"; set_display el "block";;
     el ← getElementById "resultsSection"; scrollIntoView el).
Proof.
  intros [w g] Hp.
  change (main_charts_ok
            (page_of
               ((el ← getElementById "resultsSection"; set_display el "block";;
                 el ← getElementById "resultsSection"; scrollIntoView el)
                  (MkPage w {| Main.engagementChart := Main.engagementChart g;
                               Main.timingChart := Main.timingChart g;
                               Main.currentAnalysisData := Some data |})))).
  apply show_results_preserves. exact Hp.
Qed.

Lemma displayResults_preserves (data : AnalysisData) :
  preserves main_charts_ok (Main.displayResults data).
Proof.
  unfold Main.displayResults.
  repeat first
    [ apply store_and_show_preserves
    | apply createEngagementChart_preserves
    | apply createTimingChart_preserves
    | apply preserves_getElementById
    | apply (preserves_set_textContent _ main_charts_ok_frame)
    | apply preserves_ret
    | match goal with |- preserves _ (match ?x with _ => _ end) => destruct x end
    | apply preserves_bind; [|intros ?] ].
Qed.

Lemma createMainChart_preserves : preserves dashboard_charts_ok Dashboard.createMainChart.
Proof.
  intros [w g] [Hm Ht]. rewrite createMainChart_effect.
  repeat case_match; simpl; try done.
  split; simpl in *.
  - by apply chart_inv_replaced.
  - by apply chart_inv_replaced_other.
Qed.

Lemma createTimingChartDashboard_preserves :
  preserves dashboard_charts_ok Dashboard.createTimingChartDashboard.
Proof.
  intros [w g] [Hm Ht]. rewrite createTimingChartDashboard_effect.
  repeat case_match; simpl; try done.
  split; simpl in *.
  - by apply chart_inv_replaced_other.
  - by apply chart_inv_replaced.
Qed.

Lemma main_step_ok (p : Page Main.Globals) (c : main_call) :
  main_charts_ok p → main_charts_ok (main_step p c).
Proof.
  intros Hp. destruct c; simpl.
  - by apply createEngagementChart_preserves.
  - by apply createTimingChart_preserves.
  - by apply displayResults_preserves.
Qed.

Lemma dashboard_step_ok (p : Page Dashboard.Globals) (c : dashboard_call) :
  dashboard_charts_ok p → dashboard_charts_ok (dashboard_step p c).
Proof.
  intros Hp. destruct c; simpl.
  - by apply createMainChart_preserves.
  - by apply createTimingChartDashboard_preserves.
  - apply (preserves_bind dashboard_charts_ok Dashboard.createMainChart
             (λ _, Dashboard.createTimingChartDashboard));
      [apply createMainChart_preserves | | done].
    intros _. apply createTimingChartDashboard_preserves.
Qed.

(** C10: starting from a page without charts, after any sequence of calls
    that create charts (createEngagementChart, createTimingChart and
    displayResults on the analysis page; createMainChart,
    createTimingChartDashboard and createCharts on the dashboard), each
    canvas has at most one chart that is not destroyed, that chart is the
    one its global variable refers to, and the variable refers to the chart
    created last on the canvas. *)
Theorem one_live_chart_per_canvas (w : Window) (data : option AnalysisData)
    (calls : list main_call) (dashboard_calls : list dashboard_call) :
  charts w = [] →
  main_charts_ok (foldl main_step (MkPage w Main.initial) calls)
  ∧ dashboard_charts_ok
      (foldl dashboard_step
         (MkPage w {| Dashboard.mainChart := None; Dashboard.timingChart := None;
                      Dashboard.currentData := data |})
         dashboard_calls).
Proof.
  intros Hw. split.
  - assert (main_charts_ok (MkPage w Main.initial)) as H0
      by (split; simpl; rewrite Hw; apply chart_inv_nil).
    revert H0. generalize (MkPage w Main.initial).
    induction calls as [|c calls IH]; intros p Hp; simpl; [done|].
    apply IH. by apply main_step_ok.
  - match goal with |- dashboard_charts_ok (foldl _ ?p0 _) =>
      assert (dashboard_charts_ok p0) as H0
        by (split; simpl; rewrite Hw; apply chart_inv_nil);
      revert H0; generalize p0 end.
    induction dashboard_calls as [|c cs IH]; intros p Hp; simpl; [done|].
    apply IH. by apply dashboard_step_ok.
Qed.

Lemma one_live_chart_per_canvas_witness :
  main_charts_ok
    (foldl main_step (MkPage sample_window Main.initial)
       [DisplayResults sample_data;
        CreateTimingChart {| labels := Some []; values := None |};
        DisplayResults sample_data])
  ∧ dashboard_charts_ok
      (foldl dashboard_step
         (MkPage sample_window
            {| Dashboard.mainChart := None; Dashboard.timingChart := None;
               Dashboard.currentData := Some sample_data |})
         [CreateCharts; CreateTimingChartDashboard; CreateCharts]).
Proof.
  exact (one_live_chart_per_canvas sample_window (Some sample_data)
           [DisplayResults sample_data;
            CreateTimingChart {| labels := Some []; values := None |};
            DisplayResults sample_data]
           [CreateCharts; CreateTimingChartDashboard; CreateCharts] eq_refl).
Defined.

(** Three rounds on the analysis page leave five charts, of which the last
    two are alive and are the ones the globals refer to. *)
Example charts_after_three_calls :
  let p := foldl main_step (MkPage sample_window Main.initial)
             [DisplayResults sample_data;
              CreateTimingChart {| labels := Some []; values := None |};
              DisplayResults sample_data] in
  (chart_live <$> charts (win p)) = [false; false; false; true; true]
  ∧ Main.engagementChart (globals p) = Some 3
  ∧ Main.timingChart (globals p) = Some 4.
Proof. vm_compute. done. Qed.

(** ** Decimal digits *)

Lemma all_chars_app (P : ascii → bool) (a b : string) :
  all_chars P (a +:+ b) = all_chars P a && all_chars P b.
Proof.
  induction a as [|x a IH]; [done|].
  rewrite append_cons. simpl. by rewrite IH, andb_assoc.
Qed.

Lemma all_chars_impl (P Q : ascii → bool) (s : string) :
  (∀ c, P c = true → Q c = true) → all_chars P s = true → all_chars Q s = true.
Proof.
  intros HPQ. induction s as [|x s IH]; simpl; [done|].
  rewrite !andb_true_iff. intros [??]. auto.
Qed.

Lemma is_digit_pretty_N_char (n : N) : is_digit (pretty_N_char n) = true.
Proof. unfold pretty_N_char. by repeat case_match. Qed.

Lemma pretty_N_go_app (n : N) (s : string) :
  pretty_N_go n s = pretty_N_go n "" +:+ s.
Proof.
  revert s. induction (N.lt_wf_0 n) as [n _ IH]. intros s.
  destruct (decide (n = 0%N)) as [->|Hn]; [done|].
  rewrite !(pretty_N_go_step n) by lia.
  rewrite IH by (apply N.div_lt; lia).
  rewrite (IH (n `div` 10)%N) with (s := String _ "") by (apply N.div_lt; lia).
  by rewrite append_assoc.
Qed.

Lemma digits_lt_10 (z : Z) : (0 ≤ z < 10)%Z → digits z = String (digit z) "".
Proof.
  intros Hz. unfold digits, digit, pretty, pretty_N.
  destruct (decide (Z.to_N z = 0%N)) as [E|Hne].
  - by rewrite E.
  - rewrite pretty_N_go_step by lia.
    assert (Z.to_N z `div` 10 = 0)%N as -> by (apply N.div_small; lia).
    rewrite pretty_N_go_0. by rewrite N.mod_small by lia.
Qed.

Lemma digits_ge_10 (z : Z) :
  (10 ≤ z)%Z → digits z = digits (z `div` 10) +:+ String (digit (z `mod` 10)) "".
Proof.
  intros Hz. unfold digits, digit, pretty, pretty_N.
  assert (Z.to_N (z `div` 10) = (Z.to_N z `div` 10)%N) as Hd
    by (rewrite Z2N.inj_div by lia; done).
  assert (Z.to_N (z `mod` 10) = (Z.to_N z `mod` 10)%N) as Hm
    by (rewrite Z2N.inj_mod by lia; done).
  assert (1 ≤ z `div` 10)%Z by (apply Z.div_le_lower_bound; lia).
  rewrite decide_False by lia. rewrite decide_False by lia.
  rewrite pretty_N_go_step by lia. rewrite pretty_N_go_app.
  by rewrite Hd, Hm.
Qed.

(** The digits of a number are digits. *)
Lemma digits_all_digits (z : Z) : all_chars is_digit (digits z) = true.
Proof.
  destruct (decide (z < 10)%Z) as [Hz|Hz].
  - destruct (decide (0 ≤ z)%Z).
    + rewrite digits_lt_10 by lia. simpl. unfold digit.
      by rewrite is_digit_pretty_N_char.
    + unfold digits. by replace (Z.to_N z) with 0%N by lia.
  - assert (0 ≤ z)%Z as Hz0 by lia. revert Hz.
    pattern z. apply Z_lt_induction; [|done]. clear z Hz0.
    intros z IH Hz. rewrite digits_ge_10 by lia.
    rewrite all_chars_app. simpl. unfold digit at 1.
    rewrite is_digit_pretty_N_char, andb_true_r.
    destruct (decide (z `div` 10 < 10)%Z).
    + rewrite digits_lt_10 by (split; [apply Z.div_pos|]; lia).
      simpl. unfold digit. by rewrite is_digit_pretty_N_char.
    + apply IH; [|lia]. split; [apply Z.div_pos; lia|].
      apply Z.div_lt; lia.
Qed.

Lemma zeros_all_digits (n : nat) : all_chars is_digit (zeros n) = true.
Proof. induction n as [|n IH]; simpl; [done | exact IH]. Qed.

Lemma pad_all_digits (n : nat) (z : Z) : all_chars is_digit (pad n z) = true.
Proof.
  unfold pad. by rewrite all_chars_app, zeros_all_digits, digits_all_digits.
Qed.

(** ** The dashboard's CSV text *)

Lemma dashboard_series_rows_seq (ls : list string) (vs : list number) :
  (λ i, ToString (label_at ls i) +:+ "," +:+ ToString (or_else (prop (vs !! i)) (Num zero)))
    <$> seq 0 (length ls)
  = dashboard_series_rows ls vs.
Proof.
  unfold dashboard_series_rows, stat_cell. apply list_eq. intros i.
  rewrite list_lookup_fmap, list_lookup_imap.
  destruct (decide (i < length ls)) as [Hi|Hi].
  - rewrite lookup_seq_lt by done. simpl.
    destruct (lookup_lt_is_Some_2 ls i Hi) as [l Hl].
    unfold label_at. by rewrite Hl.
  - rewrite lookup_seq_ge by lia. rewrite (lookup_ge_None_2 ls i) by lia. done.
Qed.

Lemma dashboard_csv_text_rows (data : AnalysisData) :
  Dashboard.csv_text data =
  match engagement_data data with
  | None => Some (unlines (dashboard_summary_rows data))
  | Some ed =>
      match labels ed with
      | None => Some (unlines (dashboard_summary_rows data))
      | Some ls =>
          match values ed with
          | Some vs =>
              Some (unlines (dashboard_summary_rows data ++ [""; "日付,エンゲージメント"]
                             ++ dashboard_series_rows ls vs))
          | None =>
              if decide (ls = []) then
                Some (unlines (dashboard_summary_rows data ++ [""; "日付,エンゲージメント"]))
              else None
          end
      end
  end.
Proof.
  unfold Dashboard.csv_text, dashboard_summary_rows, stat_cell.
  destruct (engagement_data data) as [ed|].
  - destruct (labels ed) as [ls|]; [|simpl; by rewrite !append_assoc].
    destruct (values ed) as [vs|]; simpl.
    + rewrite (for_range_rows
                 (row := λ i, ToString (label_at ls i) +:+ ","
                              +:+ ToString (or_else (prop (vs !! i)) (Num zero))))
        by (intros; simpl; by rewrite !append_assoc).
      rewrite dashboard_series_rows_seq. by rewrite !append_assoc, append_nil_l.
    + destruct ls; simpl; [|done]. by rewrite !append_assoc.
  - simpl. by rewrite !append_assoc.
Qed.

Lemma exportData_texts (p : Page Dashboard.Globals) (data : AnalysisData) :
  Dashboard.currentData (globals p) = Some data →
  blob_text <$> new_downloads p (Dashboard.exportData p)
  = option_list (Dashboard.csv_text data).
Proof.
  intros H. pose proof (exportData_stored p data H) as E.
  destruct (Dashboard.csv_text data) as [csv|].
  - by rewrite (new_downloads_downloaded _ _ _ E).
  - rewrite E. by rewrite new_downloads_throw.
Qed.

(** ** The name of the file *)

Lemma split_head_append (c : ascii) (a b : string) :
  all_chars (λ x, negb (Ascii.eqb x c)) a = true →
  split_head c (a +:+ String c b) = a.
Proof.
  induction a as [|x a IH].
  - intros _. rewrite append_nil_l. simpl. by rewrite Ascii.eqb_refl.
  - intros Ha. rewrite append_cons.
    simpl in Ha. apply andb_true_iff in Ha as [Hx Ha]. apply negb_true_iff in Hx.
    simpl. rewrite Hx. by rewrite IH.
Qed.

Lemma toISOString_date_part (t : Date) :
  ∃ time, toISOString t = date_part t +:+ String "T" time.
Proof.
  eexists. unfold toISOString, date_part.
  rewrite !append_assoc. repeat f_equal.
Qed.

Lemma digit_not_T (c : ascii) : is_digit c = true → negb (Ascii.eqb c "T") = true.
Proof.
  intros Hc. rewrite negb_true_iff. apply Ascii.eqb_neq. intros ->. done.
Qed.

Lemma date_part_no_T (t : Date) :
  all_chars (λ x, negb (Ascii.eqb x "T")) (date_part t) = true.
Proof.
  assert (∀ n z, all_chars (λ x, negb (Ascii.eqb x "T")) (pad n z) = true) as Hpad
    by (intros; apply (all_chars_impl is_digit); [apply digit_not_T | apply pad_all_digits]).
  unfold date_part.
  destruct ((0 <=? year t)%Z && (year t <=? 9999)%Z); [|destruct (year t <? 0)%Z];
    rewrite !all_chars_app, !Hpad; done.
Qed.

(** [new Date().toISOString().split('T')[0]] is the date. *)
Lemma split_head_toISOString (t : Date) : split_head "T" (toISOString t) = date_part t.
Proof.
  destruct (toISOString_date_part t) as [time ->].
  apply split_head_append, date_part_no_T.
Qed.

Lemma lines_header (h rest : string) :
  all_chars (λ x, negb (Ascii.eqb x (ascii_of_nat 10))) h = true →
  head (lines (h +:+ LF +:+ rest)) = Some h.
Proof.
  induction h as [|x h IH].
  - intros _. rewrite append_nil_l. done.
  - intros Hh. rewrite append_cons.
    simpl in Hh. apply andb_true_iff in Hh as [Hx Hh]. apply negb_true_iff in Hx.
    simpl. rewrite Hx.
    specialize (IH Hh). by destruct (lines (h +:+ LF +:+ rest)); simplify_eq/=.
Qed.

(** C8, as the code has it: every file a CSV export downloads is typed as
    UTF-8 comma-separated text, starts with a two-column header row, which
    is [データ種別,値] for exportToCSV and [メトリック,値] for the dashboard's
    exportData, and carries the current date (year-month-day of the clock,
    in UTC) in its name. *)
Theorem csv_export_header_and_name (data : AnalysisData) (d : Download)
    (p : Page Main.Globals) (q : Page Dashboard.Globals) :
  (Main.currentAnalysisData (globals p) = Some data →
   d ∈ new_downloads p (Main.exportToCSV p) →
   blob_type d = "text/csv;charset=utf-8;"
   ∧ header_is "データ種別,値" d
   ∧ download_name d = "sns_analysis_" +:+ date_part (clock (win p)) +:+ ".csv")
  ∧ (Dashboard.currentData (globals q) = Some data →
     d ∈ new_downloads q (Dashboard.exportData q) →
     blob_type d = "text/csv;charset=utf-8;"
     ∧ header_is "メトリック,値" d
     ∧ download_name d
       = "sns_analysis_dashboard_" +:+ date_part (clock (win q)) +:+ ".csv").
Proof.
  split.
  - intros H Hd. pose proof (exportToCSV_stored p data H) as E.
    pose proof (csv_text_rows data) as Hrows.
    destruct (Main.csv_text data) as [csv|].
    + rewrite (new_downloads_downloaded _ _ _ E) in Hd.
      apply list_elem_of_singleton in Hd as ->. unfold csv_file, header_is. simpl.
      rewrite split_head_toISOString. split; [done|]. split; [|done].
      assert (∃ rest, csv = "データ種別,値" +:+ LF +:+ rest) as [rest ->].
      { repeat case_match; simplify_eq; eexists; unfold summary_rows; simpl; done. }
      by apply lines_header.
    + rewrite E, new_downloads_throw in Hd. by apply elem_of_nil in Hd.
  - intros H Hd. pose proof (exportData_stored q data H) as E.
    pose proof (dashboard_csv_text_rows data) as Hrows.
    destruct (Dashboard.csv_text data) as [csv|].
    + rewrite (new_downloads_downloaded _ _ _ E) in Hd.
      apply list_elem_of_singleton in Hd as ->. unfold dashboard_csv_file, header_is. simpl.
      rewrite split_head_toISOString. split; [done|]. split; [|done].
      assert (∃ rest, csv = "メトリック,値" +:+ LF +:+ rest) as [rest ->].
      { repeat case_match; simplify_eq; eexists; unfold dashboard_summary_rows; simpl;
          done. }
      by apply lines_header.
    + rewrite E, new_downloads_throw in Hd. by apply elem_of_nil in Hd.
Qed.

Lemma csv_export_header_and_name_witness :
  (blob_type (csv_file sample_clock (default "" (Main.csv_text sample_data)))
   = "text/csv;charset=utf-8;"
   ∧ header_is "データ種別,値" (csv_file sample_clock (default "" (Main.csv_text sample_data)))
   ∧ download_name (csv_file sample_clock (default "" (Main.csv_text sample_data)))
     = "sns_analysis_2024-03-07.csv")
  ∧ (blob_type (dashboard_csv_file sample_clock
                  (default "" (Dashboard.csv_text sample_data)))
     = "text/csv;charset=utf-8;"
     ∧ header_is "メトリック,値"
         (dashboard_csv_file sample_clock (default "" (Dashboard.csv_text sample_data)))
     ∧ download_name (dashboard_csv_file sample_clock
                        (default "" (Dashboard.csv_text sample_data)))
       = "sns_analysis_dashboard_2024-03-07.csv").
Proof.
  split.
  - apply (proj1 (csv_export_header_and_name sample_data
                    (csv_file sample_clock (default "" (Main.csv_text sample_data)))
                    sample_page sample_dashboard)).
    + reflexivity.
    + vm_compute. apply list_elem_of_here.
  - apply (proj2 (csv_export_header_and_name sample_data
                    (dashboard_csv_file sample_clock
                       (default "" (Dashboard.csv_text sample_data)))
                    sample_page sample_dashboard)).
    + reflexivity.
    + vm_compute. apply list_elem_of_here.
Defined.

(** C8 as stated fails on the dashboard: the file its exportData downloads
    starts with the row [メトリック,値]. *)
Lemma csv_export_header_counterexample :
  new_downloads sample_dashboard (Dashboard.exportData sample_dashboard)
  = [dashboard_csv_file sample_clock (default "" (Dashboard.csv_text sample_data))]
  ∧ header_is "メトリック,値"
      (dashboard_csv_file sample_clock (default "" (Dashboard.csv_text sample_data)))
  ∧ ¬ header_is "データ種別,値"
        (dashboard_csv_file sample_clock (default "" (Dashboard.csv_text sample_data))).
Proof.
  split; [vm_compute; reflexivity|].
  unfold header_is. split; [vm_compute; reflexivity|].
  vm_compute. intros [=].
Qed.

(** ** The results on the page *)

Lemma or_else_dash (stat : option number) :
  ToString (or_else (prop stat) (Str "-")) = shown Number_toString stat.
Proof.
  destruct stat as [x|]; [|done]. unfold or_else, shown. simpl.
  by destruct (Number_truthy x).
Qed.

(** With its elements in the document, displayResults runs to its end. *)
Lemma displayResults_effect (data : AnalysisData) (p : Page Main.Globals) :
  (∀ id, id ∈ results_elements → id ∈ elements (win p)) →
  Main.displayResults data p = Return tt (displayed data p).
Proof.
  intros Hel. destruct p as [w g]. simpl in Hel.
  assert (∀ id, id ∈ results_elements → ∀ A (a b : A),
            (if decide (id ∈ elements w) then a else b) = a) as Hdec
    by (intros; by rewrite decide_True by by apply Hel).
  unfold Main.displayResults, displayed.
  unfold mbind, M_bind, getElementById, get_window, mret, M_ret.
  rewrite or_else_dash.
  fold (shown (λ x, toFixed 2 x +:+ "%") (avg_engagement (stats data))).
  fold (shown Main.formatNumber (total_impressions (stats data))).
  fold (shown Main.formatNumber (follower_count (stats data))).
  simpl.
  repeat (rewrite Hdec by (unfold results_elements; set_solver); simpl).
  destruct (engagement_data data) as [ed|], (timing_data data) as [td|];
    rewrite ?createEngagementChart_effect, ?createTimingChart_effect; simpl;
    repeat (rewrite Hdec by (unfold results_elements; set_solver); simpl);
    rewrite ?createEngagementChart_effect, ?createTimingChart_effect; simpl;
    repeat (rewrite Hdec by (unfold results_elements; set_solver); simpl);
    reflexivity.
Qed.

Lemma last_index_of_lt (x : string) (l : list string) (i : nat) :
  last_index_of x l = Some i → i < length l.
Proof.
  revert i. induction l as [|y l IH]; intros i; simpl; [done|].
  destruct (last_index_of x l) as [j|].
  - intros [= <-]. specialize (IH j eq_refl). lia.
  - destruct (decide (y = x)); [|done]. intros [= <-]. lia.
Qed.

Lemma latest_lt (canvas : string) (cs : list Chart) (i : nat) :
  latest canvas cs = Some i → i < length cs.
Proof.
  unfold latest. intros H. apply last_index_of_lt in H. by rewrite length_fmap in H.
Qed.

Lemma length_replaced (old : option nat) (new : Chart) (cs : list Chart) :
  length (replaced old new cs) = S (length cs).
Proof.
  unfold replaced. rewrite length_app. simpl.
  destruct old; [rewrite length_alter|]; lia.
Qed.

Lemma lookup_replaced_new (old : option nat) (new : Chart) (cs : list Chart) :
  replaced old new cs !! length cs = Some new.
Proof.
  unfold replaced. destruct old.
  - rewrite lookup_app_r by (rewrite length_alter; lia).
    rewrite length_alter. by rewrite Nat.sub_diag.
  - rewrite lookup_app_r by lia. by rewrite Nat.sub_diag.
Qed.

Lemma lookup_replaced_kept (old : option nat) (new : Chart) (cs : list Chart) (i : nat) :
  i < length cs → old ≠ Some i → replaced old new cs !! i = cs !! i.
Proof.
  intros Hi Hne. unfold replaced. destruct old as [o|].
  - rewrite lookup_app_l by (rewrite length_alter; lia).
    apply list_lookup_alter_ne. congruence.
  - by rewrite lookup_app_l by lia.
Qed.

(** C7, as the code has it.  On a page that has the elements of the
    results, displayResults tells an unset series from a set one: an unset
    series draws no chart on its canvas, while a series that is set, be it
    empty, replaces the chart of its canvas by one of its labels and
    values.  It does not tell a statistic computed as zero from an unset
    one: each of the four statistic elements shows a dash in both cases,
    and the text of the value otherwise. *)
Theorem displayResults_unset_and_zero (data : AnalysisData) (p : Page Main.Globals) :
  (∀ id, id ∈ results_elements → id ∈ elements (win p)) →
  main_charts_ok p →
  let p' := page_of (Main.displayResults data p) in
  match engagement_data data with
  | None =>
      latest "engagementChart" (charts (win p')) = latest "engagementChart" (charts (win p))
      ∧ Main.engagementChart (globals p') = Main.engagementChart (globals p)
  | Some s =>
      latest "engagementChart" (charts (win p')) = Some (length (charts (win p)))
      ∧ Main.engagementChart (globals p') = Some (length (charts (win p)))
      ∧ charts (win p') !! length (charts (win p))
        = Some (drawn "engagementChart" "line" (labels s) (values s))
  end
  ∧ match timing_data data with
    | None =>
        latest "timingChart" (charts (win p')) = latest "timingChart" (charts (win p))
        ∧ Main.timingChart (globals p') = Main.timingChart (globals p)
    | Some s =>
        ∃ i, latest "timingChart" (charts (win p')) = Some i
           ∧ Main.timingChart (globals p') = Some i
           ∧ length (charts (win p)) ≤ i
           ∧ charts (win p') !! i = Some (drawn "timingChart" "bar" (labels s) (values s))
    end
  ∧ textContent (win p') !! "totalPosts"
    = Some (shown Number_toString (total_posts (stats data)))
  ∧ textContent (win p') !! "avgEngagement"
    = Some (shown (λ x, toFixed 2 x +:+ "%") (avg_engagement (stats data)))
  ∧ textContent (win p') !! "totalImpressions"
    = Some (shown Main.formatNumber (total_impressions (stats data)))
  ∧ textContent (win p') !! "followerCount"
    = Some (shown Main.formatNumber (follower_count (stats data)))
  ∧ (∀ render, shown render None = "-" ∧ shown render (Some zero) = "-")
  ∧ (∀ render x, Number_truthy x = true → shown render (Some x) = render x).
Proof.
  intros Hel [He Ht]. rewrite (displayResults_effect data p Hel).
  destruct p as [w g]. simpl in *.
  pose proof (global_latest _ _ _ He) as Hge.
  pose proof (global_latest _ _ _ Ht) as Hgt.
  assert (∀ i, Main.timingChart g = Some i → i < length (charts w)) as Hlt
    by (intros i E; rewrite Hgt in E; by apply latest_lt in E).
  destruct (engagement_data data) as [s|], (timing_data data) as [t|];
    rewrite ?latest_replaced; simpl; repeat split;
    try done; try (by simplify_map_eq);
    try (intros render x Hx; by rewrite Hx);
    try apply lookup_replaced_new.
  - rewrite lookup_replaced_kept; [apply lookup_replaced_new | |].
    + rewrite length_replaced. lia.
    + intros E. apply Hlt in E. lia.
  - eexists. repeat split; [|apply lookup_replaced_new].
    rewrite length_replaced. lia.
  - eexists. repeat split; [|apply lookup_replaced_new]. lia.
Qed.

Lemma sample_window_elements (id : string) :
  id ∈ results_elements → id ∈ elements sample_window.
Proof.
  intros Hid. change (elements sample_window) with
    (list_to_set (C := gset string)
       ["loading"; "resultsSection"; "totalPosts"; "avgEngagement"; "totalImpressions";
        "followerCount"; "engagementChart"; "timingChart"; "mainChart"]).
  apply elem_of_list_to_set. unfold results_elements in Hid.
  repeat (apply elem_of_cons in Hid as [->|Hid]; [set_solver|]).
  by apply elem_of_nil in Hid.
Qed.

Lemma displayResults_unset_and_zero_witness :
  let p' := page_of (Main.displayResults zero_data fresh_page) in
  (latest "engagementChart" (charts (win p')) = Some 0
   ∧ Main.engagementChart (globals p') = Some 0
   ∧ charts (win p') !! 0 = Some (drawn "engagementChart" "line" (Some []) (Some [])))
  ∧ (latest "timingChart" (charts (win p')) = None
     ∧ Main.timingChart (globals p') = None)
  ∧ textContent (win p') !! "totalPosts" = Some "-"
  ∧ textContent (win p') !! "avgEngagement" = Some "-"
  ∧ textContent (win p') !! "totalImpressions" = Some "-"
  ∧ textContent (win p') !! "followerCount" = Some "1.1K".
Proof.
  pose proof (displayResults_unset_and_zero zero_data fresh_page) as H.
  simpl. simpl in H.
  destruct H as (H1 & H2 & H3 & H4 & H5 & H6 & _).
  - apply sample_window_elements.
  - split; apply chart_inv_nil.
  - repeat split; solve [apply H1 | apply H2 | exact H3 | exact H4 | exact H5 | exact H6 ].
Defined.

(** C7 as stated fails on a result computed over no posts: its total of
    posts, zero, is shown as a dash, exactly as the unset total of a result
    without statistics is. *)
Lemma displayResults_zero_counterexample :
  total_posts (stats zero_data) = Some zero
  ∧ textContent (win (page_of (Main.displayResults zero_data fresh_page))) !! "totalPosts"
    = Some "-"
  ∧ textContent (win (page_of (Main.displayResults unset_data fresh_page))) !! "totalPosts"
    = Some "-"
  ∧ ¬ zero_shown_as_zero zero_data fresh_page.
Proof.
  assert (textContent (win (page_of (Main.displayResults zero_data fresh_page)))
            !! "totalPosts" = Some "-") as E by (vm_compute; reflexivity).
  split; [reflexivity|]. split; [exact E|]. split; [vm_compute; reflexivity|].
  intros H. specialize (H eq_refl). rewrite E in H. discriminate H.
Qed.

(** ** The timing histogram *)

Lemma csv_text_with_timing (td : option Series) (data : AnalysisData) :
  Main.csv_text (with_timing td data) = Main.csv_text data
  ∧ Dashboard.csv_text (with_timing td data) = Dashboard.csv_text data.
Proof. done. Qed.

(** C6, as the code has it: the dashboard draws the first eight buckets of
    the timing histogram and keeps the whole histogram in the stored
    result; the chart of the analysis page draws every bucket; neither CSV
    export writes the histogram, their texts being the same whatever the
    histogram is; the spreadsheet export sends the stored result whole,
    histogram included. *)
Theorem timing_histogram_display_and_export (data : AnalysisData) (td : Series)
    (w : Window) (g : Dashboard.Globals) (p : Page Main.Globals) :
  Dashboard.currentData g = Some data →
  timing_data data = Some td →
  "timingChart" ∈ elements w →
  Main.currentAnalysisData (globals p) = Some data →
  let q := page_of (Dashboard.createTimingChartDashboard (MkPage w g)) in
  let p1 := page_of (Main.createTimingChart td p) in
  let p2 := page_of (Main.exportToGoogleSheets p) in
  last (charts (win q))
  = Some (drawn "timingChart" "doughnut" (Some (take 8 (default [] (labels td))))
            (Some (take 8 (default [] (values td)))))
  ∧ Dashboard.currentData (globals q) = Some data
  ∧ ("timingChart" ∈ elements (win p) →
     last (charts (win p1)) = Some (drawn "timingChart" "bar" (labels td) (values td)))
  ∧ (∀ td', Main.csv_text (with_timing td' data) = Main.csv_text data
            ∧ Dashboard.csv_text (with_timing td' data) = Dashboard.csv_text data)
  ∧ fetches (win p2)
    = fetches (win p) ++ [{| fetch_url := "/api/export/sheets"; fetch_method := "POST";
                             fetch_body := SheetsBody data |}].
Proof.
  intros Hdata Htd Hel Hp. simpl.
  rewrite createTimingChartDashboard_effect, decide_True, Hdata, Htd by done.
  simpl. split; [|split; [done|split; [|split]]].
  - unfold replaced. by rewrite last_snoc.
  - intros Hel'. destruct p as [w' g']. rewrite createTimingChart_effect.
    rewrite decide_True by done. simpl. unfold replaced. by rewrite last_snoc.
  - intros td'. apply csv_text_with_timing.
  - unfold Main.exportToGoogleSheets, mbind, M_bind, get_globals. by rewrite Hp.
Qed.

Lemma timing_histogram_display_and_export_witness :
  last (charts (win (page_of (Dashboard.createTimingChartDashboard sample_dashboard))))
  = Some (drawn "timingChart" "doughnut"
            (Some ["21:00"; "12:00"; "09:00"; "18:00"; "20:00"; "08:00"; "22:00"; "13:00"])
            (Some [dec 9 0; dec 7 0; dec 6 0; dec 5 0; dec 4 0; dec 3 0; dec 2 0; dec 2 0]))
  ∧ Dashboard.currentData
      (globals (page_of (Dashboard.createTimingChartDashboard sample_dashboard)))
    = Some sample_data
  ∧ fetches (win (page_of (Main.exportToGoogleSheets sample_page)))
    = [{| fetch_url := "/api/export/sheets"; fetch_method := "POST";
          fetch_body := SheetsBody sample_data |}].
Proof.
  pose proof (timing_histogram_display_and_export sample_data
                {| labels := Some ["21:00"; "12:00"; "09:00"; "18:00"; "20:00";
                                   "08:00"; "22:00"; "13:00"; "07:00"; "23:00"];
                   values := Some [dec 9 0; dec 7 0; dec 6 0; dec 5 0; dec 4 0;
                                   dec 3 0; dec 2 0; dec 2 0; dec 1 0; dec 1 0] |}
                sample_window (globals sample_dashboard) sample_page
                eq_refl eq_refl
                (sample_window_elements "timingChart"
                   ltac:(repeat first [apply list_elem_of_here | apply list_elem_of_further]))
                eq_refl) as (H1 & H2 & _ & _ & H5).
  split; [exact H1 | split; [exact H2 | exact H5]].
Defined.

(** C6 as stated fails on the sample result: none of its ten buckets is in
    the text the dashboard exports (nor in the one the analysis page
    exports). *)
Lemma timing_histogram_export_counterexample :
  contains "21:00" (default "" (Dashboard.csv_text sample_data)) = false
  ∧ contains "21:00" (default "" (Main.csv_text sample_data)) = false
  ∧ ¬ histogram_exported sample_data (default "" (Dashboard.csv_text sample_data)).
Proof.
  assert (contains "21:00" (default "" (Dashboard.csv_text sample_data)) = false) as E
    by (vm_compute; reflexivity).
  split; [exact E|]. split; [vm_compute; reflexivity|].
  intros H. specialize (H _ _ "21:00" eq_refl eq_refl (list_elem_of_here _ _)).
  rewrite E in H. discriminate H.
Qed.

(** ** toFixed *)

Lemma length_zeros (n : nat) : String.length (zeros n) = n.
Proof. induction n as [|n IH]; simpl; [done | by rewrite IH]. Qed.

Lemma zeros_snoc (n : nat) : zeros (S n) = zeros n +:+ "0".
Proof.
  induction n as [|n IH]; [done|].
  change (String "0" (zeros (S n)) = String "0" (zeros n) +:+ "0").
  rewrite append_cons. by f_equal.
Qed.

Lemma length_digits_pos (z : Z) : 1 ≤ String.length (digits z).
Proof.
  destruct (decide (10 ≤ z)%Z).
  - rewrite digits_ge_10 by done. rewrite length_append. simpl. lia.
  - destruct (decide (0 ≤ z)%Z).
    + rewrite digits_lt_10 by lia. simpl. lia.
    + unfold digits. replace (Z.to_N z) with 0%N by lia. simpl. lia.
Qed.

Lemma low_digits_0 (f : nat) : low_digits f 0 = zeros f.
Proof.
  induction f as [|f IH]; [done|].
  simpl low_digits. change (0 `div` 10)%Z with 0%Z. rewrite IH.
  by rewrite zeros_snoc.
Qed.

Lemma length_low_digits (f : nat) (r : Z) : String.length (low_digits f r) = f.
Proof.
  revert r. induction f as [|f IH]; intros r; [done|].
  simpl low_digits. rewrite length_append, IH. simpl. lia.
Qed.

Lemma low_digits_all_digits (f : nat) (r : Z) : all_chars is_digit (low_digits f r) = true.
Proof.
  revert r. induction f as [|f IH]; intros r; [done|].
  simpl low_digits. rewrite all_chars_app, IH. simpl.
  unfold digit. by rewrite is_digit_pretty_N_char.
Qed.

(** The digits of [r], padded with zeros to more than [f] of them, are the
    digits of [r / 10^f] followed by the last [f] digits of [r]. *)
Lemma padded_digits_split (f : nat) (r : Z) :
  (0 ≤ r)%Z →
  zeros (S f - String.length (digits r)) +:+ digits r
  = digits (r `div` 10 ^ Z.of_nat f) +:+ low_digits f r.
Proof.
  revert r. induction f as [|f IH]; intros r Hr.
  - pose proof (length_digits_pos r).
    replace (1 - String.length (digits r)) with 0 by lia.
    change (10 ^ Z.of_nat 0)%Z with 1%Z. rewrite Z.div_1_r.
    by rewrite append_nil_l, append_nil_r.
  - replace (10 ^ Z.of_nat (S f))%Z with (10 * 10 ^ Z.of_nat f)%Z
      by (rewrite Nat2Z.inj_succ, Z.pow_succ_r by lia; done).
    rewrite <- Z.div_div by lia. simpl low_digits.
    destruct (decide (r < 10)%Z) as [Hlt|Hge].
    + rewrite digits_lt_10 by lia. simpl String.length.
      replace (S (S f) - 1) with (S f) by lia.
      rewrite (Z.div_small r 10) by lia. rewrite Z.mod_small by lia.
      rewrite Z.div_0_l by lia. rewrite low_digits_0.
      change (digits 0) with "0". rewrite <- append_assoc.
      change ("0" +:+ zeros f) with (zeros (S f)). done.
    + rewrite digits_ge_10 by lia. rewrite length_append. simpl String.length.
      replace (S (S f) - (String.length (digits (r `div` 10)) + 1))
        with (S f - String.length (digits (r `div` 10))) by lia.
      rewrite <- !append_assoc. rewrite IH by (apply Z.div_pos; lia). done.
Qed.

Lemma take_str_app (a b : string) : take_str (String.length a) (a +:+ b) = a.
Proof.
  induction a as [|x a IH]; [by destruct b|].
  rewrite append_cons. simpl. by rewrite IH.
Qed.

Lemma drop_str_app (a b : string) : drop_str (String.length a) (a +:+ b) = b.
Proof.
  induction a as [|x a IH]; [by destruct b|].
  rewrite append_cons. simpl. by rewrite IH.
Qed.

(** The digits toFixed computes are the value rounded to [f] decimals. *)
Lemma fixed_pos_rounded (f : nat) (nu de : Z) :
  (0 ≤ nu)%Z → (0 < de)%Z → 0 < f →
  fixed_pos f nu de = rounded f nu de.
Proof.
  intros Hnu Hde Hf. unfold fixed_pos, rounded.
  set (r := ((2 * nu * 10 ^ Z.of_nat f + de) `div` (2 * de))%Z).
  assert (0 ≤ r)%Z as Hr by (apply Z.div_pos; nia).
  destruct f as [|f]; [lia|]. simpl Nat.eqb. cbv iota.
  replace (S f + 1) with (S (S f)) by lia.
  rewrite (padded_digits_split (S f) r Hr).
  rewrite length_append, length_low_digits.
  replace (String.length (digits (r `div` 10 ^ Z.of_nat (S f))) + S f - S f)
    with (String.length (digits (r `div` 10 ^ Z.of_nat (S f)))) by lia.
  by rewrite take_str_app, drop_str_app.
Qed.

(** toFixed on a finite Number that is not negative: the value rounded to
    [f] decimals below [10^21], and the text of the Number from there
    on. *)
Lemma toFixed_rounded (f : nat) (x : number) (nu de : Z) :
  0 < f → value_of x = Some (nu, de) →
  toFixed f x = if (10 ^ 21 * de <=? nu)%Z then Number_toString x else rounded f nu de.
Proof.
  intros Hf Hx. destruct x as [s| | |[] m e]; simplify_eq/=.
  - rewrite fixed_pos_rounded by lia. done.
  - unfold num_of, den_of. destruct (_ <=? _)%Z; [done|].
    rewrite append_nil_l. apply fixed_pos_rounded; [|apply Z.pow_pos_nonneg|]; lia.
Qed.

(** ** The text of an integer *)

Section integers.
Local Open Scope Z_scope.


Lemma digits_mul_pow10 (s : Z) (t : nat) :
  0 < s → digits (s * 10 ^ Z.of_nat t) = digits s +:+ zeros t.
Proof.
  intros Hs. induction t as [|t IH].
  - rewrite Z.mul_1_r. by rewrite append_nil_r.
  - rewrite Nat2Z.inj_succ, Z.pow_succ_r by lia.
    assert (0 < 10 ^ Z.of_nat t) by (apply Z.pow_pos_nonneg; lia).
    rewrite digits_ge_10 by nia.
    replace (s * (10 * 10 ^ Z.of_nat t)) with (s * 10 ^ Z.of_nat t * 10) by lia.
    rewrite Z.div_mul by lia. rewrite Z.mod_mul by lia.
    rewrite IH, zeros_snoc. by rewrite append_assoc.
Qed.

Lemma trailing_zeros_split (z : Z) :
  0 < z → ∃ s t, z = s * 10 ^ Z.of_nat t ∧ 0 < s ∧ s `mod` 10 ≠ 0.
Proof.
  intros Hz. assert (0 ≤ z) as Hz0 by lia. revert Hz.
  pattern z. apply Z_lt_induction; [|done]. clear z Hz0.
  intros z IH Hz.
  destruct (decide (z `mod` 10 = 0)) as [Hm|Hm].
  - destruct (IH (z `div` 10)) as (s & t & E & Hs & Hs10).
    + split; [apply Z.div_pos; lia | apply Z.div_lt; lia].
    + apply Z.div_str_pos. pose proof (Z.div_mod z 10). lia.
    + exists s, (S t). split; [|done].
      rewrite Nat2Z.inj_succ, Z.pow_succ_r by lia.
      pose proof (Z.div_mod z 10 ltac:(lia)). lia.
  - exists z, 0%nat. split; [|done]. simpl. lia.
Qed.

Lemma length_digits_le (k : nat) (z : Z) :
  0 ≤ z < 10 ^ Z.of_nat (S k) → (String.length (digits z) ≤ S k)%nat.
Proof.
  revert z. induction k as [|k IH]; intros z Hz.
  - rewrite digits_lt_10 by (simpl in Hz; lia). simpl. lia.
  - destruct (decide (z < 10)) as [Hlt|Hge].
    + rewrite digits_lt_10 by lia. simpl. lia.
    + rewrite digits_ge_10 by lia. rewrite length_append. simpl.
      rewrite Nat2Z.inj_succ, Z.pow_succ_r in Hz by lia.
      assert (String.length (digits (z `div` 10)) ≤ S k)%nat; [|lia].
      apply IH. split; [apply Z.div_pos; lia|].
      apply Z.div_lt_upper_bound; lia.
Qed.

Lemma not_divisible (s : Z) (t p : nat) :
  s `mod` 10 ≠ 0 → (t < p)%nat → (s * 10 ^ Z.of_nat t) `mod` 10 ^ Z.of_nat p ≠ 0.
Proof.
  intros Hs Htp Hm.
  assert (0 < 10 ^ Z.of_nat t) by (apply Z.pow_pos_nonneg; lia).
  assert (0 < 10 ^ Z.of_nat p) by (apply Z.pow_pos_nonneg; lia).
  apply Z.mod_divide in Hm; [|lia]. destruct Hm as [q Hq].
  replace (Z.of_nat p) with (Z.of_nat (p - t - 1) + 1 + Z.of_nat t) in Hq by lia.
  rewrite !Z.pow_add_r in Hq by lia.
  assert (s = q * 10 ^ Z.of_nat (p - t - 1) * 10) as E by nia.
  apply Hs. rewrite E. apply Z.mod_mul. lia.
Qed.


Section integer_text.
(** The double [m * 2^e] is the integer [z]. *)
Context (m : positive) (e z : Z).
Hypothesis e_nonpos : e ≤ 0.
Hypothesis z_pos : 0 < z.
Hypothesis m_z : Zpos m = z * 2 ^ (- e).

Local Abbreviation D := (2 ^ (- e)).

Lemma D_pos : 0 < D.
Proof. apply Z.pow_pos_nonneg; lia. Qed.

Lemma num_of_int : num_of m e = z * D.
Proof.
  unfold num_of. rewrite Z.max_r by lia. rewrite m_z. simpl. lia.
Qed.

Lemma den_of_int : den_of e = D.
Proof. unfold den_of. by rewrite Z.max_l by lia. Qed.

Lemma cmp_dec_bin_int (s p b : Z) :
  0 ≤ p → cmp_dec_bin s p b e = (s * 10 ^ p * (4 * D) ?= b).
Proof.
  intros Hp. unfold cmp_dec_bin.
  rewrite (Z.max_l p 0), (Z.max_l (2 - e) 0), (Z.max_r (e - 2) 0), (Z.max_r (- p) 0)
    by lia.
  replace (2 - e) with (2 + - e) by lia. rewrite Z.pow_add_r by lia.
  change (2 ^ 2) with 4. change (2 ^ 0) with 1. change (10 ^ 0) with 1.
  by rewrite !Z.mul_1_r.
Qed.

(** Only [z] itself, among the integers, reads back as the double. *)
Lemma rounds_to_int (s p : Z) :
  0 ≤ p → rounds_to m e s p = bool_decide (s * 10 ^ p = z).
Proof.
  intros Hp. unfold rounds_to. rewrite !cmp_dec_bin_int by done.
  pose proof D_pos as HD. rewrite m_z.
  set (glo := if _ && _ then 1 else 2).
  assert (1 ≤ glo ≤ 2) as Hglo by (unfold glo; destruct (_ && _); lia).
  clearbody glo. set (c := s * 10 ^ p).
  destruct (Z.compare_spec (c * (4 * D)) (4 * (z * D) - glo)) as [E1|E1|E1],
    (Z.compare_spec (c * (4 * D)) (4 * (z * D) + 2)) as [E2|E2|E2];
    try (exfalso; nia);
    (case_bool_decide as Hc; [try done; exfalso; nia | try done; exfalso]).
  all: assert (c < z ∨ z < c) as [?|?] by lia; nia.
Qed.

(** The candidates with [k] digits, when [z] has [n] digits or more. *)
Lemma candidate_int (n k : Z) :
  k ≤ n →
  candidate m e n k
  = if bool_decide (z `mod` 10 ^ (n - k) = 0) then Some (z `div` 10 ^ (n - k), n - k)
    else None.
Proof.
  intros Hk. unfold candidate.
  assert (0 < 10 ^ (n - k)) as Hpow by (apply Z.pow_pos_nonneg; lia).
  pose proof D_pos as HD.
  rewrite num_of_int, den_of_int, (Z.max_r (- (n - k)) 0), (Z.max_l (n - k) 0) by lia.
  change (10 ^ 0) with 1. rewrite Z.mul_1_r.
  rewrite (Z.mul_comm z D), Z.div_mul_cancel_l by lia.
  rewrite !rounds_to_int by lia.
  pose proof (Z.div_mod z (10 ^ (n - k)) ltac:(lia)) as Hdm.
  pose proof (Z.mod_pos_bound z (10 ^ (n - k)) Hpow) as Hmb.
  set (lo := z `div` 10 ^ (n - k)) in *.
  rewrite (bool_decide_eq_false_2 ((lo + 1) * 10 ^ (n - k) = z)) by nia.
  case_bool_decide as Hm.
  - rewrite bool_decide_eq_true_2 by nia.
    assert (0 < lo) by nia.
    by rewrite (proj2 (Z.ltb_lt 0 lo)) by done.
  - rewrite bool_decide_eq_false_2 by nia. by rewrite andb_false_r.
Qed.

Lemma strip_zeros_int (fuel : nat) (s p : Z) :
  s `mod` 10 ≠ 0 → strip_zeros (S fuel) s p = (s, p).
Proof.
  intros Hs. simpl. by rewrite (proj2 (Z.eqb_neq _ _) Hs).
Qed.

Context (s0 : Z) (t : nat).
Hypothesis z_split : z = s0 * 10 ^ Z.of_nat t.
Hypothesis s0_pos : 0 < s0.
Hypothesis s0_mod : s0 `mod` 10 ≠ 0.

Lemma slen_digits_int : slen (digits z) = slen (digits s0) + Z.of_nat t.
Proof.
  unfold slen. rewrite z_split, digits_mul_pow10 by done.
  rewrite length_append, length_zeros. lia.
Qed.

(** The search stops at the digits of [z] without its trailing zeros. *)
Lemma shortest_int (fuel : nat) (k : Z) :
  1 ≤ k ≤ slen (digits s0) →
  (Z.to_nat (slen (digits s0) - k) < fuel)%nat →
  shortest fuel m e (slen (digits z)) k = (s0, Z.of_nat t).
Proof.
  revert k. induction fuel as [|fuel IH]; intros k Hk Hfuel; [lia|].
  assert (0 < 10 ^ Z.of_nat t) as Hpow by (apply Z.pow_pos_nonneg; lia).
  simpl. rewrite candidate_int by (rewrite slen_digits_int; lia).
  rewrite slen_digits_int.
  destruct (decide (k = slen (digits s0))) as [->|Hne].
  - replace (slen (digits s0) + Z.of_nat t - slen (digits s0)) with (Z.of_nat t) by lia.
    rewrite z_split, Z.mod_mul, Z.div_mul by lia.
    by rewrite bool_decide_eq_true_2.
  - rewrite bool_decide_eq_false_2.
    + rewrite <- slen_digits_int. apply IH; lia.
    + replace (slen (digits s0) + Z.of_nat t - k)
        with (Z.of_nat (Z.to_nat (slen (digits s0) - k) + t)) by lia.
      rewrite z_split. apply not_divisible; [done | lia].
Qed.

Lemma format_decimal_int :
  slen (digits z) ≤ 21 →
  format_decimal s0 (Z.of_nat t + slen (digits s0)) = digits z.
Proof.
  intros Hlen. rewrite slen_digits_int in Hlen. unfold format_decimal.
  pose proof (length_digits_pos s0). unfold slen in *.
  rewrite (proj2 (Z.leb_le (-5) _)), (proj2 (Z.leb_le _ 21)) by lia. simpl.
  rewrite (proj2 (Z.leb_le _ _)) by lia.
  replace (Z.to_nat _) with t by lia.
  by rewrite z_split, digits_mul_pow10.
Qed.

(** The text of a double that is an integer of at most 17 digits is the
    digits of the integer. *)
Lemma toString_pos_split : z < 10 ^ 17 → toString_pos m e = digits z.
Proof.
  intros Hz. pose proof D_pos as HD.
  assert (slen (digits z) ≤ 17) as Hlen.
  { unfold slen. pose proof (length_digits_le 16 z). lia. }
  unfold toString_pos, dec_exponent. rewrite num_of_int, den_of_int.
  rewrite (proj2 (Z.leb_le D (z * D))) by nia. rewrite Z.div_mul by lia.
  rewrite shortest_int.
  - rewrite (strip_zeros_int 19) by done. apply format_decimal_int. lia.
  - pose proof (length_digits_pos s0). unfold slen. lia.
  - rewrite slen_digits_int in Hlen.
    pose proof (length_digits_pos s0). unfold slen in *. lia.
Qed.
End integer_text.

Lemma toString_pos_int (m : positive) (e z : Z) :
  e ≤ 0 → 0 < z < 10 ^ 17 → Zpos m = z * 2 ^ (- e) → toString_pos m e = digits z.
Proof.
  intros He [Hz0 Hz] Hm.
  destruct (trailing_zeros_split z Hz0) as (s0 & t & Hsplit & Hs0 & Hmod).
  by apply (toString_pos_split m e z He Hz0 Hm s0 t).
Qed.



Lemma digits2_pos_lower (p : positive) : 2 ^ (Zpos (digits2_pos p) - 1) ≤ Zpos p.
Proof.
  induction p as [p IH|p IH|]; simpl digits2_pos; [| |done].
  - rewrite Pos2Z.inj_succ. replace (Z.succ (Zpos (digits2_pos p)) - 1)
      with (Z.succ (Zpos (digits2_pos p) - 1)) by lia.
    rewrite Z.pow_succ_r by lia. lia.
  - rewrite Pos2Z.inj_succ. replace (Z.succ (Zpos (digits2_pos p)) - 1)
      with (Z.succ (Zpos (digits2_pos p) - 1)) by lia.
    rewrite Z.pow_succ_r by lia. lia.
Qed.

Lemma digits2_pos_upper (p : positive) : Zpos p < 2 ^ Zpos (digits2_pos p).
Proof.
  induction p as [p IH|p IH|]; simpl digits2_pos; [| |done].
  - rewrite Pos2Z.inj_succ, Z.pow_succ_r by lia. lia.
  - rewrite Pos2Z.inj_succ, Z.pow_succ_r by lia. lia.
Qed.

Lemma iter_xO_value (k p : positive) : Zpos (Pos.iter xO p k) = Zpos p * 2 ^ Zpos k.
Proof.
  induction k as [|k IH] using Pos.peano_ind.
  - simpl. lia.
  - rewrite Pos.iter_succ, Pos2Z.inj_xO, IH, Pos2Z.inj_succ, Z.pow_succ_r by lia. lia.
Qed.

Lemma iter_xO_digits2 (k p : positive) :
  digits2_pos (Pos.iter xO p k) = (digits2_pos p + k)%positive.
Proof.
  induction k as [|k IH] using Pos.peano_ind.
  - simpl. lia.
  - rewrite Pos.iter_succ. simpl. rewrite IH. lia.
Qed.

(** A 53-bit mantissa with an exponent in range is left as it is. *)
Lemma binary_round_aux_exact (m : positive) (e : Z) :
  Zpos (digits2_pos m) = 53 → -1074 ≤ e ≤ 971 →
  binary_round_aux prec emax false (Zpos m) e loc_Exact = S754_finite false m e.
Proof.
  intros Hd He. unfold binary_round_aux, shr_fexp, Zdigits2, fexp, SpecFloat.emin.
  rewrite Hd. unfold prec, emax.
  replace (Z.max (53 + e - 53) (3 - 1024 - 53) - e) with 0 by lia.
  simpl. rewrite Hd.
  replace (Z.max (53 + e - 53) (3 - 1024 - 53) - e) with 0 by lia.
  simpl. by rewrite (proj2 (Z.leb_le e (1024 - 53))) by lia.
Qed.

(** The double of a positive integer below [2^53] is the integer. *)
Lemma Number_of_Z_int (z : Z) :
  0 < z < 2 ^ 53 →
  ∃ m e, Number_of_Z z = S754_finite false m e ∧ e ≤ 0 ∧ Zpos m = z * 2 ^ (- e)
         ∧ Zpos m < 2 ^ 53.
Proof.
  intros [Hz0 Hz]. destruct z as [|p|p]; [lia| |lia].
  unfold Number_of_Z, binary_normalize, binary_round, shl_align, fexp, SpecFloat.emin.
  unfold prec, emax.
  pose proof (digits2_pos_lower p) as Hlow.
  assert (Zpos (digits2_pos p) ≤ 53) as Hd.
  { destruct (decide (Zpos (digits2_pos p) ≤ 53)) as [|Hgt]; [done|]. exfalso.
    assert (2 ^ 53 ≤ 2 ^ (Zpos (digits2_pos p) - 1)) by (apply Z.pow_le_mono_r; lia).
    lia. }
  rewrite Z.add_0_r, Z.sub_0_r, Z.max_l by lia.
  destruct (Zpos (digits2_pos p) - 53) as [|k|k] eqn:Hk; [|lia|].
  - exists p, 0. split; [|split; [lia | split; [simpl; lia | lia]]].
    apply binary_round_aux_exact; lia.
  - assert (Zpos (digits2_pos (Pos.iter xO p k)) = 53) as Hd53
      by (rewrite iter_xO_digits2, Pos2Z.inj_add; lia).
    exists (Pos.iter xO p k), (Zneg k). split; [|split; [lia|split]].
    + apply binary_round_aux_exact; [done | lia].
    + rewrite iter_xO_value. done.
    + pose proof (digits2_pos_upper (Pos.iter xO p k)) as Hup.
      by rewrite Hd53 in Hup.
Qed.

(** Number::toString of a non-negative integer below [2^53]: its digits. *)
Lemma Number_toString_int (z : Z) :
  0 ≤ z < 2 ^ 53 → Number_toString (Number_of_Z z) = digits z.
Proof.
  intros [Hz0 Hz]. destruct (decide (z = 0)) as [->|Hne]; [done|].
  destruct (Number_of_Z_int z ltac:(lia)) as (m & e & -> & He & Hm & _).
  simpl. apply toString_pos_int; [done| |done]. lia.
Qed.

End integers.

(** ** The characters of the text of a Number *)

Lemma all_chars_take_str (P : ascii → bool) (n : nat) (s : string) :
  all_chars P s = true → all_chars P (take_str n s) = true.
Proof.
  revert n. induction s as [|x s IH]; intros [|n]; simpl; try done.
  rewrite !andb_true_iff. intros [??]. auto.
Qed.

Lemma all_chars_drop_str (P : ascii → bool) (n : nat) (s : string) :
  all_chars P s = true → all_chars P (drop_str n s) = true.
Proof.
  revert n. induction s as [|x s IH]; intros [|n]; simpl; try done.
  rewrite !andb_true_iff. intros [??]. auto.
Qed.

Lemma is_digit_number_char (c : ascii) : is_digit c = true → number_char c = true.
Proof. unfold number_char. by intros ->. Qed.

Lemma number_char_cell_char (c : ascii) : number_char c = true → cell_char c = true.
Proof. destruct c as [[] [] [] [] [] [] [] []]; done. Qed.

Lemma digits_number_chars (z : Z) : all_chars number_char (digits z) = true.
Proof. apply (all_chars_impl is_digit), digits_all_digits. apply is_digit_number_char. Qed.

Lemma zeros_number_chars (n : nat) : all_chars number_char (zeros n) = true.
Proof. apply (all_chars_impl is_digit), zeros_all_digits. apply is_digit_number_char. Qed.

Lemma format_decimal_number_chars (s n : Z) :
  all_chars number_char (format_decimal s n) = true.
Proof.
  unfold format_decimal.
  repeat case_match;
    rewrite ?all_chars_app, ?andb_true_iff;
    repeat split;
    first [ apply digits_number_chars | apply zeros_number_chars | done
          | apply all_chars_take_str, digits_number_chars
          | apply all_chars_drop_str, digits_number_chars ].
Qed.

(** The text of a Number is made of digits, signs, the point, the mark of
    the exponent and the letters of [Infinity] and [NaN]. *)
Lemma Number_toString_number_chars (x : number) :
  all_chars number_char (Number_toString x) = true.
Proof.
  assert (∀ m e, all_chars number_char (toString_pos m e) = true) as Hpos.
  { intros m e. unfold toString_pos.
    destruct (shortest 17 m e (dec_exponent m e) 1) as [s p].
    destruct (strip_zeros 20 s p) as [s' p']. apply format_decimal_number_chars. }
  destruct x as [?|[]| |[] m e]; simpl; rewrite ?all_chars_app, ?Hpos; done.
Qed.

(** A text that ends in a letter of an abbreviation is not the text of a
    Number. *)
Lemma not_Number_toString_suffix (a : string) (c : ascii) (x : number) :
  number_char c = false → a +:+ String c "" ≠ Number_toString x.
Proof.
  intros Hc E. pose proof (Number_toString_number_chars x) as Hd.
  rewrite <- E, all_chars_app in Hd. simpl in Hd.
  rewrite Hc in Hd. by destruct (all_chars number_char a).
Qed.

(** The text of a Number holds no comma and no line feed. *)
Lemma Number_toString_cell (x : number) : all_chars cell_char (Number_toString x) = true.
Proof.
  apply (all_chars_impl number_char), Number_toString_number_chars.
  apply number_char_cell_char.
Qed.

Lemma stat_cell_cell (stat : option number) : all_chars cell_char (stat_cell stat) = true.
Proof.
  unfold stat_cell, or_else. destruct stat as [x|]; simpl; [|done].
  destruct (Number_truthy x); [apply Number_toString_cell | done].
Qed.

Lemma value_text_cell (vs : list number) (i : nat) :
  all_chars cell_char (value_text vs i) = true.
Proof.
  unfold value_text. destruct (vs !! i); simpl; [apply Number_toString_cell | done].
Qed.

Lemma cell_char_no_LF (s : string) : all_chars cell_char s = true → all_chars no_LF s = true.
Proof.
  apply all_chars_impl. intros c. unfold cell_char, no_LF. rewrite andb_true_iff. tauto.
Qed.

(** ** Rows read back from a text *)

Lemma lines_row (r rest : string) :
  all_chars no_LF r = true → lines (r +:+ LF +:+ rest) = r :: lines rest.
Proof.
  induction r as [|x r IH].
  - intros _. rewrite append_nil_l. done.
  - intros Hr. rewrite append_cons.
    simpl in Hr. apply andb_true_iff in Hr as [Hx Hr]. apply negb_true_iff in Hx.
    simpl. rewrite Hx. by rewrite (IH Hr).
Qed.

(** Rows without line feeds are read back from the text they were written
    to. *)
Lemma lines_unlines (rows : list string) :
  Forall (λ r, all_chars no_LF r = true) rows → lines (unlines rows) = rows.
Proof.
  induction 1 as [|r rows Hr _ IH]; [done|].
  simpl. rewrite lines_row by done. by rewrite IH.
Qed.

Lemma after_comma_append (a b : string) :
  all_chars (λ x, negb (Ascii.eqb x ",")) a = true →
  after_comma (a +:+ String "," b) = b.
Proof.
  induction a as [|x a IH].
  - intros _. by rewrite append_nil_l.
  - intros Ha. rewrite append_cons.
    simpl in Ha. apply andb_true_iff in Ha as [Hx Ha]. apply negb_true_iff in Hx.
    simpl. rewrite Hx. by apply IH.
Qed.

Lemma cell_char_no_comma (s : string) :
  all_chars cell_char s = true → all_chars (λ x, negb (Ascii.eqb x ",")) s = true.
Proof.
  apply all_chars_impl. intros c. unfold cell_char. rewrite andb_true_iff. tauto.
Qed.

Lemma summary_rows_no_LF (data : AnalysisData) :
  Forall (λ r, all_chars no_LF r = true) (summary_rows data).
Proof.
  unfold summary_rows.
  repeat apply Forall_cons_2; try apply Forall_nil_2;
    rewrite ?all_chars_app, ?andb_true_iff; repeat split;
    first [ apply cell_char_no_LF, stat_cell_cell | done ].
Qed.

Lemma lines_unlines_app (rows : list string) (rest : string) :
  Forall (λ r, all_chars no_LF r = true) rows →
  lines (unlines rows +:+ rest) = rows ++ lines rest.
Proof.
  induction 1 as [|r rows Hr _ IH]; [by rewrite append_nil_l|].
  simpl. rewrite !append_assoc. rewrite lines_row by done. by rewrite IH.
Qed.

Lemma dashboard_summary_rows_no_LF (data : AnalysisData) :
  Forall (λ r, all_chars no_LF r = true) (dashboard_summary_rows data).
Proof.
  unfold dashboard_summary_rows.
  repeat apply Forall_cons_2; try apply Forall_nil_2;
    rewrite ?all_chars_app, ?andb_true_iff; repeat split;
    first [ apply cell_char_no_LF, stat_cell_cell | done ].
Qed.

Lemma csv_text_summary (data : AnalysisData) (csv : string) :
  Main.csv_text data = Some csv → ∃ rest, csv = unlines (summary_rows data) +:+ rest.
Proof.
  rewrite csv_text_rows.
  repeat case_match; intros; simplify_eq; rewrite ?unlines_app; eauto.
  exists "". by rewrite append_nil_r.
Qed.

Lemma dashboard_csv_text_summary (data : AnalysisData) (csv : string) :
  Dashboard.csv_text data = Some csv →
  ∃ rest, csv = unlines (dashboard_summary_rows data) +:+ rest.
Proof.
  rewrite dashboard_csv_text_rows.
  repeat case_match; intros; simplify_eq; rewrite ?unlines_app; eauto;
    exists ""; by rewrite append_nil_r.
Qed.

(** The first five rows of the text exportToCSV builds are the summary
    rows, whatever the series is. *)
Lemma csv_text_summary_lines (data : AnalysisData) (csv : string) :
  Main.csv_text data = Some csv → take 5 (lines csv) = summary_rows data.
Proof.
  intros (rest & ->)%csv_text_summary.
  rewrite lines_unlines_app by apply summary_rows_no_LF.
  by rewrite take_app_length' by done.
Qed.

Lemma dashboard_csv_text_summary_lines (data : AnalysisData) (csv : string) :
  Dashboard.csv_text data = Some csv → take 5 (lines csv) = dashboard_summary_rows data.
Proof.
  intros (rest & ->)%dashboard_csv_text_summary.
  rewrite lines_unlines_app by apply dashboard_summary_rows_no_LF.
  by rewrite take_app_length' by done.
Qed.

Lemma lookup_summary_line (rows : list string) (csv : string) (i : nat) (row : string) :
  take 5 (lines csv) = rows → i < 5 → rows !! i = Some row → lines csv !! i = Some row.
Proof. intros <- Hi. by rewrite lookup_take_lt by done. Qed.

Lemma imap_rows_no_LF (cell : nat → string) (ls : list string) :
  Forall (λ l, all_chars no_LF l = true) ls →
  (∀ i, all_chars no_LF (cell i) = true) →
  Forall (λ r, all_chars no_LF r = true) (imap (λ i l, l +:+ "," +:+ cell i) ls).
Proof.
  intros Hls Hcell. apply Forall_lookup_2. intros i r. rewrite list_lookup_imap.
  destruct (ls !! i) as [l|] eqn:Hl; [|done]. intros [= <-].
  rewrite !all_chars_app, !andb_true_iff. split; [|split; [done|apply Hcell]].
  by apply (Forall_lookup_1 _ _ _ _ Hls Hl).
Qed.

(** The rows of the text exportToCSV builds for a series whose labels hold
    no line feed. *)
Lemma csv_text_lines (data : AnalysisData) (csv : string) (ed : Series)
    (ls : list string) (vs : list number) :
  Main.csv_text data = Some csv →
  engagement_data data = Some ed → labels ed = Some ls → values ed = Some vs →
  Forall (λ l, all_chars no_LF l = true) ls →
  lines csv = summary_rows data ++ [""; "日付,エンゲージメント率"] ++ series_rows ls vs.
Proof.
  intros Hcsv Hed Hls Hvs Hno. rewrite csv_text_rows, Hed, Hls, Hvs in Hcsv.
  assert (csv = unlines (summary_rows data ++ [""; "日付,エンゲージメント率"]
                          ++ series_rows ls vs)) as -> by congruence.
  apply lines_unlines.
  apply Forall_app. split; [apply summary_rows_no_LF|].
  apply Forall_app. split; [repeat apply Forall_cons_2; try apply Forall_nil_2; done|].
  apply imap_rows_no_LF; [done|]. intros i. apply cell_char_no_LF, value_text_cell.
Qed.

Lemma dashboard_csv_text_lines (data : AnalysisData) (csv : string) (ed : Series)
    (ls : list string) (vs : list number) :
  Dashboard.csv_text data = Some csv →
  engagement_data data = Some ed → labels ed = Some ls → values ed = Some vs →
  Forall (λ l, all_chars no_LF l = true) ls →
  lines csv = dashboard_summary_rows data ++ [""; "日付,エンゲージメント"]
              ++ dashboard_series_rows ls vs.
Proof.
  intros Hcsv Hed Hls Hvs Hno. rewrite dashboard_csv_text_rows, Hed, Hls, Hvs in Hcsv.
  assert (csv = unlines (dashboard_summary_rows data ++ [""; "日付,エンゲージメント"]
                          ++ dashboard_series_rows ls vs)) as -> by congruence.
  apply lines_unlines.
  apply Forall_app. split; [apply dashboard_summary_rows_no_LF|].
  apply Forall_app. split; [repeat apply Forall_cons_2; try apply Forall_nil_2; done|].
  apply imap_rows_no_LF; [done|]. intros i. apply cell_char_no_LF, stat_cell_cell.
Qed.

(** ** Numbers in the export and on the page *)

Lemma stat_cell_unset : stat_cell None = "0".
Proof. reflexivity. Qed.

Lemma stat_cell_truthy (x : number) :
  Number_truthy x = true → stat_cell (Some x) = Number_toString x.
Proof. intros Hx. unfold stat_cell, or_else. simpl. by rewrite Hx. Qed.

(** A count in the export is its plain digits. *)
Lemma stat_cell_int (z : Z) :
  (0 ≤ z < 2 ^ 53)%Z → stat_cell (Some (Number_of_Z z)) = digits z.
Proof.
  intros Hz. destruct (decide (z = 0%Z)) as [->|Hne]; [done|].
  rewrite stat_cell_truthy; [by apply Number_toString_int|].
  destruct (Number_of_Z_int z ltac:(lia)) as (m & e & -> & _). done.
Qed.

Lemma two_decimals_rounded (nu de : Z) :
  two_decimals_percent (rounded 2 nu de +:+ "%") = true.
Proof.
  unfold rounded.
  set (r := ((2 * nu * 10 ^ Z.of_nat 2 + de) `div` (2 * de))%Z).
  set (ip := digits (r `div` 10 ^ Z.of_nat 2)).
  simpl low_digits.
  set (a := digit ((r `div` 10) `mod` 10)). set (b := digit (r `mod` 10)).
  replace ((ip +:+ "." +:+ ("" +:+ String a "") +:+ String b "") +:+ "%")
    with (ip +:+ String "." (String a (String b "%")))
    by (by rewrite !append_assoc).
  unfold two_decimals_percent. rewrite length_append. simpl String.length.
  replace (String.length ip + 4 - 4) with (String.length ip) by lia.
  rewrite take_str_app, drop_str_app.
  pose proof (length_digits_pos (r `div` 10 ^ Z.of_nat 2)) as Hlen. fold ip in Hlen.
  rewrite (proj2 (Nat.leb_le 5 _)) by lia.
  unfold ip. rewrite digits_all_digits. unfold a, b, digit.
  by rewrite !is_digit_pretty_N_char.
Qed.

(** The texts displayResults writes, on a page that has the elements of
    the results. *)
Lemma lookup_displayed (data : AnalysisData) (p : Page Main.Globals) :
  (∀ id, id ∈ results_elements → id ∈ elements (win p)) →
  let t := textContent (win (page_of (Main.displayResults data p))) in
  t !! "totalPosts" = Some (shown Number_toString (total_posts (stats data)))
  ∧ t !! "avgEngagement"
    = Some (shown (λ x, toFixed 2 x +:+ "%") (avg_engagement (stats data)))
  ∧ t !! "totalImpressions"
    = Some (shown Main.formatNumber (total_impressions (stats data)))
  ∧ t !! "followerCount" = Some (shown Main.formatNumber (follower_count (stats data))).
Proof.
  intros Hel. rewrite (displayResults_effect data p Hel). simpl.
  repeat split; by simplify_map_eq.
Qed.

(** C2, as the code has it.  The rows exportToCSV writes start with the
    summary rows, in which every statistic is the text of its number: the
    plain digits of an integer count below 2^53, 0 for a statistic that is
    unset, and for the average engagement rate the text of the number, as
    many decimals as it has, followed by [%].  The two decimals are those of
    the page: on a page that has the elements of the results, displayResults
    writes to [avgEngagement] a dash when the average is unset, zero or not
    a number; the average rounded to exactly two decimals, followed by [%],
    when it is finite, not negative and below 10^21; the same after a minus
    sign when it is negative and above -10^21; and the text of the number,
    followed by [%], from 10^21 on and when it is infinite. *)
Theorem export_number_formats (data : AnalysisData) (csv : string) :
  Main.csv_text data = Some csv →
  (∃ rest, csv = unlines (summary_rows data) +:+ rest)
  ∧ (∀ z, (0 ≤ z < 2 ^ 53)%Z →
       stat_cell (Some (Number_of_Z z)) = digits z
       ∧ all_chars is_digit (digits z) = true)
  ∧ stat_cell None = "0"
  ∧ (∀ x, Number_truthy x = true → stat_cell (Some x) = Number_toString x)
  ∧ (∀ (result : AnalysisData) (p : Page Main.Globals),
       (∀ id, id ∈ results_elements → id ∈ elements (win p)) →
       let text := textContent (win (page_of (Main.displayResults result p)))
                     !! "avgEngagement" in
       match avg_engagement (stats result) with
       | None => text = Some "-"
       | Some x =>
           (Number_truthy x = false → text = Some "-")
           ∧ (∀ nu de, Number_truthy x = true → value_of x = Some (nu, de) →
                text = Some ((if (10 ^ 21 * de <=? nu)%Z then Number_toString x
                              else rounded 2 nu de) +:+ "%")
                ∧ ((nu < 10 ^ 21 * de)%Z →
                   ∃ t, text = Some t ∧ two_decimals_percent t = true))
           ∧ (∀ nu de, Number_truthy x = true → value_of (SFopp x) = Some (nu, de) →
                text = Some ((if (10 ^ 21 * de <=? nu)%Z then Number_toString x
                              else "-" +:+ rounded 2 nu de) +:+ "%"))
           ∧ (∀ sg, x = S754_infinity sg → text = Some (Number_toString x +:+ "%"))
       end).
Proof.
  intros Hcsv. split; [|split; [|split; [|split]]].
  - by apply csv_text_summary.
  - intros z Hz. split; [by apply stat_cell_int | apply digits_all_digits].
  - done.
  - apply stat_cell_truthy.
  - intros result p Hel. cbv zeta.
    destruct (lookup_displayed result p Hel) as (_ & -> & _).
    destruct (avg_engagement (stats result)) as [x|]; [|done].
    unfold shown. split; [by intros ->|]. split; [|split].
    + intros nu de Hx Hv. rewrite Hx.
      rewrite (toFixed_rounded 2 x nu de) by (done || lia).
      split; [done|]. intros Hlt. eexists. split; [done|].
      rewrite (proj2 (Z.leb_gt _ _)) by lia. apply two_decimals_rounded.
    + intros nu de Hx Hv. rewrite Hx.
      destruct x as [s| | |[] m e]; simplify_eq/=.
      destruct (_ <=? _)%Z; [done|].
      rewrite fixed_pos_rounded; [done| |apply Z.pow_pos_nonneg|]; unfold num_of; lia.
    + by intros sg ->.
Qed.

Lemma export_number_formats_witness :
  (∃ rest, default "" (Main.csv_text sample_data)
           = unlines (summary_rows sample_data) +:+ rest)
  ∧ stat_cell (Some (Number_of_Z 1500000)) = "1500000"
  ∧ stat_cell (Some (dec 55 (-1))) +:+ "%" = "5.5%"
  ∧ textContent (win (page_of (Main.displayResults sample_data fresh_page)))
      !! "avgEngagement" = Some "5.50%"
  ∧ textContent (win (page_of (Main.displayResults (with_average (dec 1 21) sample_data)
                                 fresh_page)))
      !! "avgEngagement" = Some "1e+21%".
Proof.
  pose proof (export_number_formats sample_data
                (default "" (Main.csv_text sample_data)) eq_refl)
    as (H1 & H2 & _ & H4 & H5).
  split; [exact H1|]. split; [exact (proj1 (H2 1500000%Z ltac:(lia)))|].
  split; [by rewrite (H4 (dec 55 (-1)) eq_refl)|].
  split.
  - exact (proj1 (proj1 (proj2 (H5 sample_data fresh_page sample_window_elements))
                    6192449487634432%Z 1125899906842624%Z eq_refl eq_refl)).
  - exact (proj1 (proj1 (proj2 (H5 (with_average (dec 1 21) sample_data) fresh_page
                                   sample_window_elements))
                    1000000000000000000000%Z 1%Z eq_refl eq_refl)).
Defined.

(** C2 as stated fails on the sample result: its average engagement rate,
    5.5, is exported as [5.5%], with one decimal (and shown as [5.50%]). *)
Lemma export_percent_counterexample :
  lines (default "" (Main.csv_text sample_data)) !! 2%nat
  = Some "平均エンゲージメント率,5.5%"
  ∧ two_decimals_percent "5.5%" = false
  ∧ ¬ percent_cell_two_decimals sample_data.
Proof.
  assert (lines (default "" (Main.csv_text sample_data)) !! 2%nat
          = Some "平均エンゲージメント率,5.5%") as E by (vm_compute; reflexivity).
  split; [exact E|]. split; [vm_compute; reflexivity|].
  intros H. specialize (H _ E). vm_compute in H. discriminate H.
Qed.

(** ** formatNumber *)

Section abbreviation.
Local Open Scope Z_scope.

(** An integer count from 1000 on is abbreviated. *)
Lemma geb_int_1000 (z : Z) :
  1000 ≤ z < 2 ^ 53 → geb (Number_of_Z z) (Number_of_Z 1000) = true.
Proof.
  intros Hz. destruct (Number_of_Z_int z ltac:(lia)) as (m & e & -> & He & Hm & Hlt).
  replace (Number_of_Z 1000) with (S754_finite false 8796093022208000 (-43))
    by (vm_compute; reflexivity).
  unfold geb, SFleb, SFcompare.
  destruct (Z.compare_spec (-43) e) as [<-|Hlt'|Hgt]; [|done|].
  - replace (2 ^ (- (-43))) with 8796093022208 in Hm by (vm_compute; reflexivity).
    rewrite Pos.compare_cont_spec. unfold Pos.switch_Eq.
    destruct (Pos.compare_spec 8796093022208000 m) as [?|?|Hc]; [done..|].
    destruct Hz as [Hz _]. clear Hlt He.
    assert (Zpos m < 8796093022208000) as Hc' by exact Hc. clear Hc. lia.
  - exfalso. assert (2 ^ 44 ≤ 2 ^ (- e)) by (apply Z.pow_le_mono_r; lia). nia.
Qed.

Lemma not_digits_suffix (a : string) (c : ascii) (z : Z) :
  is_digit c = false → a +:+ String c "" ≠ digits z.
Proof.
  intros Hc E. pose proof (digits_all_digits z) as Hd.
  rewrite <- E, all_chars_app in Hd. simpl in Hd.
  rewrite Hc in Hd. by destruct (all_chars is_digit a).
Qed.
End abbreviation.

Lemma format_decimal_nonempty (s n : Z) : 1 ≤ String.length (format_decimal s n).
Proof.
  unfold format_decimal. pose proof (length_digits_pos s).
  repeat case_match; rewrite ?length_append; simpl; lia.
Qed.

(** The text of a Number is never empty. *)
Lemma Number_toString_nonempty (x : number) : Number_toString x ≠ "".
Proof.
  assert (∀ m e, toString_pos m e ≠ "") as Hpos.
  { intros m e E. unfold toString_pos in E.
    destruct (shortest 17 m e (dec_exponent m e) 1) as [s p].
    destruct (strip_zeros 20 s p) as [s' p'].
    pose proof (format_decimal_nonempty s' (p' + slen (digits s'))) as Hlen.
    rewrite E in Hlen. simpl in Hlen. lia. }
  destruct x as [?|[]| |[] m e]; simpl; done.
Qed.

(** The two scripts abbreviate alike. *)
Lemma dashboard_formatNumber_main (n : number) :
  Dashboard.formatNumber (Some n) = Main.formatNumber n.
Proof.
  unfold Dashboard.formatNumber, Main.formatNumber.
  repeat case_match; try done.
  unfold or_else. simpl.
  destruct (String.eqb_spec (Number_toString n) "") as [E|_]; [|done].
  by apply Number_toString_nonempty in E.
Qed.

(** A Number that is at least a positive finite one is positive: finite or
    infinite. *)
Lemma geb_positive (x : number) (m : positive) (e : Z) :
  geb x (S754_finite false m e) = true →
  (∃ mx ex, x = S754_finite false mx ex) ∨ x = S754_infinity false.
Proof.
  destruct x as [s|[]| |[] mx ex]; try done; eauto.
Qed.

(** The quotient of two positive Numbers is not a negative one. *)
Lemma div_positive (x : number) (m : positive) (e : Z) :
  geb x (S754_finite false m e) = true →
  match div x (S754_finite false m e) with
  | S754_finite sg _ _ | S754_infinity sg | S754_zero sg => sg = false
  | S754_nan => True
  end.
Proof.
  intros [(mx & ex & ->)| ->]%geb_positive; [|done].
  unfold div, SFdiv.
  destruct (SFdiv_core_binary prec emax (Z.pos mx) ex (Z.pos m) e) as [[mz ez] lz].
  unfold binary_round_aux.
  destruct (shr_fexp prec emax mz ez lz) as [mrs' e'].
  destruct (shr_fexp prec emax _ e' loc_Exact) as [mrs'' e''].
  destruct (shr_m mrs''); [done| |done].
  by destruct (_ <=? _)%Z.
Qed.

(** toFixed of a quotient that has no finite value is the text of the
    quotient. *)
Lemma toFixed_div_text (f : nat) (x : number) (m : positive) (e : Z) :
  geb x (S754_finite false m e) = true →
  value_of (div x (S754_finite false m e)) = None →
  toFixed f (div x (S754_finite false m e)) = Number_toString (div x (S754_finite false m e)).
Proof.
  intros Hx Hv. pose proof (div_positive x m e Hx) as Hs.
  destruct (div x (S754_finite false m e)) as [s|s| |s mq eq]; try done.
  by rewrite Hs in Hv.
Qed.

Lemma Number_of_Z_1000 : ∃ m e, Number_of_Z 1000 = S754_finite false m e.
Proof. destruct (Number_of_Z_int 1000 ltac:(lia)) as (m & e & E & _). eauto. Qed.

Lemma Number_of_Z_1000000 : ∃ m e, Number_of_Z 1000000 = S754_finite false m e.
Proof. destruct (Number_of_Z_int 1000000 ltac:(lia)) as (m & e & E & _). eauto. Qed.

(** A Number from 1000 on is truthy. *)
Lemma geb_1000_truthy (n : number) :
  geb n (Number_of_Z 1000) = true → Number_truthy n = true.
Proof.
  destruct Number_of_Z_1000 as (m & e & ->).
  intros [(mx & ex & ->)| ->]%geb_positive; done.
Qed.

(** What formatNumber returns for a Number from 1000 on is not the text of
    a Number. *)
Lemma formatNumber_not_text (n x : number) :
  geb n (Number_of_Z 1000) = true → Main.formatNumber n ≠ Number_toString x.
Proof.
  intros Hn. unfold Main.formatNumber. rewrite Hn.
  destruct (geb n (Number_of_Z 1000000)); by apply not_Number_toString_suffix.
Qed.

(** C9, as the code has it.  For a Number [n], with [q] the quotient the
    script computes: from 1000000 on formatNumber is [q = n / 1000000]
    rounded to one decimal digit followed by [M], from 1000 on
    [q = n / 1000] rounded to one decimal digit followed by [K], as long as
    [q] is below [10^21]; from there on, and when [q] is not finite, it is
    the text of [q] with the suffix ([InfinityM] for an infinite [n]);
    below 1000 it is the text of [n].  The dashboard's formatNumber agrees.
    From 1000 on what formatNumber returns is the text of no Number.
    displayResults writes it to the elements of the impressions and of the
    followers.  Neither export abbreviates: in the text exportToCSV builds
    and in the one exportData builds, the row of a statistic from 1000 on,
    and the row of such a value of the series when no label holds a line
    feed, carry the text of the Number; an integer count is exported as its
    digits. *)
Theorem formatNumber_abbreviates (n : number) :
  let M := Number_of_Z 1000000 in
  let K := Number_of_Z 1000 in
  (geb n M = true → ∀ nu de, value_of (div n M) = Some (nu, de) →
     Main.formatNumber n
     = (if (10 ^ 21 * de <=? nu)%Z then Number_toString (div n M) else rounded 1 nu de)
       +:+ "M")
  ∧ (geb n M = false → geb n K = true → ∀ nu de, value_of (div n K) = Some (nu, de) →
     Main.formatNumber n
     = (if (10 ^ 21 * de <=? nu)%Z then Number_toString (div n K) else rounded 1 nu de)
       +:+ "K")
  ∧ (geb n M = false → geb n K = false → Main.formatNumber n = Number_toString n)
  ∧ Dashboard.formatNumber (Some n) = Main.formatNumber n
  ∧ (∀ z, (1000 ≤ z < 2 ^ 53)%Z →
       stat_cell (Some (Number_of_Z z)) = digits z
       ∧ Main.formatNumber (Number_of_Z z) ≠ digits z)
  ∧ (geb n M = true → value_of (div n M) = None →
     Main.formatNumber n = Number_toString (div n M) +:+ "M")
  ∧ (geb n M = false → geb n K = true → value_of (div n K) = None →
     Main.formatNumber n = Number_toString (div n K) +:+ "K")
  ∧ Main.formatNumber (S754_infinity false) = "InfinityM"
  ∧ (geb n K = true →
     (∀ x, Main.formatNumber n ≠ Number_toString x)
     ∧ (∀ (data : AnalysisData) (p : Page Main.Globals),
          (∀ id, id ∈ results_elements → id ∈ elements (win p)) →
          let shown_in := λ id,
            textContent (win (page_of (Main.displayResults data p))) !! id in
          (total_impressions (stats data) = Some n →
           shown_in "totalImpressions" = Some (Main.formatNumber n))
          ∧ (follower_count (stats data) = Some n →
             shown_in "followerCount" = Some (Main.formatNumber n)))
     ∧ (∀ (data : AnalysisData) (csv : string), Main.csv_text data = Some csv →
          (total_posts (stats data) = Some n →
           lines csv !! 1 = Some ("総投稿数," +:+ Number_toString n))
          ∧ (avg_engagement (stats data) = Some n →
             lines csv !! 2 = Some ("平均エンゲージメント率," +:+ Number_toString n +:+ "%"))
          ∧ (total_impressions (stats data) = Some n →
             lines csv !! 3 = Some ("総インプレッション," +:+ Number_toString n))
          ∧ (follower_count (stats data) = Some n →
             lines csv !! 4 = Some ("フォロワー数," +:+ Number_toString n))
          ∧ (∀ ed ls vs i l,
               engagement_data data = Some ed → labels ed = Some ls →
               values ed = Some vs → Forall (λ l, all_chars no_LF l = true) ls →
               ls !! i = Some l → vs !! i = Some n →
               lines csv !! (7 + i) = Some (l +:+ "," +:+ Number_toString n)))
     ∧ (∀ (data : AnalysisData) (csv : string), Dashboard.csv_text data = Some csv →
          (total_posts (stats data) = Some n →
           lines csv !! 1 = Some ("総投稿数," +:+ Number_toString n))
          ∧ (total_likes (stats data) = Some n →
             lines csv !! 2 = Some ("総いいね数," +:+ Number_toString n))
          ∧ (total_comments (stats data) = Some n →
             lines csv !! 3 = Some ("総コメント数," +:+ Number_toString n))
          ∧ (avg_engagement (stats data) = Some n →
             lines csv !! 4 = Some ("平均エンゲージメント," +:+ Number_toString n))
          ∧ (∀ ed ls vs i l,
               engagement_data data = Some ed → labels ed = Some ls →
               values ed = Some vs → Forall (λ l, all_chars no_LF l = true) ls →
               ls !! i = Some l → vs !! i = Some n →
               lines csv !! (7 + i) = Some (l +:+ "," +:+ Number_toString n)))).
Proof.
  cbv zeta. unfold Main.formatNumber.
  destruct Number_of_Z_1000 as (mK & eK & EK).
  destruct Number_of_Z_1000000 as (mM & eM & EM).
  split; [|split; [|split; [|split; [|split; [|split; [|split; [|split]]]]]]].
  - intros -> nu de Hv. by rewrite (toFixed_rounded 1 _ nu de) by (done || lia).
  - intros -> -> nu de Hv. by rewrite (toFixed_rounded 1 _ nu de) by (done || lia).
  - by intros -> ->.
  - apply dashboard_formatNumber_main.
  - intros z Hz. split; [apply stat_cell_int; lia|].
    rewrite (geb_int_1000 z Hz).
    destruct (geb (Number_of_Z z) (Number_of_Z 1000000)); by apply not_digits_suffix.
  - intros HM Hv. rewrite HM. rewrite EM in *. by rewrite toFixed_div_text.
  - intros HM HK Hv. rewrite HM, HK. rewrite EK in *. by rewrite toFixed_div_text.
  - vm_compute. reflexivity.
  - intros HK. pose proof (geb_1000_truthy n HK) as Ht.
    pose proof (stat_cell_truthy n Ht) as Hcell.
    split; [|split; [|split]].
    + intros x. by apply (formatNumber_not_text n x).
    + intros data p Hel. cbv zeta.
      destruct (lookup_displayed data p Hel) as (_ & _ & -> & ->).
      split; intros ->; unfold shown; by rewrite Ht.
    + intros data csv Hcsv.
      pose proof (csv_text_summary_lines data csv Hcsv) as Hrows.
      repeat split.
      * intros E. apply (lookup_summary_line _ _ _ _ Hrows); [lia|].
        unfold summary_rows. by rewrite E, Hcell.
      * intros E. apply (lookup_summary_line _ _ _ _ Hrows); [lia|].
        unfold summary_rows. by rewrite E, Hcell.
      * intros E. apply (lookup_summary_line _ _ _ _ Hrows); [lia|].
        unfold summary_rows. by rewrite E, Hcell.
      * intros E. apply (lookup_summary_line _ _ _ _ Hrows); [lia|].
        unfold summary_rows. by rewrite E, Hcell.
      * intros ed ls vs i l Hed Hls Hvs Hno Hl Hv.
        rewrite (csv_text_lines data csv ed ls vs) by done.
        change (7 + i) with (length (summary_rows data ++ [""; "日付,エンゲージメント率"]) + i).
        rewrite app_assoc, lookup_app_r by lia.
        replace (_ + i - _) with i by lia.
        unfold series_rows. rewrite list_lookup_imap, Hl. simpl. by rewrite Hv.
    + intros data csv Hcsv.
      pose proof (dashboard_csv_text_summary_lines data csv Hcsv) as Hrows.
      repeat split.
      * intros E. apply (lookup_summary_line _ _ _ _ Hrows); [lia|].
        unfold dashboard_summary_rows. by rewrite E, Hcell.
      * intros E. apply (lookup_summary_line _ _ _ _ Hrows); [lia|].
        unfold dashboard_summary_rows. by rewrite E, Hcell.
      * intros E. apply (lookup_summary_line _ _ _ _ Hrows); [lia|].
        unfold dashboard_summary_rows. by rewrite E, Hcell.
      * intros E. apply (lookup_summary_line _ _ _ _ Hrows); [lia|].
        unfold dashboard_summary_rows. by rewrite E, Hcell.
      * intros ed ls vs i l Hed Hls Hvs Hno Hl Hv.
        rewrite (dashboard_csv_text_lines data csv ed ls vs) by done.
        change (7 + i)
          with (length (dashboard_summary_rows data ++ [""; "日付,エンゲージメント"]) + i).
        rewrite app_assoc, lookup_app_r by lia.
        replace (_ + i - _) with i by lia.
        unfold dashboard_series_rows. rewrite list_lookup_imap, Hl. simpl.
        by rewrite Hv, Hcell.
Qed.

Lemma formatNumber_abbreviates_witness :
  Main.formatNumber (dec 1500000 0) = "1.5M"
  ∧ Main.formatNumber (dec 1150 0) = "1.1K"
  ∧ Main.formatNumber (dec 1 27) = "1e+21M"
  ∧ Main.formatNumber (dec 999 0) = "999"
  ∧ stat_cell (Some (Number_of_Z 1500000)) = "1500000"
  ∧ Main.formatNumber (S754_infinity false) = "InfinityM"
  ∧ textContent (win (page_of (Main.displayResults sample_data fresh_page)))
      !! "totalImpressions" = Some "1.5M"
  ∧ lines (default "" (Main.csv_text sample_data)) !! 3 = Some "総インプレッション,1500000"
  ∧ lines (default "" (Dashboard.csv_text (with_average (dec 1500000 0) sample_data))) !! 4
    = Some "平均エンゲージメント,1500000".
Proof.
  pose proof (formatNumber_abbreviates (dec 1500000 0))
    as (H1 & _ & _ & _ & H5 & _ & _ & _ & H9).
  destruct (H9 eq_refl) as (_ & Hshown & Hmain & Hdash).
  split; [exact (H1 eq_refl 6755399441055744%Z 4503599627370496%Z eq_refl)|].
  split; [exact (proj1 (proj2 (formatNumber_abbreviates (dec 1150 0))) eq_refl eq_refl
                   5179139571476070%Z 4503599627370496%Z eq_refl)|].
  split; [exact (proj1 (formatNumber_abbreviates (dec 1 27)) eq_refl
                   1000000000000000000000%Z 1%Z eq_refl)|].
  split; [exact (proj1 (proj2 (proj2 (formatNumber_abbreviates (dec 999 0))))
                   eq_refl eq_refl)|].
  split; [exact (proj1 (H5 1500000%Z ltac:(lia)))|].
  split; [exact (proj1 (proj2 (proj2 (proj2 (proj2 (proj2
                   (formatNumber_abbreviates (S754_infinity false)))))))
                   eq_refl eq_refl)|].
  split; [exact (proj1 (Hshown sample_data fresh_page sample_window_elements) eq_refl)|].
  split; [exact (proj1 (proj2 (proj2 (Hmain sample_data _ eq_refl))) eq_refl)|].
  exact (proj1 (proj2 (proj2 (proj2 (Hdash (with_average (dec 1500000 0) sample_data) _
                                       eq_refl)))) eq_refl).
Defined.

(** C9 as stated fails at 10^27: the quotient, 10^21, rounded to one
    decimal digit is 1000000000000000000000.0, and formatNumber returns
    [1e+21M]. *)
Lemma formatNumber_counterexample :
  Main.formatNumber (dec 1 27) = "1e+21M"
  ∧ claimed_format (dec 1 27) = Some "1000000000000000000000.0M"
  ∧ Some (Main.formatNumber (dec 1 27)) ≠ claimed_format (dec 1 27).
Proof.
  assert (Main.formatNumber (dec 1 27) = "1e+21M") as E1 by (vm_compute; reflexivity).
  assert (claimed_format (dec 1 27) = Some "1000000000000000000000.0M") as E2
    by (vm_compute; reflexivity).
  split; [exact E1|]. split; [exact E2|]. rewrite E1, E2. intros [=].
Qed.

(** * Further properties of the two scripts *)

(** ** Sample pages *)

Ltac in_list := repeat first [apply list_elem_of_here | apply list_elem_of_further].
Ltac in_elements := apply elem_of_list_to_set; in_list.
Ltac not_in_elements :=
  let H := fresh in
  rewrite elem_of_list_to_set; intros H;
  repeat (apply elem_of_cons in H as [H|H]; [discriminate H|]);
  by apply elem_of_nil in H.

Lemma fresh_page_elements (id : string) :
  id ∈ "loading" :: results_elements → id ∈ elements (win fresh_page).
Proof.
  intros Hid. apply elem_of_cons in Hid as [->|Hid]; [in_elements|].
  by apply sample_window_elements.
Qed.

Lemma plain_window_stats (id : string) :
  id ∈ stat_elements → id ∈ elements plain_window.
Proof.
  intros Hid. unfold stat_elements in Hid.
  repeat (apply elem_of_cons in Hid as [->|Hid]; [in_elements|]).
  by apply elem_of_nil in Hid.
Qed.

(** ** The analysis request after the answer *)

Lemma hideLoading_ok (p : Page Main.Globals) :
  "loading" ∈ elements (win p) →
  Main.hideLoading p
  = Return tt (MkPage
      {| elements := elements (win p); textContent := textContent (win p);
         display := <["loading" := "none"]> (display (win p));
         alerts := alerts (win p); console := console (win p);
         fetches := fetches (win p); downloads := downloads (win p);
         opened := opened (win p); charts := charts (win p);
         clock := clock (win p) |} (globals p)).
Proof.
  intros H. unfold Main.hideLoading.
  unfold mbind at 1, M_bind at 1. by rewrite (getElementById_present _ _ H).
Qed.

(** X1: when the analysis request fails (the fetch is rejected, the server
    answers with an error status, or the body cannot be read),
    handleFormSubmit reports it in one alert with the fixed failure
    message and hides the loading indicator; it returns normally, and no
    text, chart, request, download or stored result changes. *)
Theorem analysis_failure_reported (r : Response AnalysisData) (p : Page Main.Globals) :
  "loading" ∈ elements (win p) → failed r →
  ∃ p', Main.handleFormSubmit_resume r p = Return tt p'
    ∧ alerts (win p') = alerts (win p) ++ [Main.msg_analysis_failed]
    ∧ display (win p') = <["loading" := "none"]> (display (win p))
    ∧ textContent (win p') = textContent (win p)
    ∧ charts (win p') = charts (win p)
    ∧ fetches (win p') = fetches (win p)
    ∧ downloads (win p') = downloads (win p)
    ∧ globals p' = globals p.
Proof.
  intros Hl Hr. unfold Main.handleFormSubmit_resume, try_finally, try_catch.
  assert (∃ e, match r with
               | Rejected => mthrow TypeError
               | Settled ok status json =>
                   if negb ok then mthrow (Error ("HTTP error! status: " +:+ pretty status))
                   else result ← or_TypeError json; Main.displayResults result
               end p = Throw e p) as [e ->].
  { destruct r as [|ok status json]; [by eexists|].
    destruct ok; simpl; [|by eexists].
    destruct Hr as [?| ->]; [done|]. by eexists. }
  destruct p as [w g]. simpl in Hl.
  unfold mbind, M_bind at 1. simpl.
  unfold mbind, M_bind. rewrite hideLoading_ok by done. simpl.
  eexists. repeat split.
Qed.

Lemma analysis_failure_reported_witness :
  ∃ p', Main.handleFormSubmit_resume (Settled false 500 None) fresh_page = Return tt p'
    ∧ alerts (win p') = [Main.msg_analysis_failed]
    ∧ display (win p') = {["loading" := "none"]}.
Proof.
  destruct (analysis_failure_reported (Settled false 500 None) fresh_page)
    as (p' & E & Ha & Hd & _).
  - apply fresh_page_elements, list_elem_of_here.
  - by left.
  - exists p'. split; [exact E|]. split; [exact Ha | exact Hd].
Defined.

Section surroundings.
Context {G : Type} (I : Page G → Prop).
Hypothesis I_surroundings :
  ∀ p q, surroundings (win p) = surroundings (win q) → I p → I q.

Lemma surroundings_set_textContent (el : option string) (text : string) :
  preserves I (set_textContent el text).
Proof using I_surroundings.
  intros p Hp. destruct el; [|done]. by apply (I_surroundings p).
Qed.

Lemma surroundings_set_display (el : option string) (v : string) :
  preserves I (set_display el v).
Proof using I_surroundings.
  intros p Hp. destruct el; [|done]. by apply (I_surroundings p).
Qed.

Lemma preserves_globals : preserves I get_globals.
Proof using Type. by intros p Hp. Qed.

Lemma surroundings_getContext (el : option string) : preserves I (getContext el).
Proof using Type. intros p Hp. by destruct el. Qed.

Lemma surroundings_new_Chart (ctx type : string) (ls : option (list string))
    (vs : option (list number)) :
  preserves I (new_Chart ctx type ls vs).
Proof using I_surroundings. intros p Hp. by apply (I_surroundings p). Qed.

Lemma surroundings_Chart_destroy (c : nat) : preserves I (Chart_destroy c).
Proof using I_surroundings. intros p Hp. by apply (I_surroundings p). Qed.

Lemma surroundings_set_globals (g : G) : preserves I (set_globals g).
Proof using I_surroundings. intros p Hp. by apply (I_surroundings p). Qed.
End surroundings.

Ltac surroundings_step H :=
  first
    [ apply preserves_getElementById
    | apply (surroundings_set_textContent _ H)
    | apply (surroundings_set_display _ H)
    | apply surroundings_getContext
    | apply (surroundings_new_Chart _ H)
    | apply (surroundings_Chart_destroy _ H)
    | apply (surroundings_set_globals _ H)
    | apply preserves_scrollIntoView
    | apply preserves_ret
    | apply preserves_globals
    | match goal with |- preserves _ (match ?x with _ => _ end) => destruct x end
    | apply preserves_bind; [|intros ?] ].

Lemma displayResults_surroundings (data : AnalysisData) (p : Page Main.Globals) :
  surroundings (win (page_of (Main.displayResults data p))) = surroundings (win p).
Proof.
  pose (I := λ q : Page Main.Globals, surroundings (win q) = surroundings (win p)).
  assert (∀ q q', surroundings (win q) = surroundings (win q') → I q → I q') as HI
    by (unfold I; congruence).
  assert (preserves I (Main.displayResults data)) as H; [|by apply H].
  unfold Main.displayResults, Main.createEngagementChart, Main.createTimingChart.
  repeat surroundings_step HI.
Qed.

(** X2: whatever the answer to the analysis request is, and whatever
    elements the page lacks besides the loading indicator, the rest of
    handleFormSubmit returns normally (every error is caught), leaves the
    loading indicator hidden, shows at most one alert, which is the fixed
    failure message, and neither sends a request nor downloads or opens
    anything. *)
Theorem analysis_always_settles (r : Response AnalysisData) (p : Page Main.Globals) :
  "loading" ∈ elements (win p) →
  ∃ p', Main.handleFormSubmit_resume r p = Return tt p'
    ∧ display (win p') !! "loading" = Some "none"
    ∧ (alerts (win p') = alerts (win p)
       ∨ alerts (win p') = alerts (win p) ++ [Main.msg_analysis_failed])
    ∧ fetches (win p') = fetches (win p)
    ∧ downloads (win p') = downloads (win p)
    ∧ opened (win p') = opened (win p).
Proof.
  intros Hl. unfold Main.handleFormSubmit_resume, try_finally, try_catch.
  set (body := match r with
               | Rejected => mthrow TypeError
               | Settled ok status json =>
                   if negb ok then mthrow (Error ("HTTP error! status: " +:+ pretty status))
                   else result ← or_TypeError json; Main.displayResults result
               end).
  assert (surroundings (win (page_of (body p))) = surroundings (win p)) as Hs.
  { unfold body. destruct r as [|[] status [data|]]; try done.
    apply displayResults_surroundings. }
  destruct (body p) as [[] q|e q]; simpl in Hs; injection Hs as He Ha Hc Hf Hd Ho Hk.
  - unfold mbind, M_bind. rewrite hideLoading_ok by (simpl; by rewrite He). simpl.
    eexists. split; [done|]. simpl. rewrite lookup_insert_eq. auto 10.
  - unfold mbind, M_bind at 1. simpl.
    unfold mbind, M_bind. rewrite hideLoading_ok by (simpl; by rewrite He). simpl.
    eexists. split; [done|]. simpl. rewrite lookup_insert_eq, Ha. auto 10.
Qed.

Lemma analysis_always_settles_witness :
  ∃ p', Main.handleFormSubmit_resume (Settled true 200 (Some sample_data)) plain_page
        = Return tt p'
    ∧ display (win p') !! "loading" = Some "none".
Proof.
  destruct (analysis_always_settles (Settled true 200 (Some sample_data)) plain_page)
    as (p' & E & Hd & _).
  - in_elements.
  - exists p'. split; [exact E | exact Hd].
Defined.

(** displayResults with the elements of the statistics in the document but
    without a canvas it needs: the texts are written, then it throws; the
    result is not stored and the results are not shown. *)
Lemma displayResults_canvas_missing (data : AnalysisData) (p : Page Main.Globals) :
  (∀ id, id ∈ stat_elements → id ∈ elements (win p)) →
  canvas_missing data (win p) →
  ∃ q, Main.displayResults data p = Throw TypeError q
    ∧ textContent (win q) = stat_texts data (textContent (win p))
    ∧ display (win q) = display (win p)
    ∧ surroundings (win q) = surroundings (win p)
    ∧ Main.currentAnalysisData (globals q) = Main.currentAnalysisData (globals p).
Proof.
  intros Hel Hmiss. destruct p as [w g]. simpl in *.
  assert (∀ id, id ∈ stat_elements → ∀ A (a b : A),
            (if decide (id ∈ elements w) then a else b) = a) as Hdec
    by (intros; by rewrite decide_True by by apply Hel).
  unfold Main.displayResults, stat_texts.
  unfold mbind, M_bind, getElementById, get_window, mret, M_ret.
  rewrite or_else_dash.
  fold (shown (λ x, toFixed 2 x +:+ "%") (avg_engagement (stats data))).
  fold (shown Main.formatNumber (total_impressions (stats data))).
  fold (shown Main.formatNumber (follower_count (stats data))).
  simpl.
  repeat (rewrite Hdec by (unfold stat_elements;
                           repeat first [apply list_elem_of_here | apply list_elem_of_further]);
          simpl).
  destruct (engagement_data data) as [ed|] eqn:Hed.
  - rewrite createEngagementChart_effect. simpl.
    destruct (decide ("engagementChart" ∈ elements w)) as [Hin|Hnot]; simpl.
    + destruct Hmiss as [[_ ?]|[Htd Hnt]]; [done|].
      destruct (timing_data data) as [td|]; [|done].
      rewrite createTimingChart_effect. simpl.
      rewrite decide_False by done. simpl. eexists. repeat split.
    + eexists. repeat split.
  - simpl. destruct Hmiss as [[? _]|[Htd Hnt]]; [done|].
    destruct (timing_data data) as [td|]; [|done].
    rewrite createTimingChart_effect. simpl.
    rewrite decide_False by done. simpl. eexists. repeat split.
Qed.

Lemma exportToCSV_texts_stored (p q : Page Main.Globals) :
  Main.currentAnalysisData (globals q) = Main.currentAnalysisData (globals p) →
  blob_text <$> new_downloads q (Main.exportToCSV q)
  = blob_text <$> new_downloads p (Main.exportToCSV p).
Proof.
  intros H. destruct (Main.currentAnalysisData (globals p)) as [data|] eqn:Hp.
  - by rewrite (exportToCSV_texts p data Hp), (exportToCSV_texts q data H).
  - unfold Main.exportToCSV, mbind, M_bind, get_globals. rewrite H, Hp.
    unfold new_downloads. simpl. by rewrite !drop_all.
Qed.

(** X3: when a good answer arrives but a canvas the result needs is not in
    the document, the statistics of the new result are already written to
    the page when drawing throws; the failure is reported in the alert,
    the new result is not stored, and an export offers what it offered
    before the analysis. *)
Theorem failed_drawing_keeps_stored_result (data : AnalysisData) (status : Z)
    (p : Page Main.Globals) :
  "loading" ∈ elements (win p) →
  (∀ id, id ∈ stat_elements → id ∈ elements (win p)) →
  canvas_missing data (win p) →
  ∃ p', Main.handleFormSubmit_resume (Settled true status (Some data)) p = Return tt p'
    ∧ alerts (win p') = alerts (win p) ++ [Main.msg_analysis_failed]
    ∧ textContent (win p') = stat_texts data (textContent (win p))
    ∧ display (win p') = <["loading" := "none"]> (display (win p))
    ∧ Main.currentAnalysisData (globals p') = Main.currentAnalysisData (globals p)
    ∧ blob_text <$> new_downloads p' (Main.exportToCSV p')
      = blob_text <$> new_downloads p (Main.exportToCSV p).
Proof.
  intros Hl Hel Hmiss.
  destruct (displayResults_canvas_missing data p Hel Hmiss) as (q & E & Ht & Hd & Hs & Hg).
  injection Hs as He Ha Hc Hf Hdl Ho Hk.
  assert ((result ← or_TypeError (Some data); Main.displayResults result) p
          = Throw TypeError q) as E' by exact E.
  unfold Main.handleFormSubmit_resume, try_finally, try_catch.
  change (negb true) with false. cbv iota. rewrite E'.
  unfold mbind, M_bind at 1. simpl.
  unfold mbind, M_bind. rewrite hideLoading_ok by (simpl; by rewrite He). simpl.
  eexists. split; [done|]. simpl.
  split; [by rewrite Ha|]. split; [done|]. split; [by rewrite Hd|]. split; [done|].
  by apply exportToCSV_texts_stored.
Qed.

Lemma failed_drawing_keeps_stored_result_witness :
  ∃ p', Main.handleFormSubmit_resume (Settled true 200 (Some sample_data)) plain_page
        = Return tt p'
    ∧ alerts (win p') = [Main.msg_analysis_failed]
    ∧ textContent (win p') !! "followerCount" = Some "1.1K"
    ∧ Main.currentAnalysisData (globals p') = Some zero_data.
Proof.
  destruct (failed_drawing_keeps_stored_result sample_data 200 plain_page)
    as (p' & E & Ha & Ht & _ & Hg & _).
  - in_elements.
  - apply plain_window_stats.
  - left. split; [done|]. unfold plain_page, plain_window. cbn [win elements].
    not_in_elements.
  - exists p'. split; [exact E|]. split; [exact Ha|]. split; [|exact Hg].
    rewrite Ht. vm_compute. reflexivity.
Defined.

Lemma handleFormSubmit_complete (form : FormData) (p : Page Main.Globals) :
  complete form →
  Main.handleFormSubmit form p
  = (Main.showLoading;; fetch "/api/analyze" "POST" (AnalyzeBody form)) p.
Proof.
  unfold Main.handleFormSubmit. intros (-> & -> & -> & Ht). simpl.
  by destruct (form_analysis_type form).
Qed.

Lemma showLoading_effect (p : Page Main.Globals) :
  "loading" ∈ elements (win p) → "resultsSection" ∈ elements (win p) →
  Main.showLoading p
  = Return tt (MkPage
      {| elements := elements (win p); textContent := textContent (win p);
         display := <["resultsSection" := "none"]> (<["loading" := "block"]> (display (win p)));
         alerts := alerts (win p); console := console (win p);
         fetches := fetches (win p); downloads := downloads (win p);
         opened := opened (win p); charts := charts (win p);
         clock := clock (win p) |} (globals p)).
Proof.
  intros H1 H2. destruct p as [w g]. unfold Main.showLoading.
  unfold mbind at 1, M_bind at 1. rewrite (getElementById_present _ _ H1).
  unfold mbind at 1, M_bind at 1. simpl.
  unfold mbind at 1, M_bind at 1.
  by rewrite getElementById_present by exact H2.
Qed.

(** X4: a complete form submitted on a page that has every element, and
    answered with a result, goes through without an alert: one request to
    /api/analyze is sent, the loading indicator ends hidden, the results
    section ends shown, the statistics are written, the result is stored,
    and exportToCSV then exports the text of that very result. *)
Theorem analysis_then_export (form : FormData) (status : Z) (data : AnalysisData)
    (p : Page Main.Globals) :
  complete form →
  (∀ id, id ∈ "loading" :: results_elements → id ∈ elements (win p)) →
  ∃ p', (Main.handleFormSubmit form;;
         Main.handleFormSubmit_resume (Settled true status (Some data))) p = Return tt p'
    ∧ alerts (win p') = alerts (win p)
    ∧ fetches (win p') = fetches (win p) ++ [analyze_request form]
    ∧ display (win p') !! "loading" = Some "none"
    ∧ display (win p') !! "resultsSection" = Some "block"
    ∧ textContent (win p') = stat_texts data (textContent (win p))
    ∧ Main.currentAnalysisData (globals p') = Some data
    ∧ blob_text <$> new_downloads p' (Main.exportToCSV p') = option_list (Main.csv_text data).
Proof.
  intros Hform Hel.
  assert ("loading" ∈ elements (win p)) as Hl by (apply Hel, list_elem_of_here).
  assert ("resultsSection" ∈ elements (win p)) as Hr
    by (apply Hel; unfold results_elements;
        repeat first [apply list_elem_of_here | apply list_elem_of_further]).
  unfold mbind at 1, M_bind at 1. rewrite (handleFormSubmit_complete _ _ Hform).
  unfold mbind at 1. unfold M_bind at 1. rewrite (showLoading_effect p Hl Hr).
  destruct p as [w g]. simpl in *.
  unfold Main.handleFormSubmit_resume, try_finally, try_catch.
  change (negb true) with false. cbv iota.
  match goal with |- context [(result ← or_TypeError (Some data); Main.displayResults result) ?q] =>
    change ((result ← or_TypeError (Some data); Main.displayResults result) q)
      with (Main.displayResults data q);
    rewrite (displayResults_effect data q)
      by (simpl; intros id Hid; by apply Hel, list_elem_of_further)
  end.
  unfold mbind, M_bind. rewrite hideLoading_ok by done. simpl.
  eexists. split; [done|]. simpl.
  split; [done|]. split; [done|].
  split; [by rewrite lookup_insert_eq|].
  split; [rewrite lookup_insert_ne by done; by rewrite lookup_insert_eq|].
  split; [done|]. split; [done|].
  by apply exportToCSV_texts.
Qed.

Lemma analysis_then_export_witness :
  ∃ p', (Main.handleFormSubmit sample_form;;
         Main.handleFormSubmit_resume (Settled true 200 (Some sample_data))) fresh_page
        = Return tt p'
    ∧ fetches (win p') = [analyze_request sample_form]
    ∧ Main.currentAnalysisData (globals p') = Some sample_data
    ∧ blob_text <$> new_downloads p' (Main.exportToCSV p')
      = option_list (Main.csv_text sample_data).
Proof.
  destruct (analysis_then_export sample_form 200 sample_data fresh_page)
    as (p' & E & _ & Hf & _ & _ & _ & Hg & Hx).
  - repeat split; done.
  - apply fresh_page_elements.
  - exists p'. split; [exact E|]. split; [exact Hf|]. split; [exact Hg | exact Hx].
Defined.

(** X5: on a page without the loading indicator a complete form makes
    handleFormSubmit throw a TypeError before anything happens; with the
    indicator but without the results section it throws after the
    indicator was shown, which then stays shown.  In both cases no request
    is sent and no alert is raised. *)
Theorem handleFormSubmit_without_indicator (form : FormData) (p : Page Main.Globals) :
  complete form →
  ("loading" ∉ elements (win p) → Main.handleFormSubmit form p = Throw TypeError p)
  ∧ ("loading" ∈ elements (win p) → "resultsSection" ∉ elements (win p) →
     ∃ p', Main.handleFormSubmit form p = Throw TypeError p'
       ∧ display (win p') = <["loading" := "block"]> (display (win p))
       ∧ fetches (win p') = fetches (win p)
       ∧ alerts (win p') = alerts (win p)
       ∧ globals p' = globals p).
Proof.
  intros Hform. rewrite (handleFormSubmit_complete _ _ Hform).
  destruct p as [w g]. unfold Main.showLoading. split.
  - intros Hl. unfold mbind at 1, M_bind at 1.
    unfold mbind at 1, M_bind at 1. by rewrite (getElementById_missing _ _ Hl).
  - intros Hl Hr. unfold mbind at 1, M_bind at 1.
    unfold mbind at 1, M_bind at 1. rewrite (getElementById_present _ _ Hl).
    unfold mbind at 1, M_bind at 1. simpl.
    unfold mbind at 1, M_bind at 1.
    rewrite getElementById_missing by exact Hr. simpl.
    eexists. repeat split.
Qed.

Lemma handleFormSubmit_without_indicator_witness :
  Main.handleFormSubmit sample_form (MkPage empty_window Main.initial)
  = Throw TypeError (MkPage empty_window Main.initial)
  ∧ ∃ p', Main.handleFormSubmit sample_form (MkPage loading_window Main.initial)
          = Throw TypeError p'
      ∧ display (win p') = {["loading" := "block"]}
      ∧ fetches (win p') = [].
Proof.
  split.
  - apply (proj1 (handleFormSubmit_without_indicator sample_form
                    (MkPage empty_window Main.initial) ltac:(repeat split; done))).
    apply not_elem_of_empty.
  - destruct (proj2 (handleFormSubmit_without_indicator sample_form
                       (MkPage loading_window Main.initial) ltac:(repeat split; done)))
      as (p' & E & Hd & Hf & _).
    + unfold loading_window. cbn [win elements]. by apply elem_of_singleton_2.
    + unfold loading_window. cbn [win elements]. rewrite elem_of_singleton. discriminate.
    + exists p'. split; [exact E|]. split; [exact Hd | exact Hf].
Defined.

(** ** The spreadsheet export after the answer *)

(** X6: the rest of exportToGoogleSheets returns normally for every
    answer and shows exactly one alert.  When the answer is good and
    reports success, the alert carries the sheet's URL and the sheet is
    opened in a new window; in every other case (rejected fetch, error
    status, unreadable body, a reported failure whatever its error text)
    the alert is the fixed failure message and nothing is opened.  The
    stored result, the requests and the downloads are left alone. *)
Theorem exportToGoogleSheets_settles (r : Response Main.SheetsResult)
    (p : Page Main.Globals) :
  ∃ p', Main.exportToGoogleSheets_resume r p = Return tt p'
    ∧ globals p' = globals p
    ∧ fetches (win p') = fetches (win p)
    ∧ downloads (win p') = downloads (win p)
    ∧ match saved r with
      | Some result =>
          alerts (win p')
          = alerts (win p) ++ ["Google Sheetsに保存しました: "
                               +:+ ToString (Main.text_of (Main.sheet_url result))]
          ∧ opened (win p') = opened (win p) ++ [Main.url_argument (Main.sheet_url result)]
          ∧ console (win p') = console (win p)
      | None =>
          alerts (win p') = alerts (win p) ++ [Main.msg_sheets_failed]
          ∧ opened (win p') = opened (win p)
      end.
Proof.
  destruct p as [w g]. unfold Main.exportToGoogleSheets_resume, try_catch.
  destruct r as [|[] status [[[] url err]|]]; simpl; eexists; repeat split.
Qed.

(** ** The platform selection *)

Lemma handlePlatformChange_effect (platform : string) (ph : gmap string string)
    (p : Page Main.Globals) :
  "usernameHelp" ∈ elements (win p) → "username" ∈ elements (win p) →
  Main.handlePlatformChange platform ph p
  = Return (<["username" := placeholder_of platform]> ph)
      (MkPage (with_textContent
                 (<["usernameHelp" := help_of platform]> (textContent (win p))) (win p))
              (globals p)).
Proof.
  intros Hh Hu. destruct p as [w g]. unfold Main.handlePlatformChange.
  unfold mbind at 1, M_bind at 1. rewrite (getElementById_present _ _ Hh).
  unfold mbind at 1, M_bind at 1. rewrite (getElementById_present _ _ Hu).
  unfold help_of, placeholder_of.
  destruct (String.eqb platform "instagram"); [done|].
  destruct (String.eqb platform "twitter"); done.
Qed.

(** X7: with the help text and the user name field in the document, a
    change of platform overwrites what the change before it wrote: two
    changes in a row leave the page and the placeholder as the second one
    alone does. *)
Theorem handlePlatformChange_last_wins (a b : string) (ph : gmap string string)
    (p : Page Main.Globals) :
  "usernameHelp" ∈ elements (win p) → "username" ∈ elements (win p) →
  (ph' ← Main.handlePlatformChange a ph; Main.handlePlatformChange b ph') p
  = Main.handlePlatformChange b ph p.
Proof.
  intros Hh Hu. unfold mbind, M_bind.
  rewrite !handlePlatformChange_effect by done.
  simpl. unfold with_textContent. simpl. by rewrite !insert_insert_eq.
Qed.

Lemma handlePlatformChange_last_wins_witness :
  (ph ← Main.handlePlatformChange "instagram" ∅; Main.handlePlatformChange "" ph) plain_page
  = Main.handlePlatformChange "" ∅ plain_page.
Proof.
  apply (handlePlatformChange_last_wins "instagram" "" ∅ plain_page); in_elements.
Defined.

(** X8: without the help element handlePlatformChange throws a TypeError
    and changes nothing; with it but without the user name field it
    throws after the help text was written, so that the help text is
    changed and the placeholder is not. *)
Theorem handlePlatformChange_missing_element (platform : string) (ph : gmap string string)
    (p : Page Main.Globals) :
  ("usernameHelp" ∉ elements (win p) →
   Main.handlePlatformChange platform ph p = Throw TypeError p)
  ∧ ("usernameHelp" ∈ elements (win p) → "username" ∉ elements (win p) →
     Main.handlePlatformChange platform ph p
     = Throw TypeError
         (MkPage (with_textContent
                    (<["usernameHelp" := help_of platform]> (textContent (win p))) (win p))
                 (globals p))).
Proof.
  destruct p as [w g]. unfold Main.handlePlatformChange. split.
  - intros Hh.
    unfold mbind at 1, M_bind at 1. rewrite (getElementById_missing _ _ Hh).
    unfold mbind at 1, M_bind at 1.
    destruct (getElementById "username" (MkPage w g)) as [u q|e q] eqn:E.
    + unfold getElementById, mbind, M_bind, get_window, mret, M_ret in E. simpl in E.
      injection E as _ <-.
      destruct (String.eqb platform "instagram"); [done|].
      destruct (String.eqb platform "twitter"); done.
    + done.
  - intros Hh Hu.
    unfold mbind at 1, M_bind at 1. rewrite (getElementById_present _ _ Hh).
    unfold mbind at 1, M_bind at 1. rewrite (getElementById_missing _ _ Hu).
    unfold help_of.
    destruct (String.eqb platform "instagram"); [done|].
    destruct (String.eqb platform "twitter"); done.
Qed.

Lemma handlePlatformChange_missing_element_witness :
  Main.handlePlatformChange "twitter" ∅ fresh_page = Throw TypeError fresh_page.
Proof.
  apply (proj1 (handlePlatformChange_missing_element "twitter" ∅ fresh_page)).
  unfold fresh_page, sample_window. cbn [win elements]. not_in_elements.
Defined.

(** ** The CSV text read back *)

Lemma series_rows_lookup (ls : list string) (vs : list number) (i : nat) :
  series_rows ls vs !! i = (λ l, l +:+ "," +:+ value_text vs i) <$> ls !! i.
Proof. unfold series_rows. by rewrite list_lookup_imap. Qed.

Lemma series_rows_no_LF (ls : list string) (vs : list number) :
  Forall (λ l, all_chars cell_char l = true) ls →
  Forall (λ r, all_chars no_LF r = true) (series_rows ls vs).
Proof.
  intros Hls. apply Forall_lookup_2. intros i r. rewrite series_rows_lookup.
  destruct (ls !! i) as [l|] eqn:Hl; [|done]. intros [= <-].
  rewrite !all_chars_app, !andb_true_iff. split; [|split; [done|]].
  - apply cell_char_no_LF. by apply (Forall_lookup_1 _ _ _ _ Hls Hl).
  - apply cell_char_no_LF, value_text_cell.
Qed.

(** X9: when no label of the engagement series holds a comma or a line
    feed, the file exportToCSV writes splits at its line feeds into
    exactly the rows that were written (the header, four rows of
    statistics, a blank row, the header of the series, one row per
    label), and each row of the series splits at its first comma into the
    label and the text of its value: the texts of Numbers never hold a
    comma or a line feed. *)
Theorem exportToCSV_rows_read_back (p : Page Main.Globals) (data : AnalysisData)
    (ed : Series) (ls : list string) (vs : list number) :
  Main.currentAnalysisData (globals p) = Some data →
  engagement_data data = Some ed → labels ed = Some ls → values ed = Some vs →
  Forall (λ l, all_chars cell_char l = true) ls →
  ∃ csv, blob_text <$> new_downloads p (Main.exportToCSV p) = [csv]
    ∧ lines csv = summary_rows data ++ [""; "日付,エンゲージメント率"] ++ series_rows ls vs
    ∧ split_head "," <$> drop 7 (lines csv) = ls
    ∧ after_comma <$> drop 7 (lines csv) = value_text vs <$> seq 0 (length ls).
Proof.
  intros Hp Hed Hls Hvs Hcell.
  rewrite (exportToCSV_texts p data Hp), csv_text_rows, Hed, Hls, Hvs.
  eexists. split; [done|].
  assert (lines (unlines (summary_rows data ++ ["";"日付,エンゲージメント率"]
                          ++ series_rows ls vs))
          = summary_rows data ++ ["";"日付,エンゲージメント率"] ++ series_rows ls vs) as ->.
  { apply lines_unlines. apply Forall_app. split; [apply summary_rows_no_LF|].
    apply Forall_app. split; [|by apply series_rows_no_LF].
    repeat apply Forall_cons_2; try apply Forall_nil_2; done. }
  split; [done|].
  change (drop 7 (summary_rows data ++ ["";"日付,エンゲージメント率"] ++ series_rows ls vs))
    with (series_rows ls vs).
  split.
  - apply list_eq. intros i. rewrite list_lookup_fmap, series_rows_lookup.
    destruct (ls !! i) as [l|] eqn:Hl; [|done]. simpl. f_equal.
    apply split_head_append, cell_char_no_comma.
    by apply (Forall_lookup_1 _ _ _ _ Hcell Hl).
  - apply list_eq. intros i. rewrite !list_lookup_fmap, series_rows_lookup.
    destruct (ls !! i) as [l|] eqn:Hl; simpl.
    + rewrite lookup_seq_lt by (by apply lookup_lt_Some in Hl). simpl. f_equal.
      apply after_comma_append, cell_char_no_comma.
      by apply (Forall_lookup_1 _ _ _ _ Hcell Hl).
    + by rewrite lookup_seq_ge by (by apply lookup_ge_None in Hl).
Qed.

Lemma exportToCSV_rows_read_back_witness :
  ∃ csv, blob_text <$> new_downloads sample_page (Main.exportToCSV sample_page) = [csv]
    ∧ split_head "," <$> drop 7 (lines csv) = ["2024-03-01"; "2024-03-02"]
    ∧ after_comma <$> drop 7 (lines csv) = ["4.75"; "6.25"].
Proof.
  destruct (exportToCSV_rows_read_back sample_page sample_data _ _ _
              eq_refl eq_refl eq_refl eq_refl) as (csv & E & _ & Hl & Hv).
  - repeat constructor.
  - exists csv. split; [exact E|]. split; [exact Hl|].
    rewrite Hv. vm_compute. reflexivity.
Defined.

(** ** Series that are incomplete *)

(** X10: when the stored result has an engagement series without labels,
    or with labels but without values, exportToCSV throws a TypeError and
    leaves the page as it was: no file, and no alert either. *)
Theorem exportToCSV_incomplete_series (p : Page Main.Globals) (data : AnalysisData) :
  Main.currentAnalysisData (globals p) = Some data →
  series_incomplete data →
  Main.exportToCSV p = Throw TypeError p.
Proof.
  intros H (ed & Hed & Hinc).
  pose proof (exportToCSV_stored p data H) as Hst.
  rewrite csv_text_rows, Hed in Hst.
  destruct Hinc as [Hls | (l & ls & Hls & Hvs)]; rewrite Hls in Hst; [done|].
  by rewrite Hvs in Hst.
Qed.

Lemma exportToCSV_incomplete_series_witness :
  Main.exportToCSV unlabelled_page = Throw TypeError unlabelled_page.
Proof.
  apply (exportToCSV_incomplete_series unlabelled_page unlabelled_data eq_refl).
  eexists. split; [reflexivity|]. by left.
Defined.

Lemma dashboard_series_rows_lookup (ls : list string) (vs : list number) (i : nat) :
  dashboard_series_rows ls vs !! i = (λ l, l +:+ "," +:+ stat_cell (vs !! i)) <$> ls !! i.
Proof. unfold dashboard_series_rows. by rewrite list_lookup_imap. Qed.

(** X11: a label of the series that has no value (the values are fewer
    than the labels) is exported by exportToCSV with the text
    [undefined] and by the dashboard's exportData with [0]. *)
Theorem export_label_without_value (p : Page Main.Globals) (q : Page Dashboard.Globals)
    (data : AnalysisData) (ed : Series) (ls : list string) (vs : list number)
    (i : nat) (l : string) :
  Main.currentAnalysisData (globals p) = Some data →
  Dashboard.currentData (globals q) = Some data →
  engagement_data data = Some ed → labels ed = Some ls → values ed = Some vs →
  ls !! i = Some l → vs !! i = None →
  ∃ rows rows',
    blob_text <$> new_downloads p (Main.exportToCSV p) = [unlines rows]
    ∧ rows !! (7 + i) = Some (l +:+ ",undefined")
    ∧ blob_text <$> new_downloads q (Dashboard.exportData q) = [unlines rows']
    ∧ rows' !! (7 + i) = Some (l +:+ ",0").
Proof.
  intros Hp Hq Hed Hls Hvs Hl Hv.
  rewrite (exportToCSV_texts p data Hp), csv_text_rows, Hed, Hls, Hvs.
  rewrite (exportData_texts q data Hq), dashboard_csv_text_rows, Hed, Hls, Hvs.
  eexists _, _. split; [done|]. split; [|split; [done|]].
  - change ((summary_rows data ++ ["";"日付,エンゲージメント率"] ++ series_rows ls vs)
              !! (7 + i)) with (series_rows ls vs !! i).
    rewrite series_rows_lookup, Hl. unfold value_text. by rewrite Hv.
  - change ((dashboard_summary_rows data ++ ["";"日付,エンゲージメント"]
               ++ dashboard_series_rows ls vs) !! (7 + i))
      with (dashboard_series_rows ls vs !! i).
    rewrite dashboard_series_rows_lookup, Hl. by rewrite Hv.
Qed.

Lemma export_label_without_value_witness :
  ∃ rows rows',
    blob_text <$> new_downloads ragged_page (Main.exportToCSV ragged_page) = [unlines rows]
    ∧ rows !! 8%nat = Some "2024-03-02,undefined"
    ∧ blob_text <$> new_downloads ragged_dashboard (Dashboard.exportData ragged_dashboard)
      = [unlines rows']
    ∧ rows' !! 8%nat = Some "2024-03-02,0".
Proof.
  exact (export_label_without_value ragged_page ragged_dashboard ragged_data _ _ _ 1
           "2024-03-02" eq_refl eq_refl eq_refl eq_refl eq_refl eq_refl eq_refl).
Defined.

(** X12: the file the dashboard's exportData writes holds the header, then
    the rows of total posts, total likes, total comments and average
    engagement (without a percent sign); a result without an engagement
    series, or with a series without labels, ends there; with labels and
    values there follow a blank line, the header of the series and one
    row per label, a missing or zero value written as 0; labels without
    any values make it throw a TypeError and leave the page as it was. *)
Theorem exportData_row_order (p : Page Dashboard.Globals) (data : AnalysisData) :
  Dashboard.currentData (globals p) = Some data →
  (engagement_data data = None ∨ (∃ ed, engagement_data data = Some ed ∧ labels ed = None) →
   blob_text <$> new_downloads p (Dashboard.exportData p)
   = [unlines (dashboard_summary_rows data)])
  ∧ (∀ ed ls vs,
       engagement_data data = Some ed → labels ed = Some ls → values ed = Some vs →
       blob_text <$> new_downloads p (Dashboard.exportData p)
       = [unlines (dashboard_summary_rows data ++ [""; "日付,エンゲージメント"]
                   ++ dashboard_series_rows ls vs)])
  ∧ (∀ ed l ls,
       engagement_data data = Some ed → labels ed = Some (l :: ls) → values ed = None →
       Dashboard.exportData p = Throw TypeError p).
Proof.
  intros H. rewrite (exportData_texts p data H).
  pose proof (exportData_stored p data H) as Hst.
  rewrite dashboard_csv_text_rows in *.
  split; [|split].
  - intros [-> | (ed & -> & ->)]; done.
  - by intros ed ls vs -> -> ->.
  - intros ed l ls Hed Hls Hvs. by rewrite Hed, Hls, Hvs in Hst.
Qed.

Lemma exportData_row_order_witness :
  blob_text <$> new_downloads sample_dashboard (Dashboard.exportData sample_dashboard)
  = [unlines [ "メトリック,値"; "総投稿数,42"; "総いいね数,310"; "総コメント数,27";
               "平均エンゲージメント,5.5"; ""; "日付,エンゲージメント";
               "2024-03-01,4.75"; "2024-03-02,6.25" ]].
Proof.
  exact (proj1 (proj2 (exportData_row_order sample_dashboard sample_data eq_refl))
           _ _ _ eq_refl eq_refl eq_refl).
Defined.

(** ** Numbers that are not abbreviated *)

Section abbreviations.
Local Open Scope Z_scope.

Lemma geb_not_positive (x : number) (m : positive) (e : Z) :
  not_positive x = true → geb x (S754_finite false m e) = false.
Proof. by destruct x as [[]|[]| |[] mx ex]. Qed.

(** X13: formatNumber, in both scripts, abbreviates by the value and not by
    the magnitude: a Number that is negative, zero or NaN is shown as its
    text, however large its magnitude. *)
Theorem formatNumber_not_abbreviated (x : number) :
  not_positive x = true →
  Main.formatNumber x = Number_toString x
  ∧ Dashboard.formatNumber (Some x) = Number_toString x.
Proof.
  intros Hx. rewrite dashboard_formatNumber_main. unfold Main.formatNumber.
  destruct (Number_of_Z_int 1000000 ltac:(lia)) as (mM & eM & -> & _).
  destruct (Number_of_Z_int 1000 ltac:(lia)) as (mK & eK & -> & _).
  by rewrite !geb_not_positive.
Qed.

(** X14: the integers from 999950 to 999999 are all shown as [1000.0K]:
    below a million the suffix is [K], and the quotient rounds up to a
    thousand; a million itself is [1.0M]. *)
Theorem formatNumber_top_of_K (z : Z) :
  999950 ≤ z < 1000000 →
  Main.formatNumber (Number_of_Z z) = "1000.0K"
  ∧ Main.formatNumber (Number_of_Z 1000000) = "1.0M".
Proof.
  intros Hz. split; [|vm_compute; reflexivity].
  assert (forallb (λ n, String.eqb (Main.formatNumber (Number_of_Z (999950 + Z.of_nat n)))
                          "1000.0K") (seq 0 50) = true) as Hall
    by (vm_compute; reflexivity).
  rewrite forallb_forall in Hall.
  specialize (Hall (Z.to_nat (z - 999950)) ltac:(apply in_seq; lia)).
  rewrite Z2Nat.id in Hall by lia.
  replace (999950 + (z - 999950)) with z in Hall by lia.
  by apply String.eqb_eq in Hall.
Qed.
End abbreviations.

Lemma formatNumber_not_abbreviated_witness :
  Main.formatNumber (dec (-5000) 0) = "-5000".
Proof.
  rewrite (proj1 (formatNumber_not_abbreviated (dec (-5000) 0) eq_refl)).
  vm_compute. reflexivity.
Defined.

Lemma formatNumber_top_of_K_witness :
  Main.formatNumber (Number_of_Z 999950) = "1000.0K".
Proof. apply (proj1 (formatNumber_top_of_K 999950 ltac:(lia))). Defined.

(** ** The charts of the dashboard *)



(** ** The metric cards of the dashboard *)

Lemma update_card_effect (key : string) (v : number) (w : Window) (g : Dashboard.Globals) :
  Dashboard.update_card key v (MkPage w g)
  = Return tt (MkPage (with_textContent (card_text w key v (textContent w)) w) g).
Proof.
  unfold Dashboard.update_card, querySelector, card_text, with_textContent.
  unfold mbind, M_bind, get_window, mret, M_ret. simpl.
  destruct (decide (Dashboard.metric_card key ∈ elements w)); simpl; [done|].
  by destruct w.
Qed.

Lemma updateMetricsCards_writes_cards (p : Page Dashboard.Globals) :
  Dashboard.updateMetricsCards p
  = match Dashboard.currentData (globals p) with
    | Some data =>
        Return tt
          (MkPage (with_textContent
                     (cards_texts (win p) (Dashboard.metrics (stats data))
                        (textContent (win p))) (win p))
                  (globals p))
    | None => Throw TypeError p
    end.
Proof.
  destruct p as [w g]. unfold Dashboard.updateMetricsCards.
  unfold mbind at 1, M_bind at 1. simpl.
  destruct (Dashboard.currentData g) as [data|]; [|done].
  unfold mbind at 1, M_bind at 1. simpl.
  unfold mbind, M_bind. rewrite update_card_effect.
  rewrite update_card_effect. simpl. rewrite update_card_effect. simpl.
  rewrite update_card_effect. simpl. done.
Qed.

(** *** Sums of integer Numbers *)

Section sums.
Local Open Scope Z_scope.

Lemma iter_pos_commute {A} (f : A → A) (n : positive) (x : A) :
  SpecFloat.iter_pos f n (f x) = f (SpecFloat.iter_pos f n x).
Proof.
  revert x. induction n as [n IH|n IH|]; intros x; simpl; [|by rewrite !IH|done].
  by rewrite !IH.
Qed.

Lemma iter_pos_succ {A} (f : A → A) (n : positive) (x : A) :
  SpecFloat.iter_pos f (Pos.succ n) x = SpecFloat.iter_pos f n (f x).
Proof.
  revert x. induction n as [n IH|n IH|]; intros x; simpl; [|done..].
  rewrite !IH. f_equal. symmetry. apply iter_pos_commute.
Qed.

(** Shifting an even mantissa right by one more place than its half. *)
Lemma shr_xO (m : positive) (e n : Z) :
  0 ≤ n →
  shr (shr_record_of_loc (Zpos m~0) loc_Exact) e (n + 1)
  = shr (shr_record_of_loc (Zpos m) loc_Exact) (e + 1) n.
Proof.
  intros Hn. unfold shr. destruct n as [|n|n]; [simpl; done| |lia].
  replace (Zpos n + 1) with (Zpos (Pos.succ n)) by lia.
  rewrite iter_pos_succ. simpl. f_equal. lia.
Qed.

(** A mantissa with a trailing zero bit rounds as its half does, one
    exponent higher. *)
Lemma binary_round_xO (sx : bool) (m : positive) (e : Z) :
  binary_round prec emax sx m~0 e = binary_round prec emax sx m (e + 1).
Proof.
  unfold binary_round. simpl digits2_pos. rewrite Pos2Z.inj_succ.
  replace (Z.succ (Zpos (digits2_pos m)) + e) with (Zpos (digits2_pos m) + (e + 1)) by lia.
  set (fe := fexp prec emax (Zpos (digits2_pos m) + (e + 1))).
  assert (fe = fexp prec emax (Zpos (digits2_pos m) + (e + 1))) as Hfe by done.
  clearbody fe.
  unfold shl_align.
  destruct (fe - (e + 1)) as [|k|k] eqn:Hk.
  - (* fe = e + 1: the even mantissa is shifted right once *)
    replace (fe - e) with 1 by lia.
    unfold binary_round_aux, shr_fexp. simpl Zdigits2. rewrite Pos2Z.inj_succ.
    replace (Z.succ (Zpos (digits2_pos m)) + e) with (Zpos (digits2_pos m) + (e + 1)) by lia.
    rewrite <- Hfe. replace (fe - e) with (0 + 1) by lia.
    rewrite (shr_xO m e 0) by lia.
    replace (fe - (e + 1)) with 0 by lia. done.
  - replace (fe - e) with (Zpos k + 1) by lia.
    replace (Zpos k + 1) with (Zpos (k + 1)) by lia.
    unfold binary_round_aux, shr_fexp. simpl Zdigits2. rewrite Pos2Z.inj_succ.
    replace (Z.succ (Zpos (digits2_pos m)) + e) with (Zpos (digits2_pos m) + (e + 1)) by lia.
    rewrite <- Hfe. replace (fe - e) with (Zpos k + 1) by lia.
    rewrite (shr_xO m e (Zpos k)) by lia.
    replace (fe - (e + 1)) with (Zpos k) by lia. done.
  - (* the half is shifted left *)
    destruct (fe - e) as [|j|j] eqn:Hj; [| lia |].
    + assert (k = 1%positive) as -> by lia. simpl. by replace fe with e by lia.
    + assert (k = Pos.succ j) as -> by lia.
      rewrite Pos.iter_succ_r. done.
Qed.

Lemma binary_round_shift (sx : bool) (m k : positive) (e : Z) :
  binary_round prec emax sx (Pos.iter xO m k) (e - Zpos k) = binary_round prec emax sx m e.
Proof.
  revert e. induction k as [|k IH] using Pos.peano_ind; intros e.
  - simpl. rewrite binary_round_xO. f_equal. lia.
  - rewrite Pos.iter_succ, binary_round_xO.
    replace (e - Zpos (Pos.succ k) + 1) with (e - Zpos k) by lia. apply IH.
Qed.

Lemma shl_align_value (m : positive) (e e' : Z) :
  e' ≤ e → Zpos (shl_align m e e').1 = Zpos m * 2 ^ (e - e').
Proof.
  intros He. unfold shl_align. destruct (e' - e) as [|k|k] eqn:Hk; [|lia|].
  - replace (e - e') with 0 by lia. simpl. lia.
  - simpl. rewrite iter_xO_value. f_equal. f_equal. lia.
Qed.

(** The sum of two integer Numbers is exact as long as it is below
    [2^53]. *)
Lemma add_int (a b : Z) :
  0 ≤ a → 0 ≤ b → a + b < 2 ^ 53 →
  add (Number_of_Z a) (Number_of_Z b) = Number_of_Z (a + b).
Proof.
  intros Ha Hb Hab.
  destruct (decide (a = 0)) as [->|Ha0].
  { destruct (decide (b = 0)) as [->|Hb0]; [done|].
    destruct (Number_of_Z_int b ltac:(lia)) as (mb & eb & E & _). simpl. by rewrite E. }
  destruct (decide (b = 0)) as [->|Hb0].
  { destruct (Number_of_Z_int a ltac:(lia)) as (ma & ea & E & _).
    rewrite Z.add_0_r. by rewrite E. }
  destruct (Number_of_Z_int a ltac:(lia)) as (ma & ea & -> & Hea & Hma & _).
  destruct (Number_of_Z_int b ltac:(lia)) as (mb & eb & -> & Heb & Hmb & _).
  unfold add, SFadd. simpl cond_Zopp.
  set (ez := ea `min` eb).
  rewrite (shl_align_value ma ea ez), (shl_align_value mb eb ez) by lia.
  rewrite Hma, Hmb, <- !Z.mul_assoc, <- !Z.pow_add_r by lia.
  replace (- ea + (ea - ez)) with (- ez) by lia.
  replace (- eb + (eb - ez)) with (- ez) by lia.
  rewrite <- Z.mul_add_distr_r.
  destruct (a + b) as [|s|s] eqn:Hs; [lia| |lia].
  destruct ez as [|k|k] eqn:Hez; [|lia|].
  - change (2 ^ (- 0)) with 1. by rewrite Z.mul_1_r.
  - change (- Zneg k) with (Zpos k). rewrite <- iter_xO_value.
    unfold Number_of_Z, binary_normalize.
    by rewrite <- (binary_round_shift false s k 0).
Qed.
End sums.

Section cards.
Local Open Scope Z_scope.

(** Below 1000 an integer is shown as its digits. *)
Lemma formatNumber_small (z : Z) :
  0 ≤ z < 1000 → Dashboard.formatNumber (Some (Number_of_Z z)) = digits z.
Proof.
  intros Hz.
  assert (forallb (λ n, negb (geb (Number_of_Z (Z.of_nat n)) (Number_of_Z 1000000))
                        && negb (geb (Number_of_Z (Z.of_nat n)) (Number_of_Z 1000)))
            (seq 0 1000) = true) as Hall by (vm_compute; reflexivity).
  rewrite forallb_forall in Hall.
  specialize (Hall (Z.to_nat z)). rewrite Z2Nat.id in Hall by lia.
  destruct (andb_prop _ _ (Hall ltac:(apply in_seq; lia))) as [HM HK].
  apply negb_true_iff in HM, HK.
  rewrite dashboard_formatNumber_main. unfold Main.formatNumber.
  rewrite HM, HK. apply Number_toString_int. lia.
Qed.

Lemma formatNumber_zero (sg : bool) : Dashboard.formatNumber (Some (S754_zero sg)) = "0".
Proof. by destruct sg. Qed.

(** X16: the engagement card adds likes and comments; when one of the two
    is missing from the statistics the sum is NaN, the metric falls back
    to zero, and the card shows [0] whatever the other count is. *)
Theorem engagement_card_missing_count (s : Stats) :
  total_likes s = None ∨ total_comments s = None →
  Dashboard.engagement (Dashboard.metrics s) = zero
  ∧ Dashboard.formatNumber (Some (Dashboard.engagement (Dashboard.metrics s))) = "0".
Proof.
  intros H. assert (Dashboard.engagement (Dashboard.metrics s) = zero) as E.
  { unfold Dashboard.metrics. simpl. destruct H as [-> | ->]; simpl.
    - done.
    - by destruct (ToNumber (total_likes s)). }
  by rewrite E.
Qed.

(** X17: for likes and comments that are integers with a sum below [2^53]
    the engagement metric is their exact sum, and below 1000 the card
    shows its digits. *)
Theorem engagement_card_sum (s : Stats) (a b : Z) :
  total_likes s = Some (Number_of_Z a) → total_comments s = Some (Number_of_Z b) →
  0 ≤ a → 0 ≤ b → a + b < 2 ^ 53 →
  Dashboard.engagement (Dashboard.metrics s) = Number_of_Z (a + b)
  ∧ (a + b < 1000 →
     Dashboard.formatNumber (Some (Dashboard.engagement (Dashboard.metrics s)))
     = digits (a + b)).
Proof.
  intros Hl Hc Ha Hb Hab.
  assert (Dashboard.engagement (Dashboard.metrics s) = Number_of_Z (a + b)) as E.
  { unfold Dashboard.metrics. simpl. rewrite Hl, Hc. simpl. rewrite add_int by done.
    destruct (decide (a + b = 0)) as [->|Hne]; [done|].
    destruct (Number_of_Z_int (a + b) ltac:(lia)) as (m & e & -> & _). done. }
  split; [done|]. intros Hsmall. rewrite E. apply formatNumber_small. lia.
Qed.

(** X18: the cost card shows ten times the average engagement, as the
    script computes the product, rounded to the nearest integer, the
    larger one on a tie: with [nu/de] the value of the product, the metric
    is the integer [floor (nu/de + 1/2)], and below 1000 the card shows
    its digits, without a decimal point. *)
Theorem cost_card_rounds (s : Stats) (nu de : Z) :
  value_of (mul (Dashboard.stat_or_zero (avg_engagement s)) (Number_of_Z 10))
  = Some (nu, de) →
  let k := (2 * nu + de) `div` (2 * de) in
  k < 2 ^ 53 →
  Number_toString (Dashboard.cost (Dashboard.metrics s)) = digits k
  ∧ (k < 1000 →
     Dashboard.formatNumber (Some (Dashboard.cost (Dashboard.metrics s))) = digits k).
Proof.
  change (Dashboard.cost (Dashboard.metrics s))
    with (Math_round (mul (Dashboard.stat_or_zero (avg_engagement s)) (Number_of_Z 10))).
  destruct (mul (Dashboard.stat_or_zero (avg_engagement s)) (Number_of_Z 10))
    as [sg|sg| |[] m e]; intros H; try discriminate H;
    injection H as <- <-; cbv zeta; intros Hk; unfold Math_round.
  - split; [done|]. intros _. apply formatNumber_zero.
  - assert (0 < num_of m e) as Hnu
      by (unfold num_of; pose proof (Z.pow_pos_nonneg 2 (Z.max e 0)); lia).
    assert (0 < den_of e) as Hde by (unfold den_of; apply Z.pow_pos_nonneg; lia).
    assert (0 ≤ (2 * num_of m e + den_of e) `div` (2 * den_of e)) as Hk0
      by (apply Z.div_pos; lia).
    destruct ((2 * num_of m e + den_of e) `div` (2 * den_of e) =? 0) eqn:E.
    + apply Z.eqb_eq in E. rewrite E in *. split; [done|]. by intros _.
    + split; [apply Number_toString_int; lia|].
      intros Hs. apply formatNumber_small. lia.
Qed.
End cards.

Lemma engagement_card_missing_count_witness :
  Dashboard.formatNumber
    (Some (Dashboard.engagement (Dashboard.metrics (stats unset_data)))) = "0".
Proof.
  exact (proj2 (engagement_card_missing_count (stats unset_data) (or_introl eq_refl))).
Defined.

Lemma engagement_card_sum_witness :
  Dashboard.formatNumber
    (Some (Dashboard.engagement (Dashboard.metrics (stats sample_data)))) = "337".
Proof.
  refine (proj2 (engagement_card_sum (stats sample_data) 310 27 eq_refl eq_refl _ _ _) _);
    lia.
Defined.

Lemma cost_card_rounds_witness :
  Dashboard.formatNumber (Some (Dashboard.cost (Dashboard.metrics (stats sample_data))))
  = "55".
Proof.
  refine (proj2 (cost_card_rounds (stats sample_data) 7740561859543040 140737488355328
                   eq_refl _) _); vm_compute; reflexivity.
Defined.

Lemma lookup_card_text (w : Window) (key : string) (v : number) (t : gmap string string)
    (id : string) :
  card_text w key v t !! id
  = if decide (id = Dashboard.metric_card key ∧ Dashboard.metric_card key ∈ elements w)
    then Some (Dashboard.formatNumber (Some v))
    else t !! id.
Proof.
  unfold card_text. destruct (decide (Dashboard.metric_card key ∈ elements w)) as [Hin|Hnot].
  - destruct (decide (id = Dashboard.metric_card key)) as [->|Hne].
    + rewrite lookup_insert_eq. by rewrite decide_True.
    + rewrite lookup_insert_ne by done. by rewrite decide_False by by intros [? _].
  - by rewrite decide_False by by intros [_ ?].
Qed.

Lemma metric_card_inj (k1 k2 : string) :
  Dashboard.metric_card k1 = Dashboard.metric_card k2 → k1 = k2.
Proof.
  unfold Dashboard.metric_card. intros E.
  apply (f_equal (λ s, String.length s)) in E as Hlen.
  rewrite !length_append in Hlen.
  assert (String.length k1 = String.length k2) as Hl by lia. clear Hlen.
  apply (inj (String.append _)) in E.
  revert k2 E Hl. induction k1 as [|c k1 IH]; intros [|c2 k2] E Hl; try done.
  rewrite !append_cons in E. injection E as -> E. f_equal. apply IH; [done | by injection Hl].
Qed.

(** X15: without data updateMetricsCards throws a TypeError and changes
    nothing.  With data it returns normally whatever cards the document
    has: a card that is there shows the abbreviated text of its metric, a
    card that is not there is skipped, and no other text and nothing else
    of the page changes. *)
Theorem metric_cards_shown (p : Page Dashboard.Globals) :
  (Dashboard.currentData (globals p) = None →
   Dashboard.updateMetricsCards p = Throw TypeError p)
  ∧ (∀ data, Dashboard.currentData (globals p) = Some data →
     ∃ p', Dashboard.updateMetricsCards p = Return tt p'
       ∧ (∀ key v, (key, v) ∈ card_values (Dashboard.metrics (stats data)) →
            textContent (win p') !! Dashboard.metric_card key
            = if decide (Dashboard.metric_card key ∈ elements (win p))
              then Some (Dashboard.formatNumber (Some v))
              else textContent (win p) !! Dashboard.metric_card key)
       ∧ (∀ id, id ∉ Dashboard.metric_card <$> ["posts"; "engagement"; "clicks"; "cost"] →
            textContent (win p') !! id = textContent (win p) !! id)
       ∧ with_textContent (textContent (win p)) (win p') = win p
       ∧ globals p' = globals p).
Proof.
  rewrite updateMetricsCards_writes_cards. split; [by intros ->|].
  intros data ->. eexists. split; [done|]. simpl.
  destruct p as [w g]. simpl.
  split; [|split; [|split; [by destruct w | done]]].
  - intros key v Hin. unfold card_values in Hin.
    unfold cards_texts. rewrite !lookup_card_text.
    repeat (apply elem_of_cons in Hin as [[= -> ->]|Hin]);
      [..|by apply elem_of_nil in Hin];
      repeat match goal with
        | |- context [decide (?a = ?a ∧ ?P)] =>
            destruct (decide (a = a ∧ P)) as [[_ ?]|Hn];
            [by rewrite decide_True by done
            |rewrite (decide_False (P := P)) by (intros ?; apply Hn; by split)]
        | |- context [decide (Dashboard.metric_card ?a = Dashboard.metric_card ?b ∧ ?P)] =>
            rewrite (decide_False (P := Dashboard.metric_card a = Dashboard.metric_card b ∧ P))
              by (intros [E _]; by apply metric_card_inj in E)
        end; done.
  - intros id Hid. unfold cards_texts. rewrite !lookup_card_text.
    repeat (rewrite decide_False
              by (intros [-> _]; apply Hid;
                  repeat first [apply list_elem_of_here | apply list_elem_of_further])).
    done.
Qed.

Lemma metric_cards_shown_witness :
  ∃ p', Dashboard.updateMetricsCards cards_dashboard = Return tt p'
    ∧ textContent (win p') !! Dashboard.metric_card "posts" = Some "42"
    ∧ textContent (win p') !! Dashboard.metric_card "cost" = Some "55"
    ∧ textContent (win p') !! Dashboard.metric_card "clicks" = None.
Proof.
  destruct (proj2 (metric_cards_shown cards_dashboard) sample_data eq_refl)
    as (p' & E & Hcards & _).
  exists p'. split; [exact E|].
  split; [|split].
  - rewrite (Hcards "posts" (Dashboard.posts (Dashboard.metrics (stats sample_data))))
      by in_list.
    rewrite decide_True by in_elements. vm_compute. reflexivity.
  - rewrite (Hcards "cost" (Dashboard.cost (Dashboard.metrics (stats sample_data))))
      by in_list.
    rewrite decide_True by in_elements. vm_compute. reflexivity.
  - rewrite (Hcards "clicks" (Dashboard.clicks (Dashboard.metrics (stats sample_data))))
      by in_list.
    rewrite decide_False; [done|].
    unfold cards_dashboard, cards_window. cbn [win elements]. not_in_elements.
Defined.

(** ** The table filter of the dashboard *)

Section table.
Variable toLowerCase : string → string.

Lemma lowered_or_empty_default (v : option string) :
  Dashboard.lowered_or_empty toLowerCase v = default "" (toLowerCase <$> v).
Proof.
  destruct v as [v|]; [|done]. unfold Dashboard.lowered_or_empty, or_else. simpl.
  by destruct (toLowerCase v).
Qed.

Lemma value_or_empty_default (v : option string) :
  Dashboard.value_or_empty v = default "" v.
Proof. destruct v as [[|]|]; done. Qed.

Lemma String_includes_empty (s : string) : String_includes s "" = true.
Proof. by destruct s. Qed.

Lemma String_includes_of_empty (a : string) : String_includes "" a = true → a = "".
Proof. by destruct a. Qed.

(** What filterTable does to one row. *)
Lemma filterTable_lookup (search status : option string) (rows : list Dashboard.Row)
    (i : nat) :
  Dashboard.filterTable toLowerCase search status rows !! i
  = (λ row,
       with_display
         (if String_includes (default "" (toLowerCase <$> Dashboard.row_title row))
               (default "" (toLowerCase <$> search))
             && (String.eqb (default "" status) ""
                 || String.eqb (if is_active row then "active" else "paused")
                      (default "" status))
          then "" else "none") row) <$> rows !! i.
Proof.
  unfold Dashboard.filterTable. rewrite list_lookup_fmap.
  destruct (rows !! i) as [row|]; [|done]. simpl.
  by rewrite !lowered_or_empty_default, !value_or_empty_default.
Qed.

(** X19: a row that filterTable leaves visible is a row of the table with
    nothing but its display changed; its title, in lower case, includes
    the search term in lower case (so a row without title is visible only
    when the term is empty); and the status filter is empty, or it is
    [active] and the row's indicator carries that class, or it is
    [paused] and the row's indicator does not (a row without indicator
    counts as paused).  So any other value of the status filter hides
    every row. *)
Theorem filterTable_visible_rows_match (search status : option string)
    (rows : list Dashboard.Row) (i : nat) (row' : Dashboard.Row) :
  Dashboard.filterTable toLowerCase search status rows !! i = Some row' →
  Dashboard.row_display row' = "" →
  (∃ row, rows !! i = Some row ∧ row' = with_display "" row)
  ∧ String_includes (default "" (toLowerCase <$> Dashboard.row_title row'))
      (default "" (toLowerCase <$> search)) = true
  ∧ (Dashboard.row_title row' = None → default "" (toLowerCase <$> search) = "")
  ∧ (cleared status
     ∨ (status = Some "active" ∧ is_active row' = true)
     ∨ (status = Some "paused" ∧ is_active row' = false)).
Proof.
  rewrite filterTable_lookup. intros Hi Hd.
  destruct (rows !! i) as [row|] eqn:Hrow; [|done]. simpl in Hi. injection Hi as <-.
  cbv beta in *. simpl in Hd.
  match type of Hd with (if ?c then _ else _) = _ => destruct c eqn:Hc; [|done] end.
  apply andb_prop in Hc as [Hs Hm].
  split; [by exists row|]. split; [exact Hs|].
  split. { simpl. intros Ht. rewrite Ht in Hs. by apply String_includes_of_empty. }
  change (is_active (with_display "" row)) with (is_active row).
  unfold cleared. destruct status as [st|]; [|by left; left]. simpl in Hm.
  destruct (String.eqb_spec st "") as [->|_]; [by left; right|]. simpl in Hm.
  apply String.eqb_eq in Hm. destruct (is_active row); subst st; auto.
Qed.

(** X20: with an empty search box and an empty status filter (or without
    these controls) filterTable shows every row, also the rows an earlier
    filter had hidden. *)
Theorem filterTable_cleared_shows_all (search status : option string)
    (search' status' : option string) (rows : list Dashboard.Row) :
  toLowerCase "" = "" → cleared search → cleared status →
  Dashboard.filterTable toLowerCase search status
    (Dashboard.filterTable toLowerCase search' status' rows)
  = with_display "" <$> rows.
Proof.
  intros Hlow Hs Hst. apply list_eq. intros i.
  rewrite filterTable_lookup, filterTable_lookup, list_lookup_fmap.
  destruct (rows !! i) as [row|]; [|done]. simpl. f_equal.
  assert (default "" (toLowerCase <$> search) = "") as -> by (by destruct Hs as [-> | ->]).
  assert (default "" status = "") as -> by (by destruct Hst as [-> | ->]).
  by rewrite String_includes_empty.
Qed.

(** X21: filterTable decides on each row afresh: filtering a table that was
    filtered before gives what filtering the original table gives. *)
Theorem filterTable_last_filter_wins (search status search' status' : option string)
    (rows : list Dashboard.Row) :
  Dashboard.filterTable toLowerCase search status
    (Dashboard.filterTable toLowerCase search' status' rows)
  = Dashboard.filterTable toLowerCase search status rows.
Proof.
  apply list_eq. intros i. rewrite !filterTable_lookup.
  by destruct (rows !! i).
Qed.
End table.

Lemma filterTable_visible_rows_match_witness :
  Dashboard.filterTable ascii_lower (Some "SALE") (Some "active") sample_rows !! 0%nat
  = Some (with_display "" {| Dashboard.row_title := Some "Sale 2024";
                             Dashboard.row_status := Some {["status-indicator"; "active"]};
                             Dashboard.row_display := "" |})
  ∧ String_includes "sale 2024" "sale" = true.
Proof.
  split; [reflexivity|].
  exact (proj1 (proj2 (filterTable_visible_rows_match ascii_lower (Some "SALE")
                         (Some "active") sample_rows 0
                         (with_display "" {| Dashboard.row_title := Some "Sale 2024";
                                             Dashboard.row_status :=
                                               Some {["status-indicator"; "active"]};
                                             Dashboard.row_display := "" |})
                         eq_refl eq_refl))).
Defined.

Lemma filterTable_cleared_shows_all_witness :
  Dashboard.filterTable ascii_lower (Some "") None
    (Dashboard.filterTable ascii_lower (Some "SALE") (Some "active") sample_rows)
  = with_display "" <$> sample_rows.
Proof.
  apply (filterTable_cleared_shows_all ascii_lower (Some "") None (Some "SALE")
           (Some "active") sample_rows).
  - reflexivity.
  - by right.
  - by left.
Defined.

(** ** The click handlers of the dashboard *)

Lemma navItem_click_lookup (i j : nat) (navItems : list Dashboard.Item) :
  Dashboard.navItem_click i navItems !! j
  = (λ it, if decide (i = j)
           then Dashboard.classList_add "active" (Dashboard.classList_remove "active" it)
           else Dashboard.classList_remove "active" it) <$> navItems !! j.
Proof.
  unfold Dashboard.navItem_click, Dashboard.activate.
  destruct (decide (i = j)) as [->|Hne].
  - rewrite list_lookup_alter_eq, list_lookup_fmap. by destruct (navItems !! j).
  - rewrite list_lookup_alter_ne by done. by rewrite list_lookup_fmap.
Qed.

(** X22: after a click on a navigation item, that item and no other
    carries the class [active]; no item is added or removed, and every
    other class and the data of every item stay as they were. *)
Theorem navItem_click_one_active (i : nat) (navItems : list Dashboard.Item) :
  length (Dashboard.navItem_click i navItems) = length navItems
  ∧ ∀ j it', Dashboard.navItem_click i navItems !! j = Some it' →
      ("active" ∈ Dashboard.classList it' ↔ j = i)
      ∧ ∃ it, navItems !! j = Some it
          ∧ Dashboard.dataset_period it' = Dashboard.dataset_period it
          ∧ ∀ c, c ≠ "active" →
              (c ∈ Dashboard.classList it' ↔ c ∈ Dashboard.classList it).
Proof.
  split.
  - unfold Dashboard.navItem_click, Dashboard.activate.
    by rewrite length_alter, length_fmap.
  - intros j it'. rewrite navItem_click_lookup.
    destruct (navItems !! j) as [it|]; [|done]. simpl. intros [= <-].
    destruct (decide (i = j)) as [->|Hne]; simpl.
    + split; [split; [done | intros _; apply elem_of_union_r, elem_of_singleton_2; done]|].
      exists it. split; [done|]. split; [done|]. intros c Hc.
      rewrite elem_of_union, elem_of_difference, elem_of_singleton. tauto.
    + split.
      { rewrite elem_of_difference, elem_of_singleton. intuition congruence. }
      exists it. split; [done|]. split; [done|]. intros c Hc.
      rewrite elem_of_difference, elem_of_singleton. tauto.
Qed.

(** X23: a click on a period button marks that button as the active one,
    writes one line with the period to the console, and changes nothing
    else: no request is sent, and the charts, the texts and the stored
    data stay as they were. *)
Theorem chartBtn_click_keeps_data (i : nat) (chartBtns : list Dashboard.Item)
    (p : Page Dashboard.Globals) :
  ∃ p', Dashboard.chartBtn_click i chartBtns p
        = Return (Dashboard.activate i chartBtns) p'
    ∧ globals p' = globals p
    ∧ charts (win p') = charts (win p)
    ∧ fetches (win p') = fetches (win p)
    ∧ textContent (win p') = textContent (win p)
    ∧ alerts (win p') = alerts (win p)
    ∧ console (win p')
      = console (win p)
        ++ ["Updating chart for period: "
            +:+ ToString (Main.text_of (chartBtns !! i ≫= Dashboard.dataset_period))].
Proof.
  destruct p as [w g]. unfold Dashboard.chartBtn_click, Dashboard.updateChartPeriod.
  unfold mbind, M_bind. simpl.
  destruct (Dashboard.mainChart g); simpl; eexists; repeat split.
Qed.
